(** * eu_einvoice: a shallow embedding of the mapping and policy code

  The development follows the Python sources module by module:
  - [Utils]          eu_einvoice/utils.py (profiles, guideline tables)
  - [CommonCodes]    eu_einvoice/common_codes.py (CommonCodeRetriever)
  - [SalesInvoice]   european_e_invoice/custom/sales_invoice.py
  - [EInvoiceImport] doctype/e_invoice_import/e_invoice_import.py

  Numbers.  In the forward mapper a Python [float] is modelled by the
  rational it denotes ([Q]); comparisons and sign changes are exact on
  floats, and the three operations of the mapper that round (division,
  multiplication and [round]) are a parameter ([Py.FloatRounding]).  The
  import side is written over any implementation [F] of the float
  operations it uses ([Py.Float]); [Py.binary64] is the one Python has.
  [str | None] values are modelled by [option string], Python truthiness
  is written out ([truthy_*]). *)

From Stdlib Require Import Ascii String QArith Lqa PrimFloat.
From Stdlib Require Uint63 SpecFloat FloatAxioms FloatOps.
From stdpp Require Import base option list strings pretty gmap.

Local Open Scope string_scope.

(** ** Python helpers shared by the modules *)

Module Py.

(** [bool(x)] for a [str | None]: [None] and the empty string are falsy. *)
Definition truthy_str (x : option string) : bool :=
  match x with
  | Some s => negb (String.eqb s "")
  | None => false
  end.

(** [a or b] on [str | None]. *)
Definition or_str (a b : option string) : option string :=
  if truthy_str a then a else b.

(** [a or d] where the right operand is a [str]. *)
Definition or_else (a : option string) (d : string) : string :=
  match a with
  | Some s => if truthy_str a then s else d
  | None => d
  end.

(** [x in xs] for strings. *)
Definition str_in (x : string) (xs : list string) : bool :=
  existsb (String.eqb x) xs.

(** [any(xs)] on a list of strings. *)
Definition any_str (xs : list string) : bool :=
  existsb (fun s => negb (String.eqb s "")) xs.

(** [sep.join(xs)]. *)
Fixpoint join (sep : string) (xs : list string) : string :=
  match xs with
  | [] => ""
  | [x] => x
  | x :: rest => x +:+ sep +:+ join sep rest
  end.

(** [xs[i]] for a possibly negative index: negative indices count from
    the end, an index outside [-len, len) raises IndexError ([None]). *)
Definition index {A} (xs : list A) (i : Z) : option A :=
  let n := Z.of_nat (length xs) in
  if (0 <=? i)%Z then xs !! Z.to_nat i
  else if (0 <=? n + i)%Z then xs !! Z.to_nat (n + i)
  else None.

(** [xs.index(x)]: position of the first occurrence (ValueError: [None]). *)
Fixpoint list_index {A} `{EqDecision A} (x : A) (xs : list A) : option nat :=
  match xs with
  | [] => None
  | y :: rest => if decide (x = y) then Some 0%nat else S <$> list_index x rest
  end.

(** The line feed character of ["\n".join(...)]. *)
Definition newline : string := String (Ascii.ascii_of_nat 10) EmptyString.

(** [s[:n]]. *)
Definition str_prefix (n : nat) (s : string) : string := String.substring 0 n s.

(** Exceptions, and results of code that can raise. *)
Inductive PyError : Type :=
| TypeError
| ValueError
| ZeroDivisionError.

Inductive result (A : Type) : Type :=
| Ok (a : A)
| Raise (e : PyError).

Arguments Ok {A} a.
Arguments Raise {A} e.

Definition rbind {A B} (m : result A) (k : A -> result B) : result B :=
  match m with
  | Ok a => k a
  | Raise e => Raise e
  end.

#[export] Instance result_mbind : MBind result := fun A B k m => rbind m k.
#[export] Instance result_mret : MRet result := fun A a => Ok a.

(** Python's [float], as far as the import side uses it: zero, the test
    [x == 0], [x >= y], [x - y] and [x / y] for a divisor that is not
    zero.  The functions that use floats are written for every
    implementation of these operations. *)
Class Float (F : Type) : Type := {
  float_zero : F;
  float_is_zero : F -> bool;
  float_ge : F -> F -> bool;
  float_sub : F -> F -> F;
  float_div : F -> F -> F;
}.

(** The implementation Python has: IEEE 754 double precision. *)
#[export] Instance binary64 : Float PrimFloat.float :=
  {| float_zero := PrimFloat.zero;
     float_is_zero := fun x => PrimFloat.eqb x PrimFloat.zero;
     float_ge := fun x y => PrimFloat.leb y x;
     float_sub := PrimFloat.sub;
     float_div := PrimFloat.div |}.

(** [x / y] on floats: a divisor equal to zero raises. *)
Definition true_div {F} `{Float F} (x y : F) : result F :=
  if float_is_zero y then Raise ZeroDivisionError else Ok (float_div x y).

(** The float operations of the forward mapper whose result is rounded
    to a float: [x / y], [x * y] and [round(x, ndigits)], on floats given
    by the rationals they denote. *)
Class FloatRounding : Type := {
  rounded_div : Q -> Q -> Q;
  rounded_mul : Q -> Q -> Q;
  round : Q -> nat -> Q;
}.

(** A dict built from its items in order: a later item overwrites an
    earlier one with the same key (dict literals and comprehensions). *)
Definition dict_of_items {K V} `{Countable K} (items : list (K * V)) : gmap K V :=
  foldl (fun acc '(k, v) => <[k := v]> acc) ∅ items.

(** Comparisons and truthiness of numbers. *)
Definition Qltb (x y : Q) : bool := (Qnum x * QDen y <? Qnum y * QDen x)%Z.
Definition Qgeb (x y : Q) : bool := Qle_bool y x.

Definition truthy_num (x : option Q) : bool :=
  match x with
  | Some q => negb (Qeq_bool q 0)
  | None => false
  end.

(** [a or b] on [float | None]. *)
Definition or_num (a b : option Q) : option Q :=
  if truthy_num a then a else b.

(** [a == b] on [float | None]. *)
Definition eq_num (a b : option Q) : bool :=
  match a, b with
  | Some x, Some y => Qeq_bool x y
  | None, None => true
  | _, _ => false
  end.

(** [s.isascii()]. *)
Definition isascii (s : string) : bool :=
  forallb (fun c => (Ascii.nat_of_ascii c <? 128)%nat) (list_ascii_of_string s).

(** [s.upper()] for a string of ASCII characters ([s.isascii()]): the
    letters a to z are mapped to A to Z. *)
Definition upper_ascii (c : ascii) : ascii :=
  let n := Ascii.nat_of_ascii c in
  if ((97 <=? n) && (n <=? 122))%nat then Ascii.ascii_of_nat (n - 32) else c.

Fixpoint upper (s : string) : string :=
  match s with
  | EmptyString => EmptyString
  | String c rest => String (upper_ascii c) (upper rest)
  end.

End Py.

(** ** eu_einvoice/utils.py *)

Module Utils.

Inductive EInvoiceProfile : Type :=
| BASIC
| EN16931
| EXTENDED
| XRECHNUNG.

#[export] Instance EInvoiceProfile_eq_dec : EqDecision EInvoiceProfile.
Proof. solve_decision. Defined.

(** The enum's declaration order, used only to key the tables. *)
Definition declaration_index (p : EInvoiceProfile) : nat :=
  match p with BASIC => 0 | EN16931 => 1 | EXTENDED => 2 | XRECHNUNG => 3 end.

Definition of_declaration_index (n : nat) : option EInvoiceProfile :=
  match n with
  | 0 => Some BASIC | 1 => Some EN16931 | 2 => Some EXTENDED | 3 => Some XRECHNUNG
  | _ => None
  end.

#[export] Instance EInvoiceProfile_countable : Countable EInvoiceProfile.
Proof.
  apply (inj_countable declaration_index of_declaration_index).
  intros []; reflexivity.
Defined.

(** [EInvoiceProfile.value]. *)
Definition value (p : EInvoiceProfile) : string :=
  match p with
  | BASIC => "BASIC"
  | EN16931 => "EN 16931"
  | EXTENDED => "EXTENDED"
  | XRECHNUNG => "XRECHNUNG"
  end.

(** [EInvoiceProfile(s)]: lookup by value (ValueError: [None]). *)
Definition of_value (s : string) : option EInvoiceProfile :=
  list_find (fun p => String.eqb (value p) s = true) [BASIC; EN16931; EXTENDED; XRECHNUNG]
    ≫= fun '(_, p) => Some p.

(** The list inside [__lt__]. *)
Definition order : list EInvoiceProfile := [BASIC; EN16931; XRECHNUNG; EXTENDED].

(** [__lt__]: [order.index(self) < order.index(other)].  [order.index]
    raises ValueError for a value that is not in the list ([None]). *)
Definition lt (self other : EInvoiceProfile) : option bool :=
  i ← Py.list_index self order;
  j ← Py.list_index other order;
  Some (i <? j)%nat.

(** The comparisons [functools.total_ordering] derives from [__lt__]
    and the enum's identity [__eq__]. *)
Definition eqb (a b : EInvoiceProfile) : bool := bool_decide (a = b).

Definition le (a b : EInvoiceProfile) : option bool :=
  r ← lt a b; Some (r || eqb a b).

Definition gt (a b : EInvoiceProfile) : option bool :=
  r ← lt a b; Some (negb r && negb (eqb a b)).

Definition ge (a b : EInvoiceProfile) : option bool :=
  r ← lt a b; Some (negb r).

(** The dict literals, as their items in the order they are written. *)
Definition PROFILE_TO_SCHEMA_items : list (EInvoiceProfile * string) :=
  [ (BASIC, "FACTUR-X_BASIC");
    (EN16931, "FACTUR-X_EN16931");
    (XRECHNUNG, "FACTUR-X_EN16931");
    (EXTENDED, "FACTUR-X_EXTENDED") ].

Definition PROFILE_TO_GUIDELINE_items : list (EInvoiceProfile * string) :=
  [ (BASIC, "urn:cen.eu:en16931:2017#compliant#urn:factur-x.eu:1p0:basic");
    (EN16931, "urn:cen.eu:en16931:2017");
    (XRECHNUNG, "urn:cen.eu:en16931:2017#compliant#urn:xeinkauf.de:kosit:xrechnung_3.0");
    (EXTENDED, "urn:cen.eu:en16931:2017#conformant#urn:factur-x.eu:1p0:extended") ].

Definition PROFILE_TO_SCHEMA : gmap EInvoiceProfile string :=
  Py.dict_of_items PROFILE_TO_SCHEMA_items.

Definition PROFILE_TO_GUIDELINE : gmap EInvoiceProfile string :=
  Py.dict_of_items PROFILE_TO_GUIDELINE_items.

(** [{v: k for k, v in PROFILE_TO_GUIDELINE.items()}]. *)
Definition GUIDELINE_TO_PROFILE : gmap string EInvoiceProfile :=
  Py.dict_of_items ((fun '(k, v) => (v, k)) <$> PROFILE_TO_GUIDELINE_items).

Definition get_drafthorse_schema (profile : EInvoiceProfile) : option string :=
  PROFILE_TO_SCHEMA !! profile.

Definition get_guideline (profile : EInvoiceProfile) : option string :=
  PROFILE_TO_GUIDELINE !! profile.

Definition get_profile (guideline : string) : option EInvoiceProfile :=
  GUIDELINE_TO_PROFILE !! guideline.

End Utils.


(** ** eu_einvoice/common_codes.py *)

Module CommonCodes.

Record CommonCodeRetriever : Type := {
  code_lists : list string;
  default_code : string;
}.

(** [bool(codes)] for the running [codes] variable of [get_code]:
    [None] and the empty tuple are falsy. *)
Definition truthy_codes (codes : option (list string)) : bool :=
  match codes with
  | Some (_ :: _) => true
  | _ => false
  end.

Section Retriever.

(** The host's code-list service ([erpnext.edi.doctype.code_list]):
    the codes of a code list for a (doctype, name) classifier, and the
    default code of a code list. *)
Variable get_codes_for : string -> string -> string -> list string.
Variable get_default_code : string -> option string.

(** The inner [for doctype, name in records] loop of [get_code], started
    with the current value of [codes]; the result is the value of [codes]
    when the loop is left (by [break] or at its end). *)
Fixpoint get_code_records (code_list : string) (records : list (string * option string))
    (codes : option (list string)) : option (list string) :=
  match records with
  | [] => codes
  | (doctype, name) :: rest =>
    if negb (Py.truthy_str name) then get_code_records code_list rest codes
    else
      let codes := Some (get_codes_for code_list doctype (default "" name)) in
      if truthy_codes codes then codes else get_code_records code_list rest codes
  end.

(** The outer [for code_list in self.code_lists] loop of [get_code]. *)
Fixpoint get_code_lists (lists : list string) (records : list (string * option string))
    (codes : option (list string)) : option (list string) :=
  match lists with
  | [] => codes
  | code_list :: rest =>
    let codes := get_code_records code_list records codes in
    if truthy_codes codes then codes else get_code_lists rest records codes
  end.

Definition get_code (self : CommonCodeRetriever) (records : list (string * option string))
    : option string :=
  let codes := get_code_lists (code_lists self) records None in
  if truthy_codes codes then codes ≫= head else None.

(** The loop of [CommonCodeRetriever.get_default_code]. *)
Fixpoint get_default_code_lists (lists : list string) : option string :=
  match lists with
  | [] => None
  | code_list :: rest =>
    let default_code := get_default_code code_list in
    if Py.truthy_str default_code then default_code else get_default_code_lists rest
  end.

Definition get_default_code_of (self : CommonCodeRetriever) : option string :=
  get_default_code_lists (code_lists self).

(** [get]: [self.get_code(records) or self.get_default_code() or self.default_code];
    the last operand of the chain is the retriever's own [str]. *)
Definition get (self : CommonCodeRetriever) (records : list (string * option string))
    : string :=
  Py.or_else (Py.or_str (get_code self records) (get_default_code_of self))
             (default_code self).

(** No candidate pair with a non-empty value has an entry in [code_list]. *)
Definition no_hit (code_list : string) (records : list (string * option string)) : Prop :=
  forall doctype name,
    (doctype, Some name) ∈ records -> name <> "" -> get_codes_for code_list doctype name = [].

(** [code_list] has no configured default code. *)
Definition no_default (code_list : string) : Prop :=
  Py.truthy_str (get_default_code code_list) = false.

End Retriever.

End CommonCodes.

(** ** eu_einvoice/schematron/__init__.py *)

Module Schematron.
Import Utils.

Definition PROFILE_TO_XSL : gmap EInvoiceProfile string :=
  Py.dict_of_items
    [ (BASIC, "Factur-X_1.07.2_BASIC.xsl");
      (EN16931, "EN16931-CII-validation-preprocessed.xsl");
      (EXTENDED, "Factur-X_1.07.2_EXTENDED.xsl");
      (XRECHNUNG, "XRechnung-CII-validation.xsl") ].

Section Engine.

(** The rule engine behind [get_errors_from_stylesheet]: the (errors,
    warnings) extracted from the report of running a stylesheet over the
    XML text, or [None] when the engine raises. *)
Variable get_errors_from_stylesheet : string -> string -> option (list string * list string).

(** [get_validation_errors]; [PROFILE_TO_XSL[profile]] raises KeyError
    ([None]) for a profile without a stylesheet. *)
Definition get_validation_errors (xml_string : string) (profile : EInvoiceProfile)
    : option (list string * list string) :=
  stylesheet ← PROFILE_TO_XSL !! profile;
  get_errors_from_stylesheet xml_string stylesheet.

End Engine.

End Schematron.

(** ** eu_einvoice/european_e_invoice/custom/sales_invoice.py *)

Module SalesInvoice.
Import Utils CommonCodes.

Definition uom_codes : CommonCodeRetriever :=
  {| code_lists := ["urn:xoev-de:kosit:codeliste:rec20_3"; "urn:xoev-de:kosit:codeliste:rec21_3"];
     default_code := "C62" |}.

Definition payment_means_codes : CommonCodeRetriever :=
  {| code_lists := ["urn:xoev-de:xrechnung:codeliste:untdid.4461_3"]; default_code := "ZZZ" |}.

Definition duty_tax_fee_category_codes : CommonCodeRetriever :=
  {| code_lists := ["urn:xoev-de:kosit:codeliste:untdid.5305_3"]; default_code := "S" |}.

Definition vat_exemption_reason_codes : CommonCodeRetriever :=
  {| code_lists := ["urn:xoev-de:kosit:codeliste:vatex_1"]; default_code := "vatex-eu-ae" |}.

(** *** The invoice aggregate (the fields the mapper reads) *)

Record SalesInvoiceItem : Type := {
  idx : nat;
  item_name : string;
  item_code : option string;
  customer_item_code : option string;
  description : string;
  net_rate : Q;
  qty : Q;
  uom : option string;
  delivery_note : option string;
  item_tax_template : option string;
  income_account : option string;
  net_amount : Q;
}.

(** A row of [invoice.taxes].  [row_net_amount] and [row_custom_net_amount]
    are [None] when the row object has no such attribute ([hasattr] is
    false) and hold the attribute's value otherwise. *)
Record SalesTaxesAndCharges : Type := {
  charge_type : string;
  row_description : option string;
  account_head : option string;
  rate : option Q;
  tax_amount : option Q;
  total : option Q;
  row_net_amount : option (option Q);
  row_custom_net_amount : option (option Q);
}.

Record SalesInvoice : Type := {
  tax_category : option string;
  taxes_and_charges : option string;
  items : list SalesInvoiceItem;
  taxes : list SalesTaxesAndCharges;
  net_total : Q;
}.

(** A row of an Item Tax Template. *)
Record ItemTaxTemplateDetail : Type := {
  tax_type : string;
  tax_rate : Q;
}.

(** *** The document tree (the parts these methods write) *)

Record TradeTax : Type := {
  type_code : option string;
  category_code : option string;
  rate_applicable_percent : option Q;
  basis_amount : option Q;
  calculated_amount : option Q;
  exemption_reason_code : option string;
}.

Definition empty_trade_tax : TradeTax :=
  {| type_code := None; category_code := None; rate_applicable_percent := None;
     basis_amount := None; calculated_amount := None; exemption_reason_code := None |}.

Record LineItem : Type := {
  line_id : string;
  product_name : string;
  seller_assigned_id : option string;
  buyer_assigned_id : option string;
  product_description : option string;
  agreement_net_amount : Q;
  billed_quantity : Q * string;
  delivery_note_id : option string;
  delivery_note_issue_date : option string;
  settlement_trade_tax : TradeTax;
  total_amount : Q;
}.

Record LogisticsServiceCharge : Type := {
  charge_description : option string;
  applied_amount : option Q;
  charge_trade_tax : list TradeTax;
}.

(** The generator object: profile and invoice, the two accumulators of
    [__init__] and the parts of [self.doc] written here. *)
Record EInvoiceGenerator : Type := {
  profile : EInvoiceProfile;
  invoice : SalesInvoice;
  item_tax_rates : list (option Q);
  delivery_dates : list string;
  doc_items : list LineItem;
  doc_service_charge : list LogisticsServiceCharge;
  doc_trade_tax : list TradeTax;
}.

Definition new_generator (profile : EInvoiceProfile) (invoice : SalesInvoice) : EInvoiceGenerator :=
  {| profile := profile; invoice := invoice; item_tax_rates := []; delivery_dates := [];
     doc_items := []; doc_service_charge := []; doc_trade_tax := [] |}.

(** [s.add(x)] on a set of rates kept as a duplicate-free list. *)
Definition set_add (x : option Q) (s : list (option Q)) : list (option Q) :=
  if existsb (Py.eq_num x) s then s else (s ++ [x])%list.

Section Host.

(** The rounding float operations, and the host system as far as these
    methods call it: the code-list service, [frappe.utils.flt] and the
    field precision it is called with, [html2text], and three database
    reads. *)
Context {rounding : Py.FloatRounding}.
Variable get_codes_for : string -> string -> string -> list string.
Variable get_default_code : string -> option string.
Variable flt : Q -> option nat -> Q.
Variable precision : SalesInvoiceItem -> string -> option nat.
Variable html2text : string -> string.
Variable delivery_note_posting_date : string -> string.
Variable item_tax_template_taxes : string -> list ItemTaxTemplateDetail.
Variable account_tax_rate : option string -> option Q.

Definition codes_get (retriever : CommonCodeRetriever) (records : list (string * option string))
    : string :=
  CommonCodes.get get_codes_for get_default_code retriever records.

(** [[tax.account_head for tax in taxes if tax.account_head]]. *)
Definition applicable_accounts (taxes : list SalesTaxesAndCharges) : list string :=
  omap (fun tax => if Py.truthy_str (account_head tax) then account_head tax else None) taxes.

(** [[invoice_tax.rate for invoice_tax in taxes if invoice_tax.charge_type == "On Net Total"]]. *)
Definition on_net_total_rates (taxes : list SalesTaxesAndCharges) : list (option Q) :=
  rate <$> filter (fun invoice_tax => charge_type invoice_tax = "On Net Total") taxes.

(** [get_item_rate]. *)
Definition get_item_rate (item_tax_template : option string)
    (taxes : list SalesTaxesAndCharges) : option Q :=
  let from_template :=
    if Py.truthy_str item_tax_template then
      let tax_template := item_tax_template_taxes (default "" item_tax_template) in
      let applicable_accounts := applicable_accounts taxes in
      snd <$> list_find (fun item_tax => Py.str_in (tax_type item_tax) applicable_accounts = true)
                        tax_template
    else None in
  match from_template with
  | Some item_tax => Some (tax_rate item_tax)
  | None =>
    let tax_rates := on_net_total_rates taxes in
    if (length tax_rates =? 1)%nat then mjoin (head tax_rates) else None
  end.

(** The classifier pairs [_add_line_item] passes to both the category
    and the exemption-reason retriever. *)
Definition line_tax_records (self : EInvoiceGenerator) (item : SalesInvoiceItem)
    : list (string * option string) :=
  [ ("Item Tax Template", item_tax_template item);
    ("Account", income_account item);
    ("Tax Category", tax_category (invoice self));
    ("Sales Taxes and Charges Template", taxes_and_charges (invoice self)) ].

(** [-1 if item.net_rate < 0 and item.qty > 0 else 1]. *)
Definition multiplier (item : SalesInvoiceItem) : Q :=
  if Py.Qltb (net_rate item) 0 && Py.Qltb 0 (qty item) then (-1)%Q else 1%Q.

(** [_add_line_item]: the line item it builds, and the generator after
    it.  The comparisons on profiles can raise inside [__lt__] ([None]). *)
Definition build_line_item (self : EInvoiceGenerator) (item : SalesInvoiceItem)
    : option (LineItem * EInvoiceGenerator) :=
  above_basic ← gt (profile self) BASIC;
  let seller_assigned_id := if above_basic : bool then item_code item else None in
  let buyer_assigned_id := if above_basic then customer_item_code item else None in
  let product_description := if above_basic then Some (html2text (description item)) else None in
  let multiplier := multiplier item in
  let amount := (flt (net_rate item) (precision item "net_rate") * multiplier)%Q in
  let billed_quantity :=
    ((flt (qty item) (precision item "qty") * multiplier)%Q,
     codes_get uom_codes [("UOM", uom item)]) in
  '(delivery_dates, note_id, note_date) ←
    (if Py.truthy_str (delivery_note item) then
       let posting_date := delivery_note_posting_date (default "" (delivery_note item)) in
       extended ← ge (profile self) EXTENDED;
       Some ((delivery_dates self ++ [posting_date])%list,
             if extended : bool then delivery_note item else None,
             if extended then Some posting_date else None)
     else Some (delivery_dates self, None, None));
  let category_code := codes_get duty_tax_fee_category_codes (line_tax_records self item) in
  let '(rate_applicable_percent, item_tax_rates) :=
    if Py.str_in category_code ["AE"; "E"; "G"; "K"; "Z"] then
      (Some 0%Q, item_tax_rates self)
    else
      let item_tax_rate := get_item_rate (item_tax_template item) (taxes (invoice self)) in
      (item_tax_rate, set_add item_tax_rate (item_tax_rates self)) in
  let exemption_reason_code :=
    if Py.eq_num rate_applicable_percent (Some 0%Q) then
      Some (Py.upper (codes_get vat_exemption_reason_codes (line_tax_records self item)))
    else None in
  let li :=
    {| line_id := pretty (idx item);
       product_name := item_name item;
       seller_assigned_id := seller_assigned_id;
       buyer_assigned_id := buyer_assigned_id;
       product_description := product_description;
       agreement_net_amount := amount;
       billed_quantity := billed_quantity;
       delivery_note_id := note_id;
       delivery_note_issue_date := note_date;
       settlement_trade_tax :=
         {| type_code := Some "VAT";
            category_code := Some category_code;
            rate_applicable_percent := rate_applicable_percent;
            basis_amount := None;
            calculated_amount := None;
            exemption_reason_code := exemption_reason_code |};
       total_amount := flt (net_amount item) (precision item "net_amount") |} in
  Some (li,
        {| profile := profile self; invoice := invoice self;
           item_tax_rates := item_tax_rates; delivery_dates := delivery_dates;
           doc_items := (doc_items self ++ [li])%list;
           doc_service_charge := doc_service_charge self;
           doc_trade_tax := doc_trade_tax self |}).

Definition _add_line_item (self : EInvoiceGenerator) (item : SalesInvoiceItem)
    : option EInvoiceGenerator :=
  snd <$> build_line_item self item.

(** The classifier pairs [_add_taxes_and_charges] passes for a tax row. *)
Definition row_tax_records (self : EInvoiceGenerator) (tax : SalesTaxesAndCharges)
    : list (string * option string) :=
  [ ("Account", account_head tax);
    ("Tax Category", tax_category (invoice self));
    ("Sales Taxes and Charges Template", taxes_and_charges (invoice self)) ].

Definition add_service_charge (self : EInvoiceGenerator) (c : LogisticsServiceCharge)
    : EInvoiceGenerator :=
  {| profile := profile self; invoice := invoice self;
     item_tax_rates := item_tax_rates self; delivery_dates := delivery_dates self;
     doc_items := doc_items self;
     doc_service_charge := (doc_service_charge self ++ [c])%list;
     doc_trade_tax := doc_trade_tax self |}.

Definition add_trade_tax (self : EInvoiceGenerator) (rates : list (option Q)) (t : TradeTax)
    : EInvoiceGenerator :=
  {| profile := profile self; invoice := invoice self;
     item_tax_rates := rates; delivery_dates := delivery_dates self;
     doc_items := doc_items self;
     doc_service_charge := doc_service_charge self;
     doc_trade_tax := (doc_trade_tax self ++ [t])%list |}.

(** [tax.rate or frappe.db.get_value("Account", tax.account_head, "tax_rate") or 0]. *)
Definition effective_tax_rate (tax : SalesTaxesAndCharges) : option Q :=
  Py.or_num (Py.or_num (rate tax) (account_tax_rate (account_head tax))) (Some 0%Q).

(** The [On Net Total] branch: the trade tax it emits and the set of
    line rates it leaves ([pop] empties a one-element set). *)
Definition on_net_total_tax (self : EInvoiceGenerator) (tax : SalesTaxesAndCharges)
    : option (TradeTax * list (option Q)) :=
  let tax_rate := effective_tax_rate tax in
  '(basis_amount, rate_applicable_percent, rates) ←
    (if (length (taxes (invoice self)) =? 1)%nat then
       if (length (item_tax_rates self) =? 1)%nat && Py.eq_num tax_rate (Some 0%Q) then
         Some (Some (net_total (invoice self)),
               mjoin (head (item_tax_rates self)), tail (item_tax_rates self))
       else Some (Some (net_total (invoice self)), tax_rate, item_tax_rates self)
     else
       match row_net_amount tax, row_custom_net_amount tax with
       | Some net_amount, _ => Some (net_amount, tax_rate, item_tax_rates self)
       | None, Some custom_net_amount => Some (custom_net_amount, tax_rate, item_tax_rates self)
       | None, None =>
         if Py.truthy_num (tax_amount tax) && Py.truthy_num tax_rate then
           amount ← tax_amount tax;
           r ← tax_rate;
           Some (Some (Py.round (Py.rounded_mul (Py.rounded_div amount r) 100) 2),
                 tax_rate, item_tax_rates self)
         else Some (Some 0%Q, tax_rate, item_tax_rates self)
       end);
  Some ({| type_code := Some "VAT";
           category_code := Some (codes_get duty_tax_fee_category_codes (row_tax_records self tax));
           rate_applicable_percent := rate_applicable_percent;
           basis_amount := basis_amount;
           calculated_amount := tax_amount tax;
           exemption_reason_code := None |},
        rates).

(** The trade tax a previous-row branch builds for [tax], where
    [previous] is the row [self.invoice.taxes[i - 1]] and [basis] the
    field read off it. *)
Definition previous_row_trade_tax (self : EInvoiceGenerator) (tax previous : SalesTaxesAndCharges)
    (basis : option Q) : TradeTax :=
  {| type_code := Some (if String.eqb (charge_type previous) "Actual" then "VAT" else "SUR");
     category_code := Some (codes_get duty_tax_fee_category_codes (row_tax_records self tax));
     rate_applicable_percent := rate tax;
     basis_amount := basis;
     calculated_amount := tax_amount tax;
     exemption_reason_code := None |}.

(** The two previous-row branches; [basis_of] reads [tax_amount] or
    [total] off [self.invoice.taxes[i - 1]]. *)
Definition on_previous_row_tax (self : EInvoiceGenerator) (i : nat) (tax : SalesTaxesAndCharges)
    (basis_of : SalesTaxesAndCharges -> option Q) : option TradeTax :=
  previous ← Py.index (taxes (invoice self)) (Z.of_nat i - 1);
  Some (previous_row_trade_tax self tax previous (basis_of previous)).

(** The [Actual] branch (profile >= EXTENDED). *)
Definition service_charge_of (self : EInvoiceGenerator) (i : nat) (tax : SalesTaxesAndCharges)
    : option LogisticsServiceCharge :=
  trade_tax ←
    (if (i + 1 <? length (taxes (invoice self)))%nat then
       vat_line ← Py.index (taxes (invoice self)) (Z.of_nat i + 1);
       if Py.str_in (charge_type vat_line) ["On Previous Row Amount"; "On Previous Row Total"] then
         Some [ {| type_code := Some "VAT";
                   category_code :=
                     Some (codes_get duty_tax_fee_category_codes (row_tax_records self vat_line));
                   rate_applicable_percent := rate vat_line;
                   basis_amount := None;
                   calculated_amount := None;
                   exemption_reason_code := None |} ]
       else Some []
     else Some []);
  Some {| charge_description := row_description tax;
          applied_amount := tax_amount tax;
          charge_trade_tax := trade_tax |}.

(** One iteration of [for i, tax in enumerate(self.invoice.taxes)]; the
    boolean is [tax_added]. *)
Definition add_tax_row (self : EInvoiceGenerator) (tax_added : bool) (i : nat)
    (tax : SalesTaxesAndCharges) : option (EInvoiceGenerator * bool) :=
  actual_branch ←
    (if String.eqb (charge_type tax) "Actual" then ge (profile self) EXTENDED else Some false);
  if actual_branch : bool then
    service_charge ← service_charge_of self i tax;
    Some (add_service_charge self service_charge, tax_added)
  else if String.eqb (charge_type tax) "On Net Total" then
    '(trade_tax, rates) ← on_net_total_tax self tax;
    Some (add_trade_tax self rates trade_tax, true)
  else if String.eqb (charge_type tax) "On Previous Row Amount" then
    trade_tax ← on_previous_row_tax self i tax tax_amount;
    Some (add_trade_tax self (item_tax_rates self) trade_tax, true)
  else if String.eqb (charge_type tax) "On Previous Row Total" then
    trade_tax ← on_previous_row_tax self i tax total;
    Some (add_trade_tax self (item_tax_rates self) trade_tax, true)
  else Some (self, tax_added).

Fixpoint add_tax_rows (self : EInvoiceGenerator) (tax_added : bool) (i : nat)
    (rows : list SalesTaxesAndCharges) : option (EInvoiceGenerator * bool) :=
  match rows with
  | [] => Some (self, tax_added)
  | tax :: rest =>
    '(self, tax_added) ← add_tax_row self tax_added i tax;
    add_tax_rows self tax_added (S i) rest
  end.

(** [_add_taxes_and_charges]: the generator after the loop and the
    returned [tax_added]. *)
Definition _add_taxes_and_charges (self : EInvoiceGenerator) : option (EInvoiceGenerator * bool) :=
  add_tax_rows self false 0 (taxes (invoice self)).

Definition _add_empty_tax (self : EInvoiceGenerator) : EInvoiceGenerator :=
  let records :=
    [ ("Tax Category", tax_category (invoice self));
      ("Sales Taxes and Charges Template", taxes_and_charges (invoice self)) ] in
  add_trade_tax self (item_tax_rates self)
    {| type_code := Some "VAT";
       category_code := Some (codes_get duty_tax_fee_category_codes records);
       rate_applicable_percent := Some 0%Q;
       basis_amount := Some (net_total (invoice self));
       calculated_amount := Some 0%Q;
       exemption_reason_code := Some (Py.upper (codes_get vat_exemption_reason_codes records)) |}.

Fixpoint add_line_items (self : EInvoiceGenerator) (rows : list SalesInvoiceItem)
    : option EInvoiceGenerator :=
  match rows with
  | [] => Some self
  | item :: rest => self ← _add_line_item self item; add_line_items self rest
  end.

(** The part of [create_einvoice] that fills lines and tax rows: the
    loop over [invoice.items], then [_add_taxes_and_charges], then
    [_add_empty_tax] when no tax row was added. *)
Definition create_lines_and_taxes (self : EInvoiceGenerator) : option EInvoiceGenerator :=
  self ← add_line_items self (items (invoice self));
  '(self, tax_added) ← _add_taxes_and_charges self;
  Some (if tax_added : bool then self else _add_empty_tax self).

End Host.

(** *** Validation of a generated invoice *)

Record ValidationFields : Type := {
  einvoice_is_correct : bool;
  validation_errors : string;
  validation_warnings : string;
}.

Section Validation.

Variable get_errors_from_stylesheet : string -> string -> option (list string * list string).

(** The second [try] block of [validate_einvoice]; [None] when anything
    in it raises. *)
Definition collect_validation_errors (xml_string : string) (einvoice_profile : string)
    : option (list string * list string) :=
  invoice_profile ← of_value einvoice_profile;
  '(validation_errors, warnings) ←
    Schematron.get_validation_errors get_errors_from_stylesheet xml_string invoice_profile;
  if eqb invoice_profile XRECHNUNG then
    '(basic_errors, basic_warnings) ←
      Schematron.get_validation_errors get_errors_from_stylesheet xml_string EN16931;
    Some ((validation_errors ++ basic_errors)%list, (warnings ++ basic_warnings)%list)
  else Some (validation_errors, warnings).

(** [validate_einvoice]: the three fields it leaves on the invoice.
    [xml] is [get_einvoice(doc).decode()], [None] when that raises. *)
Definition validate_einvoice (einvoice_profile : option string) (xml : option string)
    : ValidationFields :=
  if negb (Py.truthy_str einvoice_profile) then
    {| einvoice_is_correct := false; validation_errors := ""; validation_warnings := "" |}
  else
    match xml with
    | None =>
      {| einvoice_is_correct := false;
         validation_errors := "Cannot create E Invoice.";
         validation_warnings := "" |}
    | Some xml_string =>
      match collect_validation_errors xml_string (default "" einvoice_profile) with
      | None =>
        {| einvoice_is_correct := false;
           validation_errors := "Cannot validate E Invoice schematron.";
           validation_warnings := "" |}
      | Some (errors, warnings) =>
        {| einvoice_is_correct := negb (Py.any_str errors);
           validation_errors :=
             if Py.any_str errors then "" +:+ Py.join Py.newline errors else "";
           validation_warnings :=
             if Py.any_str warnings then "" +:+ Py.join Py.newline warnings else "" |}
      end
    end.

End Validation.

End SalesInvoice.

(** ** european_e_invoice/doctype/e_invoice_import/e_invoice_import.py *)

Module EInvoiceImport.
Import Utils Py.

(** *** Values read off the parsed document tree

    A numeric leaf of the document tree ([_value], [_amount]) holds
    [None] or the empty string when the element was never set, and a
    [decimal.Decimal] when it was read from XML; a caller may also have
    stored a text.  [D] is the type of decimals. *)
Inductive PyVal (D : Type) : Type :=
| PyNone
| PyStr (s : string)
| PyDecimal (d : D).

Arguments PyNone {D}.
Arguments PyStr {D} s.
Arguments PyDecimal {D} d.

(** An id element of the document tree: its text and its scheme id. *)
Record IDElement : Type := {
  id_text : string;
  id_scheme_id : string;
}.

(** A line of the document tree.  [li_product_name] and
    [li_product_description] are [str(li.product.name)] and
    [str(li.product.description)], [delivery_billed_quantity_unit_code] is
    [str(li.delivery.billed_quantity._unit_code)]. *)
Record LineItem (D : Type) : Type := {
  agreement_net_amount_value : PyVal D;
  agreement_net_basis_quantity_amount : PyVal D;
  li_product_name : string;
  li_product_description : string;
  li_seller_assigned_id : IDElement;
  li_buyer_assigned_id : IDElement;
  delivery_billed_quantity_amount : PyVal D;
  delivery_billed_quantity_unit_code : string;
  trade_tax_rate_applicable_percent_value : PyVal D;
  monetary_summation_total_amount_value : PyVal D;
}.

Arguments agreement_net_amount_value {D} l.
Arguments agreement_net_basis_quantity_amount {D} l.
Arguments li_product_name {D} l.
Arguments li_product_description {D} l.
Arguments li_seller_assigned_id {D} l.
Arguments li_buyer_assigned_id {D} l.
Arguments delivery_billed_quantity_amount {D} l.
Arguments delivery_billed_quantity_unit_code {D} l.
Arguments trade_tax_rate_applicable_percent_value {D} l.
Arguments monetary_summation_total_amount_value {D} l.

(** A row of the import record's [items] table; [F] is the type of floats. *)
Record EInvoiceItem (F : Type) : Type := {
  product_name : string;
  product_description : string;
  seller_product_id : string;
  item : option string;
  billed_quantity : option F;
  unit_code : string;
  net_rate : F;
  tax_rate : option F;
  total_amount : option F;
  po_detail : option string;
}.

Arguments product_name {F} e.
Arguments product_description {F} e.
Arguments seller_product_id {F} e.
Arguments item {F} e.
Arguments billed_quantity {F} e.
Arguments unit_code {F} e.
Arguments net_rate {F} e.
Arguments tax_rate {F} e.
Arguments total_amount {F} e.
Arguments po_detail {F} e.

(** A row of a Purchase Order, and the working copy [guess_po_details]
    makes of it. *)
Record PurchaseOrderItem (F : Type) : Type := {
  name : string;
  item_code : option string;
  amount : F;
  billed_amt : F;
}.

Arguments name {F} p.
Arguments item_code {F} p.
Arguments amount {F} p.
Arguments billed_amt {F} p.

Record po_row (F : Type) : Type := {
  po_name : string;
  po_item_code : option string;
  unbilled_amount : F;
}.

Arguments po_name {F} p.
Arguments po_item_code {F} p.
Arguments unbilled_amount {F} p.

Record ImportValidation : Type := {
  e_invoice_is_correct : bool;
  validation_errors : string;
  validation_warnings : string;
}.

Section Host.

Context {F D : Type} {float_ops : Float F}.

(** Python's and the document model's conversions: [bool(d)] is false
    exactly for a decimal that is zero; [float(d)] and [float(s)], which
    raise ValueError where these give [None]; [str(e)] for an id
    element. *)
Variable decimal_is_zero : D -> bool.
Variable float_of_decimal : D -> option F.
Variable float_of_str : string -> option F.
Variable str_of_id : IDElement -> string.

(** The database reads of this module, and the rule engine. *)
Variable item_exists : string -> bool.
Variable purchase_order_items : string -> list (PurchaseOrderItem F).
Variable purchase_order_item_exists : string -> string -> bool.
Variable get_errors_from_stylesheet : string -> string -> option (list string * list string).

(** [bool(v)]: [None], the empty string and a decimal zero are falsy. *)
Definition truthy_val (v : PyVal D) : bool :=
  match v with
  | PyNone => false
  | PyStr s => negb (String.eqb s "")
  | PyDecimal d => negb (decimal_is_zero d)
  end.

(** [a or b]. *)
Definition or_val (a b : PyVal D) : PyVal D := if truthy_val a then a else b.

(** [float(v)]. *)
Definition py_float (v : PyVal D) : result F :=
  match v with
  | PyNone => Raise TypeError
  | PyStr s => match float_of_str s with Some x => Ok x | None => Raise ValueError end
  | PyDecimal d => match float_of_decimal d with Some x => Ok x | None => Raise ValueError end
  end.

(** [flt_or_none]. *)
Definition flt_or_none (value : PyVal D) : result (option F) :=
  match value with
  | PyNone => Ok None
  | _ => x ← py_float value; Ok (Some x)
  end.

(** [_validate_schematron]; [previous] is the record's
    [e_invoice_is_correct] before the call, kept when validation raises. *)
Definition _validate_schematron (profile : string) (previous : bool) (xml_string : string)
    : ImportValidation :=
  match of_value profile
        ≫= Schematron.get_validation_errors get_errors_from_stylesheet xml_string with
  | None =>
    {| e_invoice_is_correct := previous; validation_errors := ""; validation_warnings := "" |}
  | Some (errors, warnings) =>
    {| e_invoice_is_correct := negb (any_str errors);
       validation_errors := if any_str errors then "" +:+ join newline errors else "";
       validation_warnings := if any_str warnings then "" +:+ join newline warnings else "" |}
  end.

(** The first three statements of [parse_line_item]: [net_rate],
    [basis_qty] and [rate = net_rate / basis_qty]. *)
Definition line_rate (li : LineItem D) : result F :=
  net_rate ← py_float (agreement_net_amount_value li);
  basis_qty ← py_float (or_val (agreement_net_basis_quantity_amount li) (PyStr "1"));
  true_div net_rate basis_qty.

(** [parse_line_item]: the row it appends to [self.items]. *)
Definition parse_line_item (li : LineItem D) : result (EInvoiceItem F) :=
  rate ← line_rate li;
  let product_name_full := li_product_name li in
  let product_description := li_product_description li in
  let '(name, description) :=
    if (140 <? String.length product_name_full)%nat then
      (str_prefix 140 product_name_full, product_name_full +:+ " | " +:+ product_description)
    else (product_name_full, product_description) in
  let item_code := Some (str_of_id (li_buyer_assigned_id li)) in
  let item_code :=
    if truthy_str item_code && negb (item_exists (str_of_id (li_buyer_assigned_id li))) then None
    else item_code in
  billed_quantity ← flt_or_none (delivery_billed_quantity_amount li);
  tax_rate ← flt_or_none (trade_tax_rate_applicable_percent_value li);
  total_amount ← flt_or_none (monetary_summation_total_amount_value li);
  Ok {| product_name := name;
        product_description := description;
        seller_product_id := str_of_id (li_seller_assigned_id li);
        item := or_str item_code None;
        billed_quantity := billed_quantity;
        unit_code := delivery_billed_quantity_unit_code li;
        net_rate := rate;
        tax_rate := tax_rate;
        total_amount := total_amount;
        po_detail := None |}.

Definition set_po_detail (row : EInvoiceItem F) (d : option string) : EInvoiceItem F :=
  {| product_name := product_name row;
     product_description := product_description row;
     seller_product_id := seller_product_id row;
     item := item row;
     billed_quantity := billed_quantity row;
     unit_code := unit_code row;
     net_rate := net_rate row;
     tax_rate := tax_rate row;
     total_amount := total_amount row;
     po_detail := d |}.

(** [po_row.unbilled_amount >= pi_row.total_amount]; comparing a float
    with [None] raises TypeError. *)
Definition ge_total (unbilled : F) (total : option F) : result bool :=
  match total with
  | Some t => Ok (float_ge unbilled t)
  | None => Raise TypeError
  end.

(** The inner [for po_row in po_items ... else] loop: the [po_detail] it
    assigns and [po_items] after it.  The subtraction is reached only
    after the comparison, so with a total amount that is a float. *)
Fixpoint allocate (po_items : list (po_row F)) (pi_row : EInvoiceItem F)
    : result (option string * list (po_row F)) :=
  match po_items with
  | [] => Ok (None, [])
  | row :: rest =>
    fits ← (if bool_decide (po_item_code row = item pi_row)
            then ge_total (unbilled_amount row) (total_amount pi_row)
            else Ok false);
    if fits : bool then
      Ok (Some (po_name row),
          {| po_name := po_name row;
             po_item_code := po_item_code row;
             unbilled_amount :=
               float_sub (unbilled_amount row) (default float_zero (total_amount pi_row)) |}
          :: rest)
    else
      '(d, rest) ← allocate rest pi_row;
      Ok (d, row :: rest)
  end.

(** One iteration of the outer [for pi_row in self.items]. *)
Definition guess_row (purchase_order : string) (po_items : list (po_row F))
    (pi_row : EInvoiceItem F) : result (EInvoiceItem F * list (po_row F)) :=
  if truthy_str (po_detail pi_row)
     && purchase_order_item_exists (default "" (po_detail pi_row)) purchase_order
  then Ok (pi_row, po_items)
  else
    '(d, po_items) ← allocate po_items pi_row;
    Ok (set_po_detail pi_row d, po_items).

Fixpoint guess_rows (purchase_order : string) (po_items : list (po_row F))
    (rows : list (EInvoiceItem F)) : result (list (EInvoiceItem F) * list (po_row F)) :=
  match rows with
  | [] => Ok ([], po_items)
  | pi_row :: rest =>
    '(pi_row, po_items) ← guess_row purchase_order po_items pi_row;
    '(rest, po_items) ← guess_rows purchase_order po_items rest;
    Ok (pi_row :: rest, po_items)
  end.

(** The working copy of the order's rows. *)
Definition po_items_of (purchase_order : string) : list (po_row F) :=
  (fun row => {| po_name := name row;
                 po_item_code := item_code row;
                 unbilled_amount := float_sub (amount row) (billed_amt row) |})
    <$> purchase_order_items purchase_order.

(** [guess_po_details]: [self.items] after the call, together with the
    final state of the local [po_items] (empty when no order is set). *)
Definition guess_po_details (purchase_order : option string) (rows : list (EInvoiceItem F))
    : result (list (EInvoiceItem F) * list (po_row F)) :=
  if negb (truthy_str purchase_order) then
    Ok ((fun pi_row => set_po_detail pi_row None) <$> rows, [])
  else
    guess_rows (default "" purchase_order) (po_items_of (default "" purchase_order)) rows.

End Host.

End EInvoiceImport.

(** ** e_invoice_settings.py *)

Module Settings.

Record EInvoiceSettings : Type := {
  validate_sales_invoice_on_save : bool;
  validate_sales_invoice_on_submit : bool;
  error_action_on_save : string;
  error_action_on_submit : string;
}.

(** [before_validate]. *)
Definition before_validate (self : EInvoiceSettings) : EInvoiceSettings :=
  let error_action_on_save :=
    if negb (validate_sales_invoice_on_save self) then "" else error_action_on_save self in
  let error_action_on_submit :=
    if negb (validate_sales_invoice_on_submit self) then "" else error_action_on_submit self in
  {| validate_sales_invoice_on_save := validate_sales_invoice_on_save self;
     validate_sales_invoice_on_submit := validate_sales_invoice_on_submit self;
     error_action_on_save := error_action_on_save;
     error_action_on_submit := error_action_on_submit |}.

Section DocStatus.

(** [DocStatus.draft()] and [DocStatus.submitted()], two integers of the host. *)
Variable draft submitted : Z.

(** [should_validate]. *)
Definition should_validate (self : EInvoiceSettings) (docstatus : Z) : bool :=
  ((docstatus =? submitted)%Z && validate_sales_invoice_on_submit self)
  || ((docstatus =? draft)%Z && validate_sales_invoice_on_save self).

(** [should_raise_exception]. *)
Definition should_raise_exception (self : EInvoiceSettings) (docstatus : Z) : bool :=
  ((docstatus =? submitted)%Z && String.eqb (error_action_on_submit self) "Error Message")
  || ((docstatus =? draft)%Z && String.eqb (error_action_on_save self) "Error Message").

(** [should_show_message], as the truth value of what it returns (a
    boolean or one of the two action strings). *)
Definition should_show_message (self : EInvoiceSettings) (docstatus : Z) : bool :=
  ((docstatus =? submitted)%Z && Py.truthy_str (Some (error_action_on_submit self)))
  || ((docstatus =? draft)%Z && Py.truthy_str (Some (error_action_on_save self))).

End DocStatus.

End Settings.

(** ** sales_invoice.py: totals, VAT ids; e_invoice_import.py: supplier, order rows *)

Module Totals.
Import SalesInvoice.

(** The amounts of the invoice that [_set_totals] reads besides [net_total]
    and the tax rows. *)
Record InvoiceAmounts : Type := {
  invoice_grand_total : Q;
  invoice_outstanding_amount : Q;
  invoice_total_advance : Q;
  invoice_currency : string;
}.

(** [self.doc.trade.settlement.monetary_summation]; [charge_total] stays
    unset unless [_set_totals] assigns it. *)
Record MonetarySummation : Type := {
  line_total : Q;
  charge_total : option Q;
  tax_basis_total : Q;
  tax_total_other_currency : list (Q * string);
  grand_total : Q;
  prepaid_total : Q;
  due_amount : Q;
}.

(** [sum(...)] over amounts: starts at 0; adding [None] raises TypeError. *)
Fixpoint sum_amounts (amounts : list (option Q)) : option Q :=
  match amounts with
  | [] => Some 0%Q
  | amount :: rest =>
    a ← amount;
    r ← sum_amounts rest;
    Some (a + r)%Q
  end.

(** [sum(tax.tax_amount for tax in self.invoice.taxes if tax.charge_type == "Actual")]. *)
Definition actual_charge_total (taxes : list SalesTaxesAndCharges) : option Q :=
  sum_amounts (tax_amount <$> filter (fun tax => charge_type tax = "Actual") taxes).

(** [sum(tax.tax_amount for tax in self.invoice.taxes if tax.charge_type != "Actual")]. *)
Definition tax_total (taxes : list SalesTaxesAndCharges) : option Q :=
  sum_amounts (tax_amount <$> filter (fun tax => charge_type tax <> "Actual") taxes).

Section Host.

Variable flt : Q -> option nat -> Q.

(** [_set_totals]: the monetary summation it writes ([None]: a sum raised). *)
Definition _set_totals (self : EInvoiceGenerator) (amounts : InvoiceAmounts)
    : option MonetarySummation :=
  actual_charge_total ← actual_charge_total (taxes (invoice self));
  tax_total ← tax_total (taxes (invoice self));
  Some {| line_total := flt (net_total (invoice self)) (Some 2%nat);
          charge_total :=
            if Py.truthy_num (Some actual_charge_total)
            then Some (flt actual_charge_total (Some 2%nat)) else None;
          tax_basis_total :=
            flt (net_total (invoice self) + actual_charge_total)%Q (Some 2%nat);
          tax_total_other_currency :=
            [(flt tax_total (Some 2%nat), invoice_currency amounts)];
          grand_total := flt (invoice_grand_total amounts) (Some 2%nat);
          prepaid_total :=
            if Qeq_bool (invoice_outstanding_amount amounts) 0
            then flt (invoice_grand_total amounts) (Some 2%nat)
            else flt (invoice_total_advance amounts) (Some 2%nat);
          due_amount := flt (invoice_outstanding_amount amounts) (Some 2%nat) |}.

End Host.

End Totals.

(** ** sales_invoice.py: validate_doc *)

Module ValidateDoc.
Import Utils Py Settings.

(** [s.replace("\\n", "<br><br>")]. *)
Fixpoint replace_newlines (s : string) : string :=
  match s with
  | EmptyString => EmptyString
  | String c rest =>
    if (Ascii.nat_of_ascii c =? 10)%nat then "<br><br>" +:+ replace_newlines rest
    else String c (replace_newlines rest)
  end.

(** A row of [doc.payment_schedule]. *)
Record PaymentSchedule : Type := {
  discount_date : option string;
  mode_of_payment : option string;
}.

(** The fields of the Sales Invoice that [validate_doc] reads. *)
Record SalesInvoiceDoc : Type := {
  taxes : list SalesInvoice.SalesTaxesAndCharges;
  einvoice_profile : option string;
  payment_schedule : list PaymentSchedule;
  posting_date : string;
  discount_amount : option Q;
  docstatus : Z;
}.

(** The orange alerts ([frappe.msgprint(..., alert=True)]), by the row
    or the condition they report. *)
Inductive Alert : Type :=
| ChargeTypeNotSupported (tax_row : SalesInvoice.SalesTaxesAndCharges)
| ActualNeedsExtended (tax_row : SalesInvoice.SalesTaxesAndCharges)
| DiscountDateBeforePostingDate (ps : PaymentSchedule)
| OneModeOfPaymentConsidered
| DocumentDiscountNotSupported.

(** The final call [frappe.msgprint(msg=..., raise_exception=...)]. *)
Record MsgPrint : Type := {
  msg : string;
  raise_exception : bool;
}.

(** [EInvoiceProfile(doc.einvoice_profile)]: ValueError for [None] and
    for a string that is not the value of a profile. *)
Definition profile_of (einvoice_profile : option string) : Py.result EInvoiceProfile :=
  match einvoice_profile ≫= of_value with
  | Some p => Py.Ok p
  | None => Py.Raise Py.ValueError
  end.

(** The body of [for tax_row in doc.taxes]: the alerts of one row.  The
    profile is converted only for a row of charge type Actual. *)
Definition tax_row_alerts (einvoice_profile : option string)
    (tax_row : SalesInvoice.SalesTaxesAndCharges) : Py.result (list Alert) :=
  let not_supported :=
    if String.eqb (SalesInvoice.charge_type tax_row) "On Item Quantity"
    then [ChargeTypeNotSupported tax_row] else [] in
  if String.eqb (SalesInvoice.charge_type tax_row) "Actual" then
    p ← profile_of einvoice_profile;
    match lt p EXTENDED with
    | Some true => Py.Ok (not_supported ++ [ActualNeedsExtended tax_row])%list
    | Some false => Py.Ok not_supported
    | None => Py.Raise Py.ValueError
    end
  else Py.Ok not_supported.

Fixpoint tax_rows_alerts (einvoice_profile : option string)
    (rows : list SalesInvoice.SalesTaxesAndCharges) : Py.result (list Alert) :=
  match rows with
  | [] => Py.Ok []
  | tax_row :: rest =>
    alerts ← tax_row_alerts einvoice_profile tax_row;
    more ← tax_rows_alerts einvoice_profile rest;
    Py.Ok (alerts ++ more)%list
  end.

Section Host.

Variable get_errors_from_stylesheet : string -> string -> option (list string * list string).
Variable date_diff : string -> string -> Z.
Variable draft submitted : Z.

(** The loop over [doc.payment_schedule] and the test on the set of
    modes of payment it collects. *)
Definition payment_schedule_alerts (doc : SalesInvoiceDoc) : list Alert :=
  let dates :=
    omap (fun ps =>
            if Py.truthy_str (discount_date ps)
               && (date_diff (default "" (discount_date ps)) (posting_date doc) <? 0)%Z
            then Some (DiscountDateBeforePostingDate ps) else None)
         (payment_schedule doc) in
  let modes_of_payment :=
    remove_dups
      (omap (fun ps => if Py.truthy_str (mode_of_payment ps) then mode_of_payment ps else None)
            (payment_schedule doc)) in
  (dates ++ if (1 <? length modes_of_payment)%nat then [OneModeOfPaymentConsidered] else [])%list.

(** The last block of [validate_doc]: the fields [validate_einvoice]
    leaves, when it is called, and the message call made, if any.  [xml]
    is as for [validate_einvoice]. *)
Definition validate_doc_settings (settings : EInvoiceSettings) (docstatus : Z)
    (einvoice_profile xml : option string)
    : option SalesInvoice.ValidationFields * option MsgPrint :=
  if should_validate draft submitted settings docstatus then
    let doc := SalesInvoice.validate_einvoice get_errors_from_stylesheet einvoice_profile xml in
    if negb (SalesInvoice.einvoice_is_correct doc)
       && should_show_message draft submitted settings docstatus
    then (Some doc,
          Some {| msg := replace_newlines (SalesInvoice.validation_errors doc);
                  raise_exception := should_raise_exception draft submitted settings docstatus |})
    else (Some doc, None)
  else (None, None).

(** [validate_doc]: the alerts shown, the fields [validate_einvoice]
    leaves when it is called, and the final message call, if any; or the
    exception raised on the way. *)
Definition validate_doc (settings : EInvoiceSettings) (doc : SalesInvoiceDoc)
    (xml : option string)
    : Py.result (list Alert * option SalesInvoice.ValidationFields * option MsgPrint) :=
  tax_alerts ← tax_rows_alerts (einvoice_profile doc) (taxes doc);
  let alerts :=
    (tax_alerts ++ payment_schedule_alerts doc
     ++ if Py.truthy_num (discount_amount doc) then [DocumentDiscountNotSupported] else [])%list in
  let '(fields, message) :=
    validate_doc_settings settings (docstatus doc) (einvoice_profile doc) xml in
  Py.Ok (alerts, fields, message).

End Host.

End ValidateDoc.

Module VatId.

(** [re.match("^[A-Z]{2}$", s)]: two capital letters; [$] also matches
    just before a line feed that ends the string. *)
Definition is_capital (c : ascii) : bool :=
  let n := Ascii.nat_of_ascii c in ((65 <=? n) && (n <=? 90))%nat.

Definition is_line_feed (c : ascii) : bool := (Ascii.nat_of_ascii c =? 10)%nat.

Definition match_country_code (s : string) : bool :=
  match s with
  | String a (String b EmptyString) => is_capital a && is_capital b
  | String a (String b (String c EmptyString)) => is_capital a && is_capital b && is_line_feed c
  | _ => false
  end.

(** A character of the class [[0-9A-Za-z\+\*\.]]. *)
Definition is_vat_character (c : ascii) : bool :=
  let n := Ascii.nat_of_ascii c in
  ((48 <=? n) && (n <=? 57) || (65 <=? n) && (n <=? 90) || (97 <=? n) && (n <=? 122)
   || (n =? 43) || (n =? 42) || (n =? 46))%nat.

(** The characters of [s] that the class matches from the start, and what follows them. *)
Fixpoint span_vat_characters (s : string) : nat * string :=
  match s with
  | EmptyString => (0%nat, EmptyString)
  | String c rest =>
    if is_vat_character c
    then let '(n, tail) := span_vat_characters rest in (S n, tail)
    else (0%nat, s)
  end.

(** [re.match("^[0-9A-Za-z\+\*\.]{2,12}$", s)]. *)
Definition match_vat_number (s : string) : bool :=
  let '(n, tail) := span_vat_characters s in
  ((2 <=? n) && (n <=? 12))%nat
  && match tail with
     | EmptyString => true
     | String c EmptyString => is_line_feed c
     | _ => false
     end.

(** [s.replace(" ", "")]. *)
Fixpoint remove_spaces (s : string) : string :=
  match s with
  | EmptyString => EmptyString
  | String c rest =>
    if (Ascii.nat_of_ascii c =? 32)%nat then remove_spaces rest
    else String c (remove_spaces rest)
  end.

(** [s[2:]]. *)
Definition str_from_2 (s : string) : string :=
  match s with
  | String _ (String _ rest) => rest
  | _ => EmptyString
  end.

(** [validate_vat_id], for a [vat_id] of ASCII characters ([Py.upper]). *)
Definition validate_vat_id (vat_id : string) : Py.result string :=
  let country_code := Py.upper (Py.str_prefix 2 vat_id) in
  let vat_number := remove_spaces (str_from_2 vat_id) in
  if negb (match_country_code country_code) then Py.Raise Py.ValueError
  else if negb (match_vat_number vat_number) then Py.Raise Py.ValueError
  else Py.Ok (country_code +:+ vat_number).

End VatId.

Module ImportResolution.

Section Host.

(** [frappe.db.exists("Supplier", name)] and
    [frappe.db.get_value("Supplier", {"tax_id": tax_id}, "name")]. *)
Variable supplier_exists : string -> bool.
Variable supplier_by_tax_id : string -> option string.

(** [guess_supplier]: the record's [supplier] after the call. *)
Definition guess_supplier (supplier : option string) (seller_name : string)
    (seller_tax_id : option string) : option string :=
  if Py.truthy_str supplier then supplier
  else
    let supplier := if supplier_exists seller_name then Some seller_name else supplier in
    if Py.truthy_str seller_tax_id then supplier_by_tax_id (default "" seller_tax_id)
    else supplier.

End Host.

(** The description column of [po_item_query]:
    [row.description[:100] + "..." if len(row.description) > 40 else row.description]. *)
Definition po_item_description (description : string) : string :=
  if (40 <? String.length description)%nat
  then Py.str_prefix 100 description +:+ "..."
  else description.

End ImportResolution.

(** ** Which tax rows are emitted (predicates on the invoice's rows) *)

Module TaxRowKinds.
Import Utils SalesInvoice.

(** The three charge types whose branch adds an applicable trade tax. *)
Definition emits_trade_tax (tax : SalesTaxesAndCharges) : bool :=
  Py.str_in (charge_type tax) ["On Net Total"; "On Previous Row Amount"; "On Previous Row Total"].

(** The rows that take the [Actual] branch for a given profile. *)
Definition emits_service_charge (profile : EInvoiceProfile) (tax : SalesTaxesAndCharges) : bool :=
  String.eqb (charge_type tax) "Actual" && bool_decide (profile = EXTENDED).

(** Number of rows satisfying a test. *)
Definition count_rows (test : SalesTaxesAndCharges -> bool) (rows : list SalesTaxesAndCharges)
    : nat :=
  length (filter (fun tax => test tax = true) rows).

End TaxRowKinds.

(** ** What identifies a working row of a purchase order *)

Module PoRowKeys.
Import EInvoiceImport.

(** Name and item of a working row: what the allocation never changes. *)
Definition row_key {F} (row : po_row F) : string * option string :=
  (po_name row, po_item_code row).

(** A row with its allocation erased: everything but [po_detail]. *)
Definition without_po_detail {F} (row : EInvoiceItem F) : EInvoiceItem F :=
  set_po_detail row None.

(** A property [P] of unbilled amounts that taking a line's total amount
    off a sufficient amount keeps. *)
Definition kept_by {F} `{Py.Float F} (P : F -> Prop) (pi_row : EInvoiceItem F) : Prop :=
  forall u t,
    total_amount pi_row = Some t -> Py.float_ge u t = true -> P u -> P (Py.float_sub u t).

End PoRowKeys.

(** ** Concrete hosts used to run the model *)

Module Fixtures.
Import CommonCodes.

#[local] Existing Instance Py.binary64.

(** A code-list service with one entry: unit "Kg" is "KGM" in list L2. *)
Definition codes_for (code_list doctype name : string) : list string :=
  if String.eqb code_list "L2" && String.eqb doctype "UOM" && String.eqb name "Kg"
  then ["KGM"] else [].

Definition default_only_L2 (code_list : string) : option string :=
  if String.eqb code_list "L2" then Some "D2" else None.

Definition no_default_code (code_list : string) : option string := None.

Definition resolver : CommonCodeRetriever :=
  {| code_lists := ["L1"; "L2"]; default_code := "S" |}.

(** Nearest integer, ties to the even one. *)
Definition round_half_even (q : Q) : Z :=
  let n := Qnum q in
  let d := Zpos (Qden q) in
  let f := (n / d)%Z in
  let r := (2 * (n mod d))%Z in
  if (r <? d)%Z then f
  else if (d <? r)%Z then (f + 1)%Z
  else if Z.even f then f else (f + 1)%Z.

(** Rounding of a rational to a number of decimal digits. *)
Definition round_decimal (x : Q) (ndigits : nat) : Q :=
  let scale := (10 ^ Z.of_nat ndigits)%Z in
  Qred (inject_Z (round_half_even (x * inject_Z scale)) / inject_Z scale).

(** [flt] as rounding to the field precision, every field at two digits. *)
Definition flt_round (x : Q) (precision : option nat) : Q :=
  match precision with
  | Some digits => round_decimal x digits
  | None => x
  end.

(** The rounding operations without rounding error: what the float
    operations give whenever the exact quotient, product or decimal
    rounding is itself a float, as for the amounts they are run on
    below (38 / 19 * 100). *)
Definition exact_rounding : Py.FloatRounding :=
  {| Py.rounded_div := Qdiv; Py.rounded_mul := Qmult; Py.round := round_decimal |}.

Definition two_digits (item : SalesInvoice.SalesInvoiceItem) (fieldname : string) : option nat :=
  Some 2%nat.

Definition plain_text (html : string) : string := html.

Definition posting_date_of (delivery_note : string) : string := "2024-01-31".

(** One Item Tax Template, "Reduced 7", taxing account "VAT 7" at 7. *)
Definition template_taxes (template : string) : list SalesInvoice.ItemTaxTemplateDetail :=
  if String.eqb template "Reduced 7"
  then [ {| SalesInvoice.tax_type := "VAT 7"; SalesInvoice.tax_rate := 7 |} ]
  else [].

Definition no_account_rate (account : option string) : option Q := None.

(** An Account table in which "VAT 7" carries the tax rate 19. *)
Definition account_rate_19 (account : option string) : option Q :=
  if bool_decide (account = Some "VAT 7") then Some 19%Q else None.

(** A code-list service that marks the tax category "Zero" as "Z". *)
Definition category_codes_for (code_list doctype name : string) : list string :=
  if String.eqb code_list "urn:xoev-de:kosit:codeliste:untdid.5305_3"
     && String.eqb doctype "Tax Category" && String.eqb name "Zero"
  then ["Z"] else [].

Definition line (net_rate qty : Q) (template : option string) : SalesInvoice.SalesInvoiceItem :=
  {| SalesInvoice.idx := 1;
     SalesInvoice.item_name := "Widget";
     SalesInvoice.item_code := Some "W-1";
     SalesInvoice.customer_item_code := None;
     SalesInvoice.description := "A widget";
     SalesInvoice.net_rate := net_rate;
     SalesInvoice.qty := qty;
     SalesInvoice.uom := Some "Nos";
     SalesInvoice.delivery_note := None;
     SalesInvoice.item_tax_template := template;
     SalesInvoice.income_account := Some "Sales";
     SalesInvoice.net_amount := (net_rate * qty)%Q |}.

Definition tax_row (charge_type : string) (account : option string) (rate tax_amount total : option Q)
    : SalesInvoice.SalesTaxesAndCharges :=
  {| SalesInvoice.charge_type := charge_type;
     SalesInvoice.row_description := Some charge_type;
     SalesInvoice.account_head := account;
     SalesInvoice.rate := rate;
     SalesInvoice.tax_amount := tax_amount;
     SalesInvoice.total := total;
     SalesInvoice.row_net_amount := None;
     SalesInvoice.row_custom_net_amount := None |}.

Definition invoice_of (tax_category : option string) (items : list SalesInvoice.SalesInvoiceItem)
    (taxes : list SalesInvoice.SalesTaxesAndCharges) (net_total : Q) : SalesInvoice.SalesInvoice :=
  {| SalesInvoice.tax_category := tax_category;
     SalesInvoice.taxes_and_charges := None;
     SalesInvoice.items := items;
     SalesInvoice.taxes := taxes;
     SalesInvoice.net_total := net_total |}.

(** A generator as the line loop leaves it, with the given set of line rates. *)
Definition generator_after_lines (profile : Utils.EInvoiceProfile)
    (invoice : SalesInvoice.SalesInvoice) (rates : list (option Q))
    : SalesInvoice.EInvoiceGenerator :=
  {| SalesInvoice.profile := profile;
     SalesInvoice.invoice := invoice;
     SalesInvoice.item_tax_rates := rates;
     SalesInvoice.delivery_dates := [];
     SalesInvoice.doc_items := [];
     SalesInvoice.doc_service_charge := [];
     SalesInvoice.doc_trade_tax := [] |}.

(** One line taxed at 7 by its template, one tax row with rate 0 on the
    template's account, net total 100. *)
Definition single_row_invoice : SalesInvoice.SalesInvoice :=
  invoice_of None [line 10 10 (Some "Reduced 7")]
    [tax_row "On Net Total" (Some "VAT 7") (Some 0%Q) (Some 7%Q) (Some 107%Q)] 100.

(** A surcharge on the previous row's amount, listed as the first of two rows. *)
Definition surcharge_first_invoice : SalesInvoice.SalesInvoice :=
  invoice_of None []
    [tax_row "On Previous Row Amount" (Some "Surcharge") (Some 10%Q) (Some 2%Q) (Some 121%Q);
     tax_row "On Net Total" (Some "VAT 19") (Some 19%Q) (Some 19%Q) (Some 119%Q)] 100.

(** A rule engine for which a document passes the XRechnung rule set
    and fails one rule of the EN 16931 rule set. *)
Definition engine_failing_baseline (xml_string stylesheet : string)
    : option (list string * list string) :=
  if String.eqb stylesheet "XRechnung-CII-validation.xsl" then Some ([], [])
  else if String.eqb stylesheet "EN16931-CII-validation-preprocessed.xsl"
  then Some (["[BR-CO-15] Invoice total amount with VAT mismatch"], [])
  else None.

(** Decimals that are integers, and their conversion to a float (exact
    below 2^53). *)
Definition integer_is_zero (d : Z) : bool := (d =? 0)%Z.

Definition float_of_Z (z : Z) : PrimFloat.float :=
  if (z <? 0)%Z then PrimFloat.opp (PrimFloat.of_uint63 (Uint63.of_Z (- z)))
  else PrimFloat.of_uint63 (Uint63.of_Z z).

Definition float_of_integer (d : Z) : option PrimFloat.float := Some (float_of_Z d).

(** A decimal type with one more value, which is not zero and is too
    small for a float: [float] gives 0.0 for it. *)
Definition tiny_is_zero (d : option Z) : bool :=
  match d with
  | Some z => (z =? 0)%Z
  | None => false
  end.

Definition float_of_tiny (d : option Z) : option PrimFloat.float :=
  match d with
  | Some z => Some (float_of_Z z)
  | None => Some PrimFloat.zero
  end.

(** [float] on the texts used below; the empty text raises ValueError. *)
Definition float_of_digit (s : string) : option PrimFloat.float :=
  if String.eqb s "1" then Some PrimFloat.one
  else if String.eqb s "0" then Some PrimFloat.zero
  else None.

(** [str] of an id element as the document library renders it: the text,
    then the scheme id in parentheses. *)
Definition render_id (e : EInvoiceImport.IDElement) : string :=
  EInvoiceImport.id_text e +:+ " (" +:+ EInvoiceImport.id_scheme_id e +:+ ")".

Definition no_item (item_code : string) : bool := false.

(** An Item table with the one item whose name is "ITEM-1 ()". *)
Definition rendered_item (item_code : string) : bool := String.eqb item_code "ITEM-1 ()".

Fixpoint replicate_char (n : nat) (c : ascii) : string :=
  match n with
  | O => EmptyString
  | S n => String c (replicate_char n c)
  end.

(** A product name of 141 characters: 140 times "a", then "Z". *)
Definition long_name : string := replicate_char 140 "a" +:+ "Z".

(** A line with seller id "S-1" and the given buyer id, both without a
    scheme id. *)
Definition document_line_for {D} (buyer_id name description : string)
    (net basis quantity : EInvoiceImport.PyVal D) : EInvoiceImport.LineItem D :=
  {| EInvoiceImport.agreement_net_amount_value := net;
     EInvoiceImport.agreement_net_basis_quantity_amount := basis;
     EInvoiceImport.li_product_name := name;
     EInvoiceImport.li_product_description := description;
     EInvoiceImport.li_seller_assigned_id :=
       {| EInvoiceImport.id_text := "S-1"; EInvoiceImport.id_scheme_id := "" |};
     EInvoiceImport.li_buyer_assigned_id :=
       {| EInvoiceImport.id_text := buyer_id; EInvoiceImport.id_scheme_id := "" |};
     EInvoiceImport.delivery_billed_quantity_amount := quantity;
     EInvoiceImport.delivery_billed_quantity_unit_code := "C62";
     EInvoiceImport.trade_tax_rate_applicable_percent_value := EInvoiceImport.PyNone;
     EInvoiceImport.monetary_summation_total_amount_value := net |}.

(** The same line without a buyer id and with billed quantity 1. *)
Definition document_line (name description : string) (net basis : EInvoiceImport.PyVal Z)
    : EInvoiceImport.LineItem Z :=
  document_line_for "" name description net basis (EInvoiceImport.PyDecimal 1%Z).

(** An import line for item [item] with total amount [total]. *)
Definition import_line {F} `{Py.Float F} (item : string) (total : F) (po_detail : option string)
    : EInvoiceImport.EInvoiceItem F :=
  {| EInvoiceImport.product_name := item;
     EInvoiceImport.product_description := "";
     EInvoiceImport.seller_product_id := "";
     EInvoiceImport.item := Some item;
     EInvoiceImport.billed_quantity := None;
     EInvoiceImport.unit_code := "C62";
     EInvoiceImport.net_rate := total;
     EInvoiceImport.tax_rate := None;
     EInvoiceImport.total_amount := Some total;
     EInvoiceImport.po_detail := po_detail |}.

(** Purchase order "PO-1": one row "row-1", item X, with the given amount
    and nothing billed. *)
Definition order_of {F} `{Py.Float F} (amount : F) (purchase_order : string)
    : list (EInvoiceImport.PurchaseOrderItem F) :=
  if String.eqb purchase_order "PO-1"
  then [ {| EInvoiceImport.name := "row-1"; EInvoiceImport.item_code := Some "X";
            EInvoiceImport.amount := amount; EInvoiceImport.billed_amt := Py.float_zero |} ]
  else [].

(** The order with amount 100, in Python's floats. *)
Definition order_rows : string -> list (EInvoiceImport.PurchaseOrderItem PrimFloat.float) :=
  order_of 100%float.

Definition order_row_exists (name parent : string) : bool :=
  String.eqb parent "PO-1" && String.eqb name "row-1".

(** A freight charge followed by the VAT on it, and nothing else. *)
Definition freight_invoice : SalesInvoice.SalesInvoice :=
  invoice_of None []
    [tax_row "Actual" (Some "Freight") None (Some 5%Q) (Some 105%Q);
     tax_row "On Previous Row Amount" (Some "VAT 19") (Some 19%Q) (Some 0.95%Q) (Some 105.95%Q)]
    100.

(** The VAT on a freight charge listed before the freight charge itself. *)
Definition vat_first_invoice : SalesInvoice.SalesInvoice :=
  invoice_of None []
    [tax_row "On Previous Row Amount" (Some "VAT 19") (Some 19%Q) (Some 0.95%Q) (Some 105.95%Q);
     tax_row "Actual" (Some "Freight") None (Some 5%Q) (Some 105%Q)]
    100.

(** [flt] without rounding. *)
Definition flt_exact (x : Q) (precision : option nat) : Q := x.

(** Settings that validate drafts only, with both actions set to raise. *)
Definition error_on_save : Settings.EInvoiceSettings :=
  {| Settings.validate_sales_invoice_on_save := true;
     Settings.validate_sales_invoice_on_submit := false;
     Settings.error_action_on_save := "Error Message";
     Settings.error_action_on_submit := "Error Message" |}.

Definition invoice_amounts : Totals.InvoiceAmounts :=
  {| Totals.invoice_grand_total := 105.95%Q;
     Totals.invoice_outstanding_amount := 105.95%Q;
     Totals.invoice_total_advance := 0%Q;
     Totals.invoice_currency := "EUR" |}.

(** A draft Sales Invoice with the given tax rows and profile, without
    payment schedule or discount. *)
Definition draft_invoice (taxes : list SalesInvoice.SalesTaxesAndCharges)
    (einvoice_profile : option string) : ValidateDoc.SalesInvoiceDoc :=
  {| ValidateDoc.taxes := taxes;
     ValidateDoc.einvoice_profile := einvoice_profile;
     ValidateDoc.payment_schedule := [];
     ValidateDoc.posting_date := "2024-01-31";
     ValidateDoc.discount_amount := None;
     ValidateDoc.docstatus := 0 |}.

Definition same_day (date other : string) : Z := 0.

(** A Supplier table with the one supplier "ACME", who has no tax id. *)
Definition known_supplier (name : string) : bool := String.eqb name "ACME".

Definition no_tax_id_match (tax_id : string) : option string := None.

End Fixtures.

(** * Properties *)

(** ** Profiles and guideline tables *)

Module UtilsProps.
Import Utils.

Lemma list_index_order_total (p : EInvoiceProfile) : is_Some (Py.list_index p order).
Proof. destruct p; vm_compute; eauto. Qed.

Lemma lt_total_fn (a b : EInvoiceProfile) : is_Some (lt a b).
Proof. destruct a, b; vm_compute; eauto. Qed.

Lemma guideline_table_unfold :
  GUIDELINE_TO_PROFILE =
  <["urn:cen.eu:en16931:2017#conformant#urn:factur-x.eu:1p0:extended" := EXTENDED]>
    (<["urn:cen.eu:en16931:2017#compliant#urn:xeinkauf.de:kosit:xrechnung_3.0" := XRECHNUNG]>
      (<["urn:cen.eu:en16931:2017" := EN16931]>
        (<["urn:cen.eu:en16931:2017#compliant#urn:factur-x.eu:1p0:basic" := BASIC]> ∅))).
Proof. reflexivity. Qed.

Lemma get_profile_get_guideline (p : EInvoiceProfile) :
  exists g, get_guideline p = Some g /\ get_profile g = Some p.
Proof. destruct p; eexists; split; vm_compute; reflexivity. Qed.

Lemma get_guideline_get_profile (g : string) (p : EInvoiceProfile) :
  get_profile g = Some p -> get_guideline p = Some g.
Proof.
  unfold get_profile. rewrite guideline_table_unfold. intros H.
  repeat (apply lookup_insert_Some in H as [[<- <-] | [_ H]]; [vm_compute; reflexivity |]).
  rewrite lookup_empty in H. discriminate.
Qed.

(** C1.  [__lt__] never raises and is a strict total order on the four
    profiles (irreflexive, asymmetric, transitive, any two distinct
    profiles comparable) in which BASIC < EN16931 < XRECHNUNG < EXTENDED,
    although EXTENDED is declared before XRECHNUNG; and the two guideline
    tables are inverse to each other: [get_profile (get_guideline p) = p]
    for every profile, and [get_guideline (get_profile g) = g] for every
    guideline [g] of the table. *)
Theorem profile_order_and_guideline_inverse :
  (forall a b, is_Some (lt a b))
  /\ (forall a, lt a a = Some false)
  /\ (forall a b, lt a b = Some true -> lt b a = Some false)
  /\ (forall a b c, lt a b = Some true -> lt b c = Some true -> lt a c = Some true)
  /\ (forall a b, a <> b -> lt a b = Some true \/ lt b a = Some true)
  /\ (lt BASIC EN16931 = Some true
      /\ lt EN16931 XRECHNUNG = Some true
      /\ lt XRECHNUNG EXTENDED = Some true)
  /\ (declaration_index EXTENDED < declaration_index XRECHNUNG)%nat
  /\ (forall p, get_guideline p ≫= get_profile = Some p)
  /\ (forall g, g ∈ dom GUIDELINE_TO_PROFILE -> get_profile g ≫= get_guideline = Some g).
Proof.
  repeat split.
  - apply lt_total_fn.
  - intros []; reflexivity.
  - intros [] []; vm_compute; congruence.
  - intros [] [] []; vm_compute; congruence.
  - intros [] []; vm_compute; intros H; auto; contradiction H; reflexivity.
  - vm_compute. lia.
  - intros p. destruct (get_profile_get_guideline p) as (g & -> & Hg). exact Hg.
  - intros g Hg. apply elem_of_dom in Hg as [p Hp].
    unfold get_profile in *. rewrite Hp. simpl.
    apply get_guideline_get_profile. exact Hp.
Qed.

Lemma profile_order_and_guideline_inverse_witness :
  lt BASIC EXTENDED = Some true
  /\ get_profile "urn:cen.eu:en16931:2017" ≫= get_guideline = Some "urn:cen.eu:en16931:2017".
Proof.
  pose proof profile_order_and_guideline_inverse
    as (_ & _ & _ & Htrans & _ & _ & _ & _ & Hinv).
  split.
  - apply (Htrans BASIC EN16931 EXTENDED); reflexivity.
  - apply Hinv. apply elem_of_dom. exists EN16931. vm_compute. reflexivity.
Defined.

End UtilsProps.

(** ** CommonCodeRetriever *)

Module CommonCodesProps.
Import CommonCodes.

Section Retriever.

Variable get_codes_for : string -> string -> string -> list string.
Variable get_default_code : string -> option string.

Local Abbreviation get_code_records := (get_code_records get_codes_for).
Local Abbreviation get_code_lists := (get_code_lists get_codes_for).
Local Abbreviation no_hit := (no_hit get_codes_for).
Local Abbreviation no_default := (no_default get_default_code).

Lemma truthy_str_Some (s : string) : Py.truthy_str (Some s) = true <-> s <> "".
Proof.
  simpl. destruct (String.eqb_spec s ""); simpl; split; intros; congruence.
Qed.

Lemma no_hit_cons_inv cl r records : no_hit cl (r :: records) -> no_hit cl records.
Proof. intros H dt n Hin. apply H. right. exact Hin. Qed.

(** The inner loop leaves [codes] falsy when no pair hits. *)
Lemma get_code_records_miss cl records codes :
  no_hit cl records -> truthy_codes codes = false ->
  truthy_codes (get_code_records cl records codes) = false.
Proof.
  revert codes. induction records as [|[dt name] rest IH]; intros codes Hmiss Hc; simpl.
  - exact Hc.
  - destruct (Py.truthy_str name) eqn:Hname; simpl.
    + destruct name as [n|]; [|discriminate]. simpl.
      rewrite (Hmiss dt n); [| left | apply truthy_str_Some; exact Hname]. simpl.
      apply IH; [eapply no_hit_cons_inv; exact Hmiss | reflexivity].
    + apply IH; [eapply no_hit_cons_inv; exact Hmiss | exact Hc].
Qed.

(** The inner loop stops at the first pair that hits. *)
Lemma get_code_records_hit cl rpre dt n rpost c rest codes :
  n <> "" -> get_codes_for cl dt n = c :: rest -> no_hit cl rpre ->
  get_code_records cl (rpre ++ (dt, Some n) :: rpost)%list codes = Some (c :: rest).
Proof.
  intros Hn Hhit. revert codes.
  induction rpre as [|[dt' name'] rpre IH]; intros codes Hmiss; simpl.
  - apply truthy_str_Some in Hn. simpl in Hn. rewrite Hn. simpl. rewrite Hhit. reflexivity.
  - destruct (Py.truthy_str name') eqn:Hname; simpl.
    + destruct name' as [n'|]; [|discriminate]. simpl.
      rewrite (Hmiss dt' n'); [| left | apply truthy_str_Some; exact Hname]. simpl.
      apply IH. eapply no_hit_cons_inv; exact Hmiss.
    + apply IH. eapply no_hit_cons_inv; exact Hmiss.
Qed.

Lemma get_code_lists_miss lists records codes :
  (forall cl, cl ∈ lists -> no_hit cl records) -> truthy_codes codes = false ->
  truthy_codes (get_code_lists lists records codes) = false.
Proof.
  revert codes. induction lists as [|cl lists IH]; intros codes Hmiss Hc; simpl.
  - exact Hc.
  - assert (Hr : truthy_codes (get_code_records cl records codes) = false).
    { apply get_code_records_miss; [apply Hmiss; left | exact Hc]. }
    rewrite Hr. apply IH; [| exact Hr]. intros cl' Hin. apply Hmiss. right. exact Hin.
Qed.

Lemma get_code_lists_hit pre cl post rpre dt n rpost c rest codes :
  n <> "" -> get_codes_for cl dt n = c :: rest ->
  (forall cl', cl' ∈ pre -> no_hit cl' (rpre ++ (dt, Some n) :: rpost)%list) ->
  no_hit cl rpre -> truthy_codes codes = false ->
  get_code_lists (pre ++ cl :: post)%list (rpre ++ (dt, Some n) :: rpost)%list codes = Some (c :: rest).
Proof.
  intros Hn Hhit. revert codes.
  induction pre as [|cl0 pre IH]; intros codes Hpre Hmiss Hc; simpl.
  - rewrite (get_code_records_hit cl rpre dt n rpost c rest codes Hn Hhit Hmiss). reflexivity.
  - assert (Hr : truthy_codes
                   (get_code_records cl0 (rpre ++ (dt, Some n) :: rpost)%list codes) = false).
    { apply get_code_records_miss; [apply Hpre; left | exact Hc]. }
    rewrite Hr. apply IH; [| exact Hmiss | exact Hr].
    intros cl' Hin. apply Hpre. right. exact Hin.
Qed.

Lemma get_code_no_hit self records :
  (forall cl, cl ∈ code_lists self -> no_hit cl records) ->
  get_code get_codes_for self records = None.
Proof.
  intros Hmiss. unfold get_code.
  rewrite (get_code_lists_miss _ _ None Hmiss eq_refl). reflexivity.
Qed.

Lemma get_default_code_lists_first pre cl post d :
  (forall cl', cl' ∈ pre -> no_default cl') -> get_default_code cl = Some d -> d <> "" ->
  get_default_code_lists get_default_code (pre ++ cl :: post)%list = Some d.
Proof.
  intros Hpre Hd Hne. induction pre as [|cl0 pre IH]; simpl.
  - rewrite Hd. apply truthy_str_Some in Hne. rewrite Hne. reflexivity.
  - rewrite (Hpre cl0); [| left]. apply IH. intros cl' Hin. apply Hpre. right. exact Hin.
Qed.

Lemma get_default_code_lists_none lists :
  (forall cl, cl ∈ lists -> no_default cl) ->
  get_default_code_lists get_default_code lists = None.
Proof.
  intros Hnone. induction lists as [|cl lists IH]; simpl; [reflexivity|].
  rewrite (Hnone cl); [| left]. apply IH. intros cl' Hin. apply Hnone. right. exact Hin.
Qed.

(** C2.  [get] returns the code of the first hit, scanning the code
    lists in priority order and, within a code list, the candidate pairs
    in the given order (pairs with an empty value are skipped): nothing
    after the first hit is consulted.  When no code list has an entry for
    any candidate it returns the first configured default code of the
    code lists, in the same order; when there is none either, the
    retriever's static default.  In particular, with code lists [L1; L2]
    where L1 yields nothing, no candidate matches and L2 has the default
    [D2], the result is [D2]; with no per-list default the result is the
    static default.  Codes and configured defaults are non-empty strings
    (an empty one is falsy for [or]). *)
Theorem get_first_hit_else_default (self : CommonCodeRetriever)
    (records : list (string * option string)) :
  (forall pre cl post rpre dt n rpost c rest,
      code_lists self = (pre ++ cl :: post)%list ->
      records = (rpre ++ (dt, Some n) :: rpost)%list ->
      n <> "" -> get_codes_for cl dt n = c :: rest -> c <> "" ->
      (forall cl', cl' ∈ pre -> no_hit cl' records) -> no_hit cl rpre ->
      get get_codes_for get_default_code self records = c)
  /\ (forall pre cl post d,
      (forall cl', cl' ∈ code_lists self -> no_hit cl' records) ->
      code_lists self = (pre ++ cl :: post)%list ->
      (forall cl', cl' ∈ pre -> no_default cl') ->
      get_default_code cl = Some d -> d <> "" ->
      get get_codes_for get_default_code self records = d)
  /\ ((forall cl, cl ∈ code_lists self -> no_hit cl records) ->
      (forall cl, cl ∈ code_lists self -> no_default cl) ->
      get get_codes_for get_default_code self records = default_code self)
  /\ (forall L1 L2 D2,
      code_lists self = [L1; L2] ->
      no_hit L1 records -> no_default L1 -> no_hit L2 records ->
      get_default_code L2 = Some D2 -> D2 <> "" ->
      get get_codes_for get_default_code self records = D2).
Proof.
  assert (Hdefault : forall pre cl post d,
      (forall cl', cl' ∈ code_lists self -> no_hit cl' records) ->
      code_lists self = (pre ++ cl :: post)%list ->
      (forall cl', cl' ∈ pre -> no_default cl') ->
      get_default_code cl = Some d -> d <> "" ->
      get get_codes_for get_default_code self records = d).
  { intros pre cl post d Hmiss Hlists Hpre Hd Hne. unfold get, get_default_code_of.
    rewrite (get_code_no_hit self records Hmiss), Hlists.
    rewrite (get_default_code_lists_first pre cl post d Hpre Hd Hne).
    unfold Py.or_str. simpl. apply truthy_str_Some in Hne. simpl in Hne.
    rewrite Hne. reflexivity. }
  split; [| split; [exact Hdefault | split]].
  - intros pre cl post rpre dt n rpost c rest Hlists -> Hn Hhit Hc Hpre Hmiss.
    unfold get, get_code. rewrite Hlists.
    rewrite (get_code_lists_hit pre cl post rpre dt n rpost c rest None Hn Hhit Hpre Hmiss eq_refl).
    apply truthy_str_Some in Hc. simpl in Hc. unfold Py.or_str. simpl.
    rewrite Hc. simpl. rewrite Hc. reflexivity.
  - intros Hmiss Hnone. unfold get, get_default_code_of.
    rewrite (get_code_no_hit self records Hmiss).
    rewrite (get_default_code_lists_none (code_lists self) Hnone). reflexivity.
  - intros L1 L2 D2 Hlists H1 Hd1 H2 Hd2 Hne.
    apply (Hdefault [L1] L2 [] D2); auto.
    + intros cl'. rewrite Hlists. intros Hin.
      apply elem_of_cons in Hin as [-> | Hin]; [exact H1 |].
      apply elem_of_cons in Hin as [-> | Hin]; [exact H2 |].
      inversion Hin.
    + intros cl' Hin. apply elem_of_cons in Hin as [-> | Hin]; [exact Hd1 | inversion Hin].
Qed.

End Retriever.

Import Fixtures.

(** Side conditions on a concrete host: case on list membership, then compute. *)
Ltac fixture_side :=
  repeat first
    [ progress intros
    | progress unfold CommonCodes.no_hit, CommonCodes.no_default in *
    | match goal with
      | H : _ ∈ _ :: _ |- _ => apply elem_of_cons in H as [H | H]
      | H : _ ∈ [] |- _ => inversion H
      | H : (_, _) = (_, _) |- _ => injection H as ? ?
      | H : Some _ = Some _ |- _ => injection H as ?
      | H : Some _ = None |- _ => discriminate H
      | H : None = Some _ |- _ => discriminate H
      | H : _ ∈ _ |- _ => progress simpl in H
      end
    | progress subst ];
  try reflexivity; try discriminate.

Lemma get_first_hit_else_default_witness :
  get codes_for default_only_L2 resolver [("UOM", None); ("UOM", Some "Kg")] = "KGM"
  /\ get codes_for default_only_L2 resolver [("UOM", Some "Box")] = "D2"
  /\ get codes_for no_default_code resolver [("UOM", Some "Box")] = "S".
Proof.
  split; [| split].
  - apply (proj1 (get_first_hit_else_default codes_for default_only_L2 resolver _)
             ["L1"] "L2" [] [("UOM", None)] "UOM" "Kg" [] "KGM" []); fixture_side.
  - apply (proj2 (proj2 (proj2
             (get_first_hit_else_default codes_for default_only_L2 resolver _)))
             "L1" "L2" "D2"); fixture_side.
  - apply (proj1 (proj2 (proj2
             (get_first_hit_else_default codes_for no_default_code resolver _))));
      fixture_side.
Defined.

End CommonCodesProps.

(** ** The forward mapper: line items *)

Module LineItemProps.
Import Utils CommonCodes SalesInvoice.

#[local] Arguments Py.str_in : simpl never.
#[local] Arguments Py.eq_num : simpl never.
#[local] Arguments Py.upper : simpl never.
#[local] Arguments multiplier : simpl never.
#[local] Arguments set_add : simpl never.

Lemma gt_total (a b : EInvoiceProfile) : exists r, gt a b = Some r.
Proof. destruct a, b; eexists; reflexivity. Qed.

Lemma ge_total (a b : EInvoiceProfile) : exists r, ge a b = Some r.
Proof. destruct a, b; eexists; reflexivity. Qed.

Lemma Qmult_1_r_eq (q : Q) : (q * 1)%Q = q.
Proof.
  destruct q as [n d]. unfold Qmult. simpl.
  rewrite Z.mul_1_r, Pos.mul_1_r. reflexivity.
Qed.

Lemma Qltb_lt (x y : Q) : Py.Qltb x y = true <-> (x < y)%Q.
Proof. unfold Py.Qltb, Qlt. apply Z.ltb_lt. Qed.

Lemma upper_nonempty (s : string) : s <> "" -> Py.upper s <> "".
Proof. destruct s; cbn; [congruence | discriminate]. Qed.

Section Host.

Variable get_codes_for : string -> string -> string -> list string.
Variable get_default_code : string -> option string.
Variable flt : Q -> option nat -> Q.
Variable precision : SalesInvoiceItem -> string -> option nat.
Variable html2text : string -> string.
Variable delivery_note_posting_date : string -> string.
Variable item_tax_template_taxes : string -> list ItemTaxTemplateDetail.

Local Abbreviation codes_get := (codes_get get_codes_for get_default_code).
Local Abbreviation get_item_rate := (get_item_rate item_tax_template_taxes).
Local Abbreviation build_line_item :=
  (build_line_item get_codes_for get_default_code flt precision html2text
     delivery_note_posting_date item_tax_template_taxes).
Local Abbreviation _add_line_item :=
  (_add_line_item get_codes_for get_default_code flt precision html2text
     delivery_note_posting_date item_tax_template_taxes).

(** A retriever with a non-empty static default never returns the empty string. *)
Lemma codes_get_nonempty (retriever : CommonCodeRetriever) records :
  default_code retriever <> "" -> codes_get retriever records <> "".
Proof.
  intros Hd. unfold SalesInvoice.codes_get, get, Py.or_else, Py.or_str.
  destruct (Py.truthy_str (get_code get_codes_for retriever records)) eqn:H1.
  - destruct (get_code get_codes_for retriever records) as [c|]; [| discriminate].
    rewrite H1. apply CommonCodesProps.truthy_str_Some. exact H1.
  - destruct (get_default_code_of get_default_code retriever) as [d|] eqn:H2; [| exact Hd].
    destruct (Py.truthy_str (Some d)) eqn:H3; [| exact Hd].
    apply CommonCodesProps.truthy_str_Some. exact H3.
Qed.

(** The shape of what [_add_line_item] builds, with the profile gates
    and the delivery-note block abstracted. *)
Lemma build_line_item_shape (self : EInvoiceGenerator) (item : SalesInvoiceItem) :
  exists li self',
    build_line_item self item = Some (li, self')
    /\ agreement_net_amount li
       = (flt (net_rate item) (precision item "net_rate") * multiplier item)%Q
    /\ fst (billed_quantity li) = (flt (qty item) (precision item "qty") * multiplier item)%Q
    /\ category_code (settlement_trade_tax li)
       = Some (codes_get duty_tax_fee_category_codes (line_tax_records self item))
    /\ rate_applicable_percent (settlement_trade_tax li)
       = (if Py.str_in (codes_get duty_tax_fee_category_codes (line_tax_records self item))
                       ["AE"; "E"; "G"; "K"; "Z"]
          then Some 0%Q
          else get_item_rate (item_tax_template item) (taxes (invoice self)))
    /\ exemption_reason_code (settlement_trade_tax li)
       = (if Py.eq_num (rate_applicable_percent (settlement_trade_tax li)) (Some 0%Q)
          then Some (Py.upper (codes_get vat_exemption_reason_codes (line_tax_records self item)))
          else None)
    /\ item_tax_rates self'
       = (if Py.str_in (codes_get duty_tax_fee_category_codes (line_tax_records self item))
                       ["AE"; "E"; "G"; "K"; "Z"]
          then item_tax_rates self
          else set_add (get_item_rate (item_tax_template item) (taxes (invoice self)))
                       (item_tax_rates self))
    /\ invoice self' = invoice self /\ profile self' = profile self
    /\ doc_trade_tax self' = doc_trade_tax self
    /\ doc_items self' = (doc_items self ++ [li])%list.
Proof.
  unfold SalesInvoice.build_line_item.
  destruct (gt_total (profile self) BASIC) as [above ->]. simpl.
  destruct (Py.truthy_str (delivery_note item));
    [destruct (ge_total (profile self) EXTENDED) as [ext ->] |]; simpl;
    match goal with
    | |- context [Py.str_in ?c ?l] => destruct (Py.str_in c l) eqn:Hcat
    end;
    eexists _, _; (split; [reflexivity |]); simpl; rewrite ?Hcat; repeat split; reflexivity.
Qed.

(** [_add_line_item] adds the line it builds to the document. *)
Lemma add_line_item_emits (self self' : EInvoiceGenerator) (item : SalesInvoiceItem)
    (li : LineItem) :
  build_line_item self item = Some (li, self') -> _add_line_item self item = Some self'.
Proof. intros Hbuild. unfold SalesInvoice._add_line_item. rewrite Hbuild. reflexivity. Qed.

(** C3.  [_add_line_item] never raises and adds exactly one line to the
    document, after the lines already there.  When the item's net rate is
    negative and its quantity positive, the net amount and the billed
    quantity of that line are the item's values (at their field
    precision, [flt]) multiplied by -1; in every other sign combination
    both are emitted as they are.  With fields that are already at their
    precision: rate -10 and quantity 5 emit rate 10 and quantity -5, rate
    -10 and quantity -5 are emitted unchanged. *)
Theorem line_item_sign_normalization (self : EInvoiceGenerator) (item : SalesInvoiceItem) :
  exists li self',
    _add_line_item self item = Some self'
    /\ doc_items self' = (doc_items self ++ [li])%list
    /\ ((net_rate item < 0)%Q -> (0 < qty item)%Q ->
        agreement_net_amount li = (flt (net_rate item) (precision item "net_rate") * -1)%Q
        /\ fst (billed_quantity li) = (flt (qty item) (precision item "qty") * -1)%Q)
    /\ (~ ((net_rate item < 0)%Q /\ (0 < qty item)%Q) ->
        agreement_net_amount li = flt (net_rate item) (precision item "net_rate")
        /\ fst (billed_quantity li) = flt (qty item) (precision item "qty"))
    /\ (flt (net_rate item) (precision item "net_rate") = net_rate item ->
        flt (qty item) (precision item "qty") = qty item ->
        (net_rate item = (-10)%Q -> qty item = 5%Q ->
         agreement_net_amount li = 10%Q /\ fst (billed_quantity li) = (-5)%Q)
        /\ (net_rate item = (-10)%Q -> qty item = (-5)%Q ->
            agreement_net_amount li = (-10)%Q /\ fst (billed_quantity li) = (-5)%Q)).
Proof.
  destruct (build_line_item_shape self item)
    as (li & self' & Hbuild & Hamount & Hqty & _ & _ & _ & _ & _ & _ & _ & Hitems).
  exists li, self'. split; [exact (add_line_item_emits _ _ _ _ Hbuild) |].
  split; [exact Hitems |].
  rewrite Hamount, Hqty. unfold multiplier. repeat split.
  - apply Qltb_lt in H, H0. rewrite H, H0. reflexivity.
  - apply Qltb_lt in H, H0. rewrite H, H0. reflexivity.
  - destruct (Py.Qltb (net_rate item) 0) eqn:H1, (Py.Qltb 0 (qty item)) eqn:H2;
      try apply Qmult_1_r_eq.
    exfalso. apply H. split; apply Qltb_lt; assumption.
  - destruct (Py.Qltb (net_rate item) 0) eqn:H1, (Py.Qltb 0 (qty item)) eqn:H2;
      try apply Qmult_1_r_eq.
    exfalso. apply H. split; apply Qltb_lt; assumption.
  - rewrite H, H1, H2. reflexivity.
  - rewrite H0, H1, H2. reflexivity.
  - rewrite H, H1, H2. reflexivity.
  - rewrite H0, H1, H2. reflexivity.
Qed.

(** [get_item_rate] with a template: the rate of the first template row
    whose account is an account head of the invoice's tax rows. *)
Lemma get_item_rate_template (t : string) (taxes : list SalesTaxesAndCharges)
    (pre : list ItemTaxTemplateDetail) (it : ItemTaxTemplateDetail)
    (post : list ItemTaxTemplateDetail) :
  t <> "" -> item_tax_template_taxes t = (pre ++ it :: post)%list ->
  (forall x, x ∈ pre -> Py.str_in (tax_type x) (applicable_accounts taxes) = false) ->
  Py.str_in (tax_type it) (applicable_accounts taxes) = true ->
  get_item_rate (Some t) taxes = Some (tax_rate it).
Proof.
  intros Ht Htpl Hpre Hit. unfold SalesInvoice.get_item_rate.
  apply CommonCodesProps.truthy_str_Some in Ht. rewrite Ht.
  change (default "" (Some t)) with t. rewrite Htpl.
  rewrite list_find_app_r.
  - cbn [list_find]. rewrite decide_True by exact Hit. reflexivity.
  - apply list_find_None, Forall_forall. intros x Hx. rewrite (Hpre x Hx). discriminate.
Qed.

(** [get_item_rate] without a matching template row: the rate of the
    single On Net Total row, when there is exactly one. *)
Lemma get_item_rate_fallback (template : option string) (taxes : list SalesTaxesAndCharges) :
  (Py.truthy_str template = false
   \/ forall x, x ∈ item_tax_template_taxes (default "" template) ->
                Py.str_in (tax_type x) (applicable_accounts taxes) = false) ->
  get_item_rate template taxes
  = match filter (fun tax => charge_type tax = "On Net Total") taxes with
    | [row] => rate row
    | _ => None
    end.
Proof.
  intros H. unfold SalesInvoice.get_item_rate, on_net_total_rates.
  assert (Hnone :
    (if Py.truthy_str template
     then snd <$> list_find
            (fun item_tax => Py.str_in (tax_type item_tax) (applicable_accounts taxes) = true)
            (item_tax_template_taxes (default "" template))
     else None) = None).
  { destruct (Py.truthy_str template); [| reflexivity].
    destruct H as [H | H]; [discriminate |].
    replace (list_find _ _) with (@None (nat * ItemTaxTemplateDetail)); [reflexivity |].
    symmetry. apply list_find_None, Forall_forall. intros x Hx. rewrite (H x Hx). discriminate. }
  rewrite Hnone.
  destruct (filter _ taxes) as [| row [| row' rest]]; reflexivity.
Qed.

(** C4.  [_add_line_item] adds one line to the document, with the tax
    category resolved by the category resolver.  If the category is one
    of AE, E, G, K, Z the line's rate is 0, whatever [get_item_rate] would
    give; otherwise it is [get_item_rate]'s result: the rate of the first
    row of the item tax template whose account is an account head of the
    invoice's tax rows, else the rate of the single On Net Total row when
    exactly one exists.  Whenever the line's rate is 0, the
    exemption-reason code resolved by the exemption resolver is non-empty
    and is attached upper-cased, and with any other rate no exemption
    reason is attached. *)
Theorem line_item_tax_rate (self : EInvoiceGenerator) (item : SalesInvoiceItem) :
  let category := codes_get duty_tax_fee_category_codes (line_tax_records self item) in
  let taxes := taxes (invoice self) in
  exists li self',
    _add_line_item self item = Some self'
    /\ doc_items self' = (doc_items self ++ [li])%list
    /\ type_code (settlement_trade_tax li) = Some "VAT"
    /\ category_code (settlement_trade_tax li) = Some category
    /\ (Py.str_in category ["AE"; "E"; "G"; "K"; "Z"] = true ->
        rate_applicable_percent (settlement_trade_tax li) = Some 0%Q)
    /\ (Py.str_in category ["AE"; "E"; "G"; "K"; "Z"] = false ->
        rate_applicable_percent (settlement_trade_tax li)
        = get_item_rate (item_tax_template item) taxes)
    /\ (forall t pre it post,
        item_tax_template item = Some t -> t <> "" ->
        item_tax_template_taxes t = (pre ++ it :: post)%list ->
        (forall x, x ∈ pre -> Py.str_in (tax_type x) (applicable_accounts taxes) = false) ->
        Py.str_in (tax_type it) (applicable_accounts taxes) = true ->
        get_item_rate (item_tax_template item) taxes = Some (tax_rate it))
    /\ ((Py.truthy_str (item_tax_template item) = false
         \/ forall x, x ∈ item_tax_template_taxes (default "" (item_tax_template item)) ->
                      Py.str_in (tax_type x) (applicable_accounts taxes) = false) ->
        get_item_rate (item_tax_template item) taxes
        = match filter (fun tax => charge_type tax = "On Net Total") taxes with
          | [row] => rate row
          | _ => None
          end)
    /\ (forall r, rate_applicable_percent (settlement_trade_tax li) = Some r -> (r == 0)%Q ->
        exists code,
          code = codes_get vat_exemption_reason_codes (line_tax_records self item)
          /\ code <> ""
          /\ exemption_reason_code (settlement_trade_tax li) = Some (Py.upper code)
          /\ Py.upper code <> "")
    /\ (Py.eq_num (rate_applicable_percent (settlement_trade_tax li)) (Some 0%Q) = false ->
        exemption_reason_code (settlement_trade_tax li) = None).
Proof.
  intros category taxes.
  destruct (build_line_item_shape self item)
    as (li & self' & Hbuild & _ & _ & Hcat & Hrate & Hex & _ & _ & _ & _ & Hitems).
  exists li, self'. split; [exact (add_line_item_emits _ _ _ _ Hbuild) |].
  split; [exact Hitems |].
  split.
  { clear - Hbuild. unfold SalesInvoice.build_line_item in Hbuild.
    destruct (gt_total (profile self) BASIC) as [above Habove]. rewrite Habove in Hbuild.
    cbn [mbind option_bind] in Hbuild.
    destruct (Py.truthy_str (delivery_note item));
      [destruct (ge_total (profile self) EXTENDED) as [ext Hext]; rewrite Hext in Hbuild |];
      cbn [mbind option_bind] in Hbuild;
      match type of Hbuild with
      | context [Py.str_in ?c ?l] => destruct (Py.str_in c l)
      end; injection Hbuild as <- _; reflexivity. }
  split; [exact Hcat |].
  fold category in Hrate. fold taxes in Hrate.
  split; [| split; [| split; [| split; [| split]]]].
  - intros H. rewrite Hrate, H. reflexivity.
  - intros H. rewrite Hrate, H. reflexivity.
  - intros t pre it post -> Ht Htpl Hpre Hit.
    eapply get_item_rate_template; eassumption.
  - apply get_item_rate_fallback.
  - intros r Hr Hzero. eexists. split; [reflexivity |].
    assert (Hne : codes_get vat_exemption_reason_codes (line_tax_records self item) <> "").
    { apply codes_get_nonempty. discriminate. }
    split; [exact Hne |]. split; [| apply upper_nonempty; exact Hne].
    rewrite Hex, Hr. unfold Py.eq_num. rewrite (Qeq_eq_bool _ _ Hzero). reflexivity.
  - intros Hnonzero. rewrite Hex, Hnonzero. reflexivity.
Qed.

End Host.

Import Fixtures.

Lemma line_item_sign_normalization_witness :
  exists li self',
    _add_line_item codes_for no_default_code flt_round two_digits plain_text posting_date_of
      template_taxes (new_generator EN16931 (invoice_of None [] [] 0)) (line (-10) 5 None)
    = Some self'
    /\ doc_items self' = [li]
    /\ agreement_net_amount li = 10%Q /\ fst (billed_quantity li) = (-5)%Q.
Proof.
  destruct (line_item_sign_normalization codes_for no_default_code flt_round two_digits
              plain_text posting_date_of template_taxes
              (new_generator EN16931 (invoice_of None [] [] 0)) (line (-10) 5 None))
    as (li & self' & Hrun & Hitems & Hflip & _ & Hexample).
  exists li, self'. split; [exact Hrun |]. split; [exact Hitems |].
  destruct (Hflip eq_refl eq_refl) as [_ _].
  apply Hexample; reflexivity.
Defined.

Lemma line_item_tax_rate_witness :
  exists li self',
    _add_line_item category_codes_for no_default_code flt_round two_digits plain_text
      posting_date_of template_taxes
      (new_generator EN16931
         (invoice_of (Some "Zero") []
            [tax_row "On Net Total" (Some "VAT 19") (Some 19%Q) (Some 19%Q) (Some 119%Q)] 100))
      (line 10 10 None)
    = Some self'
    /\ doc_items self' = [li]
    /\ category_code (settlement_trade_tax li) = Some "Z"
    /\ rate_applicable_percent (settlement_trade_tax li) = Some 0%Q
    /\ exemption_reason_code (settlement_trade_tax li) = Some "VATEX-EU-AE".
Proof.
  destruct (line_item_tax_rate category_codes_for no_default_code flt_round two_digits
              plain_text posting_date_of template_taxes
              (new_generator EN16931
                 (invoice_of (Some "Zero") []
                    [tax_row "On Net Total" (Some "VAT 19") (Some 19%Q) (Some 19%Q) (Some 119%Q)]
                    100))
              (line 10 10 None))
    as (li & self' & Hrun & Hitems & _ & Hcat & Hzero & _ & _ & _ & Hreason & _).
  exists li, self'. split; [exact Hrun |]. split; [exact Hitems |]. split; [exact Hcat |].
  pose proof (Hzero eq_refl) as Hrate. split; [exact Hrate |].
  destruct (Hreason 0%Q Hrate (Qeq_refl 0)) as (code & -> & _ & Hcode & _).
  exact Hcode.
Defined.

(** A line of the standard category with a template row on an account of
    the invoice's tax rows takes the template's rate, and no exemption
    reason. *)
Example line_item_template_rate :
  (fun r => (rate_applicable_percent (settlement_trade_tax (fst r)),
             exemption_reason_code (settlement_trade_tax (fst r))))
    <$> build_line_item category_codes_for no_default_code flt_round two_digits plain_text
          posting_date_of template_taxes
          (new_generator EN16931
             (invoice_of None []
                [tax_row "On Net Total" (Some "VAT 7") (Some 7%Q) (Some 7%Q) (Some 107%Q);
                 tax_row "On Net Total" (Some "VAT 19") (Some 19%Q) (Some 19%Q) (Some 119%Q)]
                100))
          (line 10 10 (Some "Reduced 7"))
  = Some (Some 7%Q, None).
Proof. vm_compute. reflexivity. Qed.

End LineItemProps.

(** ** The forward mapper: tax rows *)

Module TaxRowProps.
Import Utils CommonCodes SalesInvoice.

#[local] Arguments Py.str_in : simpl never.
#[local] Arguments Py.eq_num : simpl never.
#[local] Arguments Py.truthy_num : simpl never.
#[local] Arguments Py.index : simpl never.
#[local] Arguments String.eqb : simpl never.

Lemma index_nonneg {A} (xs : list A) (i : Z) :
  (0 <= i)%Z -> Py.index xs i = xs !! Z.to_nat i.
Proof.
  intros Hi. unfold Py.index. destruct (Z.leb_spec 0 i); [reflexivity | lia].
Qed.

(** [xs[-1]] is the last element of a non-empty list. *)
Lemma index_minus_one {A} (x : A) (xs : list A) :
  Py.index (x :: xs) (-1) = last (x :: xs).
Proof.
  unfold Py.index. cbn [Z.leb Z.compare].
  destruct (Z.leb_spec 0 (Z.of_nat (length (x :: xs)) + -1)) as [_ | H];
    [| cbn [length] in H; lia].
  rewrite last_lookup. f_equal. cbn [length]. lia.
Qed.

Lemma truthy_num_Some (x : option Q) :
  Py.truthy_num x = true <-> exists q, x = Some q /\ ~ (q == 0)%Q.
Proof.
  unfold Py.truthy_num. destruct x as [q |].
  - destruct (Qeq_bool q 0) eqn:H; cbn; split.
    + discriminate.
    + intros (q' & [= <-] & Hq). apply Qeq_bool_iff in H. contradiction.
    + intros _. exists q. split; [reflexivity |]. apply Qeq_bool_neq. exact H.
    + reflexivity.
  - split; [discriminate | intros (q & [=] & _)].
Qed.

Section Host.

Context {rounding : Py.FloatRounding}.
Variable get_codes_for : string -> string -> string -> list string.
Variable get_default_code : string -> option string.
Variable account_tax_rate : option string -> option Q.

Local Abbreviation effective_tax_rate := (effective_tax_rate account_tax_rate).
Local Abbreviation on_net_total_tax :=
  (on_net_total_tax get_codes_for get_default_code account_tax_rate).
Local Abbreviation on_previous_row_tax :=
  (on_previous_row_tax get_codes_for get_default_code).
Local Abbreviation previous_row_trade_tax :=
  (previous_row_trade_tax get_codes_for get_default_code).
Local Abbreviation add_tax_row :=
  (add_tax_row get_codes_for get_default_code account_tax_rate).
Local Abbreviation add_tax_rows :=
  (add_tax_rows get_codes_for get_default_code account_tax_rate).
Local Abbreviation _add_taxes_and_charges :=
  (_add_taxes_and_charges get_codes_for get_default_code account_tax_rate).

(** The [On Net Total] branch never raises. *)
Lemma on_net_total_tax_total (self : EInvoiceGenerator) (tax : SalesTaxesAndCharges) :
  exists trade_tax rates, on_net_total_tax self tax = Some (trade_tax, rates).
Proof.
  unfold SalesInvoice.on_net_total_tax.
  destruct (length (taxes (invoice self)) =? 1)%nat.
  - destruct ((length (item_tax_rates self) =? 1)%nat && _); eexists _, _; reflexivity.
  - destruct (row_net_amount tax), (row_custom_net_amount tax); try (eexists _, _; reflexivity).
    destruct (Py.truthy_num (tax_amount tax)) eqn:Ha; [| eexists _, _; reflexivity].
    destruct (Py.truthy_num (SalesInvoice.effective_tax_rate account_tax_rate tax)) eqn:Hr;
      [| eexists _, _; reflexivity].
    apply truthy_num_Some in Ha as (a & -> & _). apply truthy_num_Some in Hr as (r & -> & _).
    eexists _, _; reflexivity.
Qed.

(** When neither the row nor its account carries a rate, the row's
    effective rate is 0. *)
Lemma effective_tax_rate_zero (tax : SalesTaxesAndCharges) :
  Py.truthy_num (rate tax) = false ->
  Py.truthy_num (account_tax_rate (account_head tax)) = false ->
  effective_tax_rate tax = Some 0%Q.
Proof.
  intros H1 H2. unfold SalesInvoice.effective_tax_rate, Py.or_num. rewrite H1, H2. reflexivity.
Qed.



Lemma add_tax_row_previous (self : EInvoiceGenerator) (tax_added : bool) (i : nat)
    (tax previous : SalesTaxesAndCharges) :
  Py.index (taxes (invoice self)) (Z.of_nat i - 1) = Some previous ->
  (charge_type tax = "On Previous Row Amount" ->
   add_tax_row self tax_added i tax
   = Some (add_trade_tax self (item_tax_rates self)
             (previous_row_trade_tax self tax previous (tax_amount previous)), true))
  /\ (charge_type tax = "On Previous Row Total" ->
      add_tax_row self tax_added i tax
      = Some (add_trade_tax self (item_tax_rates self)
                (previous_row_trade_tax self tax previous (total previous)), true)).
Proof.
  intros Hprev. split; intros Hct;
    unfold SalesInvoice.add_tax_row, SalesInvoice.on_previous_row_tax;
    rewrite Hct, Hprev; reflexivity.
Qed.

(** One iteration of the loop never raises on a row of the invoice, and
    leaves invoice and profile as they are. *)
Lemma add_tax_row_total (self : EInvoiceGenerator) (tax_added : bool) (i : nat)
    (tax : SalesTaxesAndCharges) :
  (i < length (taxes (invoice self)))%nat ->
  exists self' added,
    add_tax_row self tax_added i tax = Some (self', added)
    /\ invoice self' = invoice self /\ profile self' = profile self.
Proof.
  intros Hi.
  assert (Hprev : exists previous,
             Py.index (taxes (invoice self)) (Z.of_nat i - 1) = Some previous).
  { destruct i as [| j].
    - destruct (taxes (invoice self)) as [| t rest] eqn:Ht; [cbn in Hi; lia |].
      change (Z.of_nat 0 - 1)%Z with (-1)%Z. rewrite index_minus_one.
      rewrite last_lookup. apply lookup_lt_is_Some. cbn [length Nat.pred]. lia.
    - rewrite index_nonneg by lia. apply lookup_lt_is_Some. lia. }
  destruct Hprev as [previous Hprev].
  unfold SalesInvoice.add_tax_row.
  assert (Hbranch : exists b,
    (if String.eqb (charge_type tax) "Actual" then ge (profile self) EXTENDED else Some false)
    = Some b).
  { destruct (String.eqb (charge_type tax) "Actual"); [| eexists; reflexivity].
    apply LineItemProps.ge_total. }
  destruct Hbranch as [[|] ->]; cbn [mbind option_bind].
  - unfold service_charge_of.
    destruct (i + 1 <? length (taxes (invoice self)))%nat eqn:Hnext.
    + apply Nat.ltb_lt in Hnext. rewrite index_nonneg by lia.
      destruct (lookup_lt_is_Some_2 (taxes (invoice self)) (Z.to_nat (Z.of_nat i + 1)))
        as [vat_line ->]; [lia |].
      cbn [mbind option_bind].
      destruct (Py.str_in (charge_type vat_line) _); eexists _, _; repeat split; reflexivity.
    + eexists _, _; repeat split; reflexivity.
  - destruct (String.eqb (charge_type tax) "On Net Total").
    { destruct (on_net_total_tax_total self tax) as (trade_tax & rates & ->).
      eexists _, _; repeat split; reflexivity. }
    unfold SalesInvoice.on_previous_row_tax. rewrite Hprev. cbn [mbind option_bind].
    destruct (String.eqb (charge_type tax) "On Previous Row Amount");
      [eexists _, _; repeat split; reflexivity |].
    destruct (String.eqb (charge_type tax) "On Previous Row Total");
      eexists _, _; repeat split; reflexivity.
Qed.

Lemma add_tax_rows_total (rows : list SalesTaxesAndCharges) (self : EInvoiceGenerator)
    (tax_added : bool) (i : nat) :
  (i + length rows <= length (taxes (invoice self)))%nat ->
  exists result, add_tax_rows self tax_added i rows = Some result.
Proof.
  revert self tax_added i. induction rows as [| tax rest IH]; intros self tax_added i Hi.
  - eexists; reflexivity.
  - cbn [length] in Hi. cbn [SalesInvoice.add_tax_rows].
    destruct (add_tax_row_total self tax_added i tax) as (self' & added & -> & Hinv & _); [lia |].
    cbn [mbind option_bind]. apply IH. rewrite Hinv. lia.
Qed.

End Host.

Import Fixtures.

#[local] Existing Instance exact_rounding.


(** Two rows, neither with a net amount: the basis of the second is
    computed from its tax amount and rate. *)
Example on_net_total_computed_basis :
  (fun r => basis_amount <$> doc_trade_tax (fst r))
    <$> _add_taxes_and_charges codes_for no_default_code no_account_rate
          (generator_after_lines EN16931
             (invoice_of None []
                [tax_row "On Net Total" (Some "VAT 7") (Some 7%Q) (Some 7%Q) (Some 107%Q);
                 tax_row "On Net Total" (Some "VAT 19") (Some 19%Q) (Some 38%Q) (Some 345%Q)]
                300) [])
  = Some [Some 100%Q; Some 200%Q].
Proof. vm_compute. reflexivity. Qed.

(** The whole loop on an invoice whose first row is a surcharge on the
    previous row: both rows are emitted, the first one with the last
    row's tax amount as basis. *)
Example surcharge_first_rows :
  (fun r => (basis_amount <$> doc_trade_tax (fst r), type_code <$> doc_trade_tax (fst r)))
    <$> _add_taxes_and_charges codes_for no_default_code no_account_rate
          (generator_after_lines EN16931 surcharge_first_invoice [])
  = Some ([Some 19%Q; Some 100%Q], [Some "SUR"; Some "VAT"]).
Proof. vm_compute. reflexivity. Qed.

(** The whole flow on the single-row invoice when the row's account
    carries no tax rate: the line takes 7 from its template, the tax row
    is emitted with rate 7 and basis 100. *)
Example single_row_rate_from_lines :
  (fun self => (rate_applicable_percent <$> doc_trade_tax self,
                basis_amount <$> doc_trade_tax self))
    <$> create_lines_and_taxes codes_for no_default_code flt_round two_digits plain_text
          posting_date_of template_taxes no_account_rate
          (new_generator EN16931 single_row_invoice)
  = Some ([Some 7%Q], [Some 100%Q]).
Proof. vm_compute. reflexivity. Qed.

(** C5, on the code.  An invoice with one line, taxed at 7 by its item
    tax template, and one On Net Total tax row whose own rate is 0 on an
    account whose tax rate is 19: the line is emitted with rate 7, every
    line shares that one rate and the row's rate is 0, so the claim (and
    the comment in the code) has the row emitted with the lines' rate 7;
    the code emits the row with the account's rate 19, on the net total
    as basis. *)
Theorem account_rate_shadows_line_rate :
  rate <$> taxes single_row_invoice = [Some 0%Q]
  /\ (fun self => (rate_applicable_percent <$> (settlement_trade_tax <$> doc_items self),
                   rate_applicable_percent <$> doc_trade_tax self,
                   basis_amount <$> doc_trade_tax self))
       <$> create_lines_and_taxes codes_for no_default_code flt_round two_digits plain_text
             posting_date_of template_taxes account_rate_19
             (new_generator EN16931 single_row_invoice)
     = Some ([Some 7%Q], [Some 19%Q], [Some 100%Q])
  /\ ~ (19 == 7)%Q.
Proof. split; [| split]; [vm_compute; reflexivity .. | discriminate]. Qed.

End TaxRowProps.

(** ** Schematron validation on generation and on import *)

Module ValidationProps.
Import Utils Fixtures.

Lemma of_value_value (p : EInvoiceProfile) : of_value (value p) = Some p.
Proof. destruct p; reflexivity. Qed.

(** For every profile but XRECHNUNG the two sides report the same. *)
Lemma import_validation_agrees_below_xrechnung
    (engine : string -> string -> option (list string * list string))
    (p : EInvoiceProfile) (xml : string) (previous : bool) (errors warnings : list string) :
  p <> XRECHNUNG ->
  Schematron.get_validation_errors engine xml p = Some (errors, warnings) ->
  let generated := SalesInvoice.validate_einvoice engine (Some (value p)) (Some xml) in
  let imported := EInvoiceImport._validate_schematron engine (value p) previous xml in
  SalesInvoice.einvoice_is_correct generated = EInvoiceImport.e_invoice_is_correct imported
  /\ SalesInvoice.validation_errors generated = EInvoiceImport.validation_errors imported
  /\ SalesInvoice.validation_warnings generated = EInvoiceImport.validation_warnings imported.
Proof.
  intros Hp Hrun. cbv zeta.
  unfold SalesInvoice.validate_einvoice, SalesInvoice.collect_validation_errors,
    EInvoiceImport._validate_schematron.
  assert (Htruthy : Py.truthy_str (Some (value p)) = true) by (destruct p; reflexivity).
  rewrite Htruthy. cbn [negb default from_option id].
  rewrite of_value_value. cbn [mbind option_bind]. rewrite Hrun.
  assert (Heq : eqb p XRECHNUNG = false) by (destruct p; try reflexivity; contradiction).
  rewrite Heq. cbn. repeat split; reflexivity.
Qed.

(** C6, on the code.  For an XRECHNUNG document that passes the
    XRechnung rule set and fails a rule of the EN 16931 rule set, the
    generation side reports that failure and marks the invoice as not
    correct, while the import side runs the XRechnung rule set alone:
    it reports no error and marks the import as correct. *)
Theorem import_validation_lacks_baseline_pass :
  SalesInvoice.validate_einvoice engine_failing_baseline (Some "XRECHNUNG") (Some "<invoice/>")
  = {| SalesInvoice.einvoice_is_correct := false;
       SalesInvoice.validation_errors := "[BR-CO-15] Invoice total amount with VAT mismatch";
       SalesInvoice.validation_warnings := "" |}
  /\ EInvoiceImport._validate_schematron engine_failing_baseline "XRECHNUNG" false "<invoice/>"
     = {| EInvoiceImport.e_invoice_is_correct := true;
          EInvoiceImport.validation_errors := "";
          EInvoiceImport.validation_warnings := "" |}.
Proof. split; vm_compute; reflexivity. Qed.

End ValidationProps.

(** ** The import parser: line items *)

Module ParseLineProps.
Import Utils Py EInvoiceImport.

Lemma str_prefix_length (n : nat) (s : string) :
  (n <= String.length s)%nat -> String.length (str_prefix n s) = n.
Proof.
  unfold str_prefix. revert s. induction n as [| n IH]; intros s Hn.
  - destruct s; reflexivity.
  - destruct s as [| c s]; cbn in Hn; [lia |]. cbn. rewrite IH by lia. reflexivity.
Qed.

Lemma str_prefix_is_prefix (n : nat) (s : string) :
  exists remainder, s = str_prefix n s +:+ remainder.
Proof.
  unfold str_prefix. revert s. induction n as [| n IH]; intros s.
  - exists s. destruct s; reflexivity.
  - destruct s as [| c s]; [exists ""; reflexivity |].
    destruct (IH s) as [r Hr]. exists r.
    change (String c s = String c (String.substring 0 n s +:+ r)). f_equal. exact Hr.
Qed.

Section Host.

Context {F D : Type} {float_ops : Float F}.
Variable decimal_is_zero : D -> bool.
Variable float_of_decimal : D -> option F.
Variable float_of_str : string -> option F.
Variable str_of_id : IDElement -> string.
Variable item_exists : string -> bool.

Local Abbreviation truthy_val := (truthy_val decimal_is_zero).
Local Abbreviation py_float := (py_float float_of_decimal float_of_str).
Local Abbreviation flt_or_none := (flt_or_none float_of_decimal float_of_str).
Local Abbreviation line_rate := (line_rate decimal_is_zero float_of_decimal float_of_str).
Local Abbreviation parse_line_item :=
  (parse_line_item decimal_is_zero float_of_decimal float_of_str str_of_id item_exists).

Lemma py_float_no_zero_division (v : PyVal D) : py_float v <> Raise ZeroDivisionError.
Proof.
  destruct v as [| s | d]; cbn;
    [| destruct (float_of_str s) | destruct (float_of_decimal d)]; discriminate.
Qed.

Lemma flt_or_none_no_zero_division (v : PyVal D) : flt_or_none v <> Raise ZeroDivisionError.
Proof.
  destruct v as [| s | d]; cbn;
    [| destruct (float_of_str s) | destruct (float_of_decimal d)]; discriminate.
Qed.

(** Name and description of a parsed row. *)
Lemma parse_line_item_names (li : LineItem D) (row : EInvoiceItem F) :
  parse_line_item li = Ok row ->
  (product_name row, product_description row)
  = if (140 <? String.length (li_product_name li))%nat
    then (str_prefix 140 (li_product_name li),
          li_product_name li +:+ " | " +:+ li_product_description li)
    else (li_product_name li, li_product_description li).
Proof.
  unfold EInvoiceImport.parse_line_item.
  destruct (line_rate li) as [rate | e]; [| discriminate]. cbn [mbind result_mbind rbind].
  destruct (140 <? String.length (li_product_name li))%nat;
    destruct (flt_or_none (delivery_billed_quantity_amount li)); try discriminate;
    destruct (flt_or_none (trade_tax_rate_applicable_percent_value li)); try discriminate;
    destruct (flt_or_none (monetary_summation_total_amount_value li)); try discriminate;
    cbn [mbind result_mbind rbind]; intros [= <-]; reflexivity.
Qed.

(** C7, as the code has it.  For a product name longer than 140
    characters the row's product name is its first 140 characters and
    the row's description is the whole name, not only the part beyond
    140 characters, followed by " | " and the original description; a
    name of at most 140 characters is stored as it is, with the original
    description. *)
Theorem long_product_name_folded (li : LineItem D) (row : EInvoiceItem F) :
  parse_line_item li = Ok row ->
  ((140 < String.length (li_product_name li))%nat ->
   product_name row = str_prefix 140 (li_product_name li)
   /\ String.length (product_name row) = 140%nat
   /\ (exists remainder, li_product_name li = product_name row +:+ remainder)
   /\ product_description row = li_product_name li +:+ " | " +:+ li_product_description li)
  /\ ((String.length (li_product_name li) <= 140)%nat ->
      product_name row = li_product_name li
      /\ product_description row = li_product_description li).
Proof.
  intros Hparse. apply parse_line_item_names in Hparse. split; intros Hlen.
  - destruct (Nat.ltb_spec 140 (String.length (li_product_name li))); [| lia].
    injection Hparse as Hname Hdescription. rewrite Hname.
    repeat split.
    + apply str_prefix_length. lia.
    + apply str_prefix_is_prefix.
    + exact Hdescription.
  - destruct (Nat.ltb_spec 140 (String.length (li_product_name li))); [lia |].
    injection Hparse as Hname Hdescription. split; assumption.
Qed.

(** Python's [float("1")] is 1.0, which is not zero. *)
Variable one : F.
Hypothesis float_of_str_one : float_of_str "1" = Some one.
Hypothesis one_is_not_zero : float_is_zero one = false.

Lemma line_rate_falsy_basis (li : LineItem D) (n : F) :
  py_float (agreement_net_amount_value li) = Ok n ->
  truthy_val (agreement_net_basis_quantity_amount li) = false ->
  line_rate li = Ok (float_div n one).
Proof.
  intros Hn Hfalsy. unfold EInvoiceImport.line_rate, or_val. rewrite Hn, Hfalsy.
  cbn. rewrite float_of_str_one. cbn. unfold true_div. rewrite one_is_not_zero. reflexivity.
Qed.

Lemma line_rate_truthy_basis (li : LineItem D) (n : F) :
  py_float (agreement_net_amount_value li) = Ok n ->
  truthy_val (agreement_net_basis_quantity_amount li) = true ->
  line_rate li = basis_qty ← py_float (agreement_net_basis_quantity_amount li);
                 true_div n basis_qty.
Proof.
  intros Hn Htruthy. unfold EInvoiceImport.line_rate, or_val. rewrite Hn, Htruthy. reflexivity.
Qed.

(** C10, as the code has it.  The division [net_rate / basis_qty] has no
    zero test of its own, but [basis_qty] is [float(_amount or "1")]:
    every falsy amount takes the default 1, and a decimal zero is falsy
    just as an absent amount is.  So, when the net amount converts, an
    absent basis quantity and a basis quantity that is the decimal 0 both
    give [net_rate / 1.0].  A truthy basis quantity is converted and
    divided by: [parse_line_item] raises ZeroDivisionError exactly when
    the basis quantity is truthy and its conversion is a float zero. *)
Theorem basis_quantity_zero_defaults_to_one (li : LineItem D) (n : F) :
  py_float (agreement_net_amount_value li) = Ok n ->
  let basis := agreement_net_basis_quantity_amount li in
  ((basis = PyNone \/ basis = PyStr "") -> line_rate li = Ok (float_div n one))
  /\ (forall d, basis = PyDecimal d -> decimal_is_zero d = true ->
                line_rate li = Ok (float_div n one))
  /\ (forall q, truthy_val basis = true -> py_float basis = Ok q -> float_is_zero q = false ->
                line_rate li = Ok (float_div n q))
  /\ (line_rate li = Raise ZeroDivisionError <->
      exists q, truthy_val basis = true /\ py_float basis = Ok q /\ float_is_zero q = true)
  /\ (parse_line_item li = Raise ZeroDivisionError <-> line_rate li = Raise ZeroDivisionError).
Proof.
  intros Hn basis. split; [| split; [| split; [| split]]].
  - intros [Hb | Hb]; apply (line_rate_falsy_basis li n Hn); fold basis; rewrite Hb; reflexivity.
  - intros d Hb Hzero. apply (line_rate_falsy_basis li n Hn). fold basis. rewrite Hb. cbn.
    rewrite Hzero. reflexivity.
  - intros q Htruthy Hq Hnonzero. rewrite (line_rate_truthy_basis li n Hn Htruthy).
    fold basis. rewrite Hq. cbn. unfold true_div. rewrite Hnonzero. reflexivity.
  - destruct (truthy_val basis) eqn:Htruthy.
    + rewrite (line_rate_truthy_basis li n Hn Htruthy). fold basis.
      destruct (py_float basis) as [q | e] eqn:Hq; cbn [mbind result_mbind rbind].
      * unfold true_div. destruct (float_is_zero q) eqn:Hzero; split.
        -- intros _. exists q. auto.
        -- reflexivity.
        -- discriminate.
        -- intros (q' & _ & [= <-] & Hzero'). congruence.
      * split.
        -- intros [= ->]. exfalso. exact (py_float_no_zero_division basis Hq).
        -- intros (q & _ & [=] & _).
    + rewrite (line_rate_falsy_basis li n Hn Htruthy). split; [discriminate |].
      intros (q & [=] & _).
  - unfold EInvoiceImport.parse_line_item.
    destruct (line_rate li) as [rate | e]; cbn [mbind result_mbind rbind];
      [| split; intros [= ->]; reflexivity].
    split; [| discriminate]. intros Hraise. exfalso.
    destruct (140 <? String.length (li_product_name li))%nat;
      (destruct (flt_or_none (delivery_billed_quantity_amount li)) as [? | e1] eqn:H1;
       [| apply (flt_or_none_no_zero_division (delivery_billed_quantity_amount li));
          cbn in Hraise; congruence]);
      (destruct (flt_or_none (trade_tax_rate_applicable_percent_value li)) as [? | e2] eqn:H2;
       [| apply (flt_or_none_no_zero_division (trade_tax_rate_applicable_percent_value li));
          cbn in Hraise; congruence]);
      (destruct (flt_or_none (monetary_summation_total_amount_value li)) as [? | e3] eqn:H3;
       [| apply (flt_or_none_no_zero_division (monetary_summation_total_amount_value li));
          cbn in Hraise; congruence]);
      cbn in Hraise; discriminate.
Qed.

End Host.

Import Fixtures.

Lemma long_product_name_folded_witness :
  exists row,
    parse_line_item integer_is_zero float_of_integer float_of_digit render_id no_item
      (document_line long_name "d" (PyDecimal 50%Z) PyNone)
    = Ok row
    /\ String.length (product_name row) = 140%nat
    /\ product_description row = long_name +:+ " | " +:+ "d".
Proof.
  destruct (parse_line_item integer_is_zero float_of_integer float_of_digit render_id no_item
              (document_line long_name "d" (PyDecimal 50%Z) PyNone)) as [row | e] eqn:Hparse;
    [| vm_compute in Hparse; discriminate Hparse].
  exists row. split; [reflexivity |].
  destruct (long_product_name_folded integer_is_zero float_of_integer float_of_digit render_id
              no_item _ row Hparse) as [Hlong _].
  destruct Hlong as (_ & Hlength & _ & Hdescription).
  - apply Nat.ltb_lt. vm_compute. reflexivity.
  - split; [exact Hlength | exact Hdescription].
Defined.

(** C7, as stated, fails: for the name of 140 "a" followed by "Z" and
    the description "d", the stored description is the whole name
    followed by " | d", not the remainder "Z" followed by " | d". *)
Lemma long_product_name_counterexample :
  exists row,
    parse_line_item integer_is_zero float_of_integer float_of_digit render_id no_item
      (document_line long_name "d" (PyDecimal 50%Z) PyNone)
    = Ok row
    /\ product_name row = replicate_char 140 "a"
    /\ product_description row = long_name +:+ " | " +:+ "d"
    /\ product_description row <> "Z" +:+ " | " +:+ "d".
Proof.
  eexists. split; [vm_compute; reflexivity |]. cbn [product_name product_description].
  split; [vm_compute; reflexivity |]. split; [vm_compute; reflexivity |].
  vm_compute. discriminate.
Qed.

Lemma basis_quantity_zero_defaults_to_one_witness :
  line_rate integer_is_zero float_of_integer float_of_digit
    (document_line "Widget" "d" (PyDecimal 50%Z) (PyDecimal 0%Z))
  = Ok (50 / 1)%float
  /\ line_rate integer_is_zero float_of_integer float_of_digit
       (document_line "Widget" "d" (PyDecimal 50%Z) (PyStr ""))
     = Ok (50 / 1)%float.
Proof.
  split.
  - destruct (basis_quantity_zero_defaults_to_one integer_is_zero float_of_integer
                float_of_digit render_id no_item 1%float ltac:(reflexivity)
                ltac:(vm_compute; reflexivity)
                (document_line "Widget" "d" (PyDecimal 50%Z) (PyDecimal 0%Z)) 50%float
                ltac:(vm_compute; reflexivity))
      as (_ & Hzero & _).
    apply (Hzero 0%Z); reflexivity.
  - destruct (basis_quantity_zero_defaults_to_one integer_is_zero float_of_integer
                float_of_digit render_id no_item 1%float ltac:(reflexivity)
                ltac:(vm_compute; reflexivity)
                (document_line "Widget" "d" (PyDecimal 50%Z) (PyStr "")) 50%float
                ltac:(vm_compute; reflexivity))
      as (Habsent & _).
    apply Habsent. right. reflexivity.
Defined.

(** C10, as stated, fails: a line with net amount 50 and the explicit
    basis quantity 0 is parsed, with net rate 50; nothing is raised. *)
Lemma basis_quantity_zero_counterexample :
  exists row,
    parse_line_item integer_is_zero float_of_integer float_of_digit render_id no_item
      (document_line "Widget" "d" (PyDecimal 50%Z) (PyDecimal 0%Z)) = Ok row
    /\ net_rate row = 50%float
    /\ parse_line_item integer_is_zero float_of_integer float_of_digit render_id no_item
         (document_line "Widget" "d" (PyDecimal 50%Z) (PyDecimal 0%Z))
       <> Raise ZeroDivisionError.
Proof.
  eexists. split; [vm_compute; reflexivity |]. split; [reflexivity |].
  vm_compute. discriminate.
Qed.

(** A basis quantity stored as the text "0" is truthy and does reach the
    division, and so does a decimal that is not zero but too small for a
    float. *)
Example basis_quantity_text_zero_raises :
  parse_line_item integer_is_zero float_of_integer float_of_digit render_id no_item
    (document_line "Widget" "d" (PyDecimal 50%Z) (PyStr "0")) = Raise ZeroDivisionError
  /\ parse_line_item tiny_is_zero float_of_tiny float_of_digit render_id no_item
       (document_line_for "" "Widget" "d" (PyDecimal (Some 50%Z)) (PyDecimal None)
          (PyDecimal (Some 1%Z)))
     = Raise ZeroDivisionError.
Proof. split; vm_compute; reflexivity. Qed.

End ParseLineProps.

(** ** Purchase-order allocation *)

Module PoAllocationProps.
Import Utils Py EInvoiceImport.

Section Host.

Context {F : Type} {float_ops : Float F}.
Variable purchase_order_items : string -> list (PurchaseOrderItem F).
Variable purchase_order_item_exists : string -> string -> bool.

Local Abbreviation guess_row := (guess_row purchase_order_item_exists).
Local Abbreviation guess_rows := (guess_rows purchase_order_item_exists).
Local Abbreviation guess_po_details :=
  (guess_po_details purchase_order_items purchase_order_item_exists).

(** An order row the import line cannot take: another item, or too
    little unbilled amount left. *)
Lemma allocate_skip (row : po_row F) (pi_row : EInvoiceItem F) (t : F) :
  total_amount pi_row = Some t ->
  po_item_code row <> item pi_row \/ float_ge (unbilled_amount row) t = false ->
  (if bool_decide (po_item_code row = item pi_row)
   then ge_total (unbilled_amount row) (total_amount pi_row)
   else Ok false) = Ok false.
Proof.
  intros Ht Hskip. case_bool_decide as Hitem; [| reflexivity].
  destruct Hskip as [Hne | Hlt]; [contradiction |].
  rewrite Ht. cbn. rewrite Hlt. reflexivity.
Qed.

Lemma allocate_first_fit (pre : list (po_row F)) (row : po_row F) (post : list (po_row F))
    (pi_row : EInvoiceItem F) (t : F) :
  total_amount pi_row = Some t ->
  (forall r, r ∈ pre -> po_item_code r <> item pi_row \/ float_ge (unbilled_amount r) t = false) ->
  po_item_code row = item pi_row -> float_ge (unbilled_amount row) t = true ->
  allocate (pre ++ row :: post)%list pi_row
  = Ok (Some (po_name row),
        (pre ++ {| po_name := po_name row; po_item_code := po_item_code row;
                   unbilled_amount := float_sub (unbilled_amount row) t |} :: post)%list).
Proof.
  intros Ht Hpre Hitem Hge. induction pre as [| r pre IH]; cbn [app allocate].
  - rewrite bool_decide_true by exact Hitem. rewrite Ht. cbn. rewrite Hge. reflexivity.
  - rewrite (allocate_skip r pi_row t Ht); [| apply Hpre; left].
    cbn [mbind result_mbind rbind]. rewrite IH; [reflexivity |].
    intros r' Hin. apply Hpre. right. exact Hin.
Qed.

Lemma allocate_no_fit (po_items : list (po_row F)) (pi_row : EInvoiceItem F) (t : F) :
  total_amount pi_row = Some t ->
  (forall r, r ∈ po_items ->
             po_item_code r <> item pi_row \/ float_ge (unbilled_amount r) t = false) ->
  allocate po_items pi_row = Ok (None, po_items).
Proof.
  intros Ht Hall. induction po_items as [| r rest IH]; cbn [allocate]; [reflexivity |].
  rewrite (allocate_skip r pi_row t Ht); [| apply Hall; left].
  cbn [mbind result_mbind rbind]. rewrite IH; [reflexivity |].
  intros r' Hin. apply Hall. right. exact Hin.
Qed.

(** The outer loop is one pass: the lines after a point are handled on
    the order rows as the lines before it left them, and never change
    what those lines got. *)
Lemma guess_rows_app (purchase_order : string) (xs ys : list (EInvoiceItem F))
    (po_items : list (po_row F)) :
  guess_rows purchase_order po_items (xs ++ ys)%list
  = '(xs', po_items') ← guess_rows purchase_order po_items xs;
    '(ys', po_items'') ← guess_rows purchase_order po_items' ys;
    Ok ((xs' ++ ys')%list, po_items'').
Proof.
  revert po_items. induction xs as [| x xs IH]; intros po_items; cbn [app guess_rows].
  - cbn [mbind result_mbind rbind].
    destruct (guess_rows purchase_order po_items ys) as [[ys' po_items''] |]; reflexivity.
  - destruct (guess_row purchase_order po_items x) as [[x' po_items1] |];
      cbn [mbind result_mbind rbind]; [| reflexivity].
    rewrite IH.
    destruct (guess_rows purchase_order po_items1 xs) as [[xs' po_items2] |];
      cbn [mbind result_mbind rbind]; [| reflexivity].
    destruct (guess_rows purchase_order po_items2 ys) as [[ys' po_items3] |]; reflexivity.
Qed.

Lemma guess_rows_length (purchase_order : string) (rows rows' : list (EInvoiceItem F))
    (po_items po_items' : list (po_row F)) :
  guess_rows purchase_order po_items rows = Ok (rows', po_items') -> length rows' = length rows.
Proof.
  revert rows' po_items po_items'.
  induction rows as [| x rows IH]; intros rows' po_items po_items'; cbn [guess_rows].
  - intros [= <- _]. reflexivity.
  - destruct (guess_row purchase_order po_items x) as [[x' po_items1] |];
      cbn [mbind result_mbind rbind]; [| discriminate].
    destruct (guess_rows purchase_order po_items1 rows) as [[xs' po_items2] |] eqn:Hrest;
      cbn [mbind result_mbind rbind]; [| discriminate].
    intros [= <- _]. cbn. f_equal. exact (IH _ _ _ Hrest).
Qed.

(** C8, as the code has it.  With a purchase order selected, the working
    copy of each order row starts with its amount minus its billed
    amount.  The import lines are gone through once, in order: a line is
    handled on the order rows as the lines before it left them, and what
    the lines before it got is what they get without it and the lines
    after it.  A line whose allocation names an existing row of the order
    is left as it is and consumes nothing.  Any other line takes the
    first order row with the same item and an unbilled amount greater
    than or equal to the line's total amount, and that amount is taken
    off the row; when no row fits the line is left unassigned and the
    order rows are left as they are. *)
Theorem po_allocation_first_fit (purchase_order : string) (before : list (EInvoiceItem F))
    (pi_row : EInvoiceItem F) (after : list (EInvoiceItem F)) (t : F)
    (rows' : list (EInvoiceItem F)) (final : list (po_row F)) :
  purchase_order <> "" -> total_amount pi_row = Some t ->
  guess_po_details (Some purchase_order) (before ++ pi_row :: after)%list = Ok (rows', final) ->
  exists before' pi_row' after' state state',
    rows' = (before' ++ pi_row' :: after')%list
    /\ length before' = length before
    /\ guess_po_details (Some purchase_order) []
       = Ok ([], (fun row => {| po_name := name row;
                                po_item_code := item_code row;
                                unbilled_amount := float_sub (amount row) (billed_amt row) |})
                   <$> purchase_order_items purchase_order)
    /\ guess_po_details (Some purchase_order) before = Ok (before', state)
    /\ guess_rows purchase_order state' after = Ok (after', final)
    /\ (forall d, po_detail pi_row = Some d -> d <> "" ->
                  purchase_order_item_exists d purchase_order = true ->
                  pi_row' = pi_row /\ state' = state)
    /\ (truthy_str (po_detail pi_row)
        && purchase_order_item_exists (default "" (po_detail pi_row)) purchase_order = false ->
        (forall pre row post,
            state = (pre ++ row :: post)%list ->
            (forall r, r ∈ pre ->
                       po_item_code r <> item pi_row \/ float_ge (unbilled_amount r) t = false) ->
            po_item_code row = item pi_row -> float_ge (unbilled_amount row) t = true ->
            pi_row' = set_po_detail pi_row (Some (po_name row))
            /\ state' = (pre ++ {| po_name := po_name row; po_item_code := po_item_code row;
                                  unbilled_amount := float_sub (unbilled_amount row) t |}
                             :: post)%list)
        /\ ((forall r, r ∈ state ->
                       po_item_code r <> item pi_row
                       \/ float_ge (unbilled_amount r) t = false) ->
            pi_row' = set_po_detail pi_row None /\ state' = state)).
Proof.
  intros Hpo Ht. unfold EInvoiceImport.guess_po_details.
  apply CommonCodesProps.truthy_str_Some in Hpo. rewrite Hpo. cbn [negb default from_option id].
  rewrite guess_rows_app.
  destruct (guess_rows purchase_order (po_items_of purchase_order_items purchase_order) before)
    as [[before' state] |] eqn:Hbefore; cbn [mbind result_mbind rbind]; [| discriminate].
  cbn [guess_rows].
  destruct (guess_row purchase_order state pi_row) as [[pi_row' state'] |] eqn:Hrow;
    cbn [mbind result_mbind rbind]; [| discriminate].
  destruct (guess_rows purchase_order state' after) as [[after' final'] |] eqn:Hafter;
    cbn [mbind result_mbind rbind]; [| discriminate].
  intros [= <- <-]. exists before', pi_row', after', state, state'.
  split; [reflexivity |]. split; [exact (guess_rows_length _ _ _ _ _ Hbefore) |].
  split; [reflexivity |]. split; [reflexivity |]. split; [exact Hafter |].
  unfold EInvoiceImport.guess_row in Hrow. split.
  - intros d Hd Hne Hexists. rewrite Hd in Hrow. cbn [default from_option id] in Hrow.
    rewrite Hexists in Hrow. apply CommonCodesProps.truthy_str_Some in Hne.
    rewrite Hne in Hrow. injection Hrow as <- <-. split; reflexivity.
  - intros Hinvalid. rewrite Hinvalid in Hrow. split.
    + intros pre row post -> Hpre Hitem Hge.
      rewrite (allocate_first_fit pre row post pi_row t Ht Hpre Hitem Hge) in Hrow.
      injection Hrow as <- <-. split; reflexivity.
    + intros Hall. rewrite (allocate_no_fit state pi_row t Ht Hall) in Hrow.
      injection Hrow as <- <-. split; reflexivity.
Qed.

End Host.

Import Fixtures.

#[local] Set Warnings "-inexact-float".

Lemma po_allocation_first_fit_witness :
  exists before' pi_row' state state',
    guess_po_details order_rows order_row_exists (Some "PO-1") [import_line "X" 60%float None]
    = Ok (before', state)
    /\ unbilled_amount <$> state = [40%float]
    /\ pi_row' = import_line "X" 40%float (Some "row-1")
    /\ unbilled_amount <$> state' = [0%float].
Proof.
  destruct (po_allocation_first_fit order_rows order_row_exists "PO-1"
              [import_line "X" 60%float None] (import_line "X" 40%float None) [] 40%float
              [import_line "X" 60%float (Some "row-1"); import_line "X" 40%float (Some "row-1")]
              [ {| po_name := "row-1"; po_item_code := Some "X"; unbilled_amount := 0%float |} ]
              ltac:(discriminate) ltac:(reflexivity) ltac:(vm_compute; reflexivity))
    as (before' & pi_row' & after' & state & state' & _ & _ & _ & Hbefore & _ & _ & Hfit).
  exists before', pi_row', state, state'. split; [exact Hbefore |].
  pose proof Hbefore as Hvalue. vm_compute in Hvalue. injection Hvalue as <- <-.
  split; [vm_compute; reflexivity |].
  destruct (Hfit ltac:(reflexivity)) as [Hfirst _].
  destruct (Hfirst [] {| po_name := "row-1"; po_item_code := Some "X";
                         unbilled_amount := 40%float |} [])
    as [-> ->]; [reflexivity | | reflexivity | vm_compute; reflexivity |].
  - intros r Hin. inversion Hin.
  - split; vm_compute; reflexivity.
Defined.

(** C8's example, as stated, fails: the second line (40) is allocated to
    the order row as well, the 40 left after the first line being enough
    for it; it is not left unassigned. *)
Lemma po_allocation_example_counterexample :
  exists rows po_items,
    guess_po_details order_rows order_row_exists (Some "PO-1")
      [import_line "X" 60%float None; import_line "X" 40%float None] = Ok (rows, po_items)
    /\ po_detail <$> rows = [Some "row-1"; Some "row-1"]
    /\ po_detail <$> rows <> [Some "row-1"; None]
    /\ unbilled_amount <$> po_items = [0%float].
Proof.
  eexists _, _. split; [vm_compute; reflexivity |].
  split; [reflexivity |]. split; [discriminate | reflexivity].
Qed.

(** With lines of 60 and 50 the second one is left unassigned. *)
Example po_allocation_insufficient :
  guess_po_details order_rows order_row_exists (Some "PO-1")
    [import_line "X" 60%float None; import_line "X" 50%float None]
  = Ok ([import_line "X" 60%float (Some "row-1"); import_line "X" 50%float None],
        [ {| po_name := "row-1"; po_item_code := Some "X"; unbilled_amount := 40%float |} ]).
Proof. vm_compute. reflexivity. Qed.

(** The amounts are floats: after 1.1 is taken off 3.3 the row holds
    less than 2.2, and a line of 2.2 is left unassigned. *)
Example po_allocation_rounding :
  exists rows po_items,
    guess_po_details (order_of 3.3%float) order_row_exists (Some "PO-1")
      [import_line "X" 1.1%float None; import_line "X" 2.2%float None] = Ok (rows, po_items)
    /\ po_detail <$> rows = [Some "row-1"; None]
    /\ (fun r => float_ge (unbilled_amount r) 2.2%float) <$> po_items = [false].
Proof.
  eexists _, _. split; [vm_compute; reflexivity |]. split; vm_compute; reflexivity.
Qed.

End PoAllocationProps.

(** ** CommonCodeRetriever: where a result comes from *)

Module CommonCodesOriginProps.
Import CommonCodes.

Section Retriever.

Variable get_codes_for : string -> string -> string -> list string.
Variable get_default_code : string -> option string.

Local Abbreviation get_code_records := (get_code_records get_codes_for).
Local Abbreviation get_code_lists := (get_code_lists get_codes_for).
Local Abbreviation get_code := (get_code get_codes_for).
Local Abbreviation get := (get get_codes_for get_default_code).

(** A truthy [codes] after the inner loop was truthy before it or is the
    entry of one of the pairs. *)
Lemma get_code_records_origin cl records codes c rest :
  get_code_records cl records codes = Some (c :: rest) ->
  codes = Some (c :: rest)
  \/ exists dt n, (dt, Some n) ∈ records /\ n <> "" /\ get_codes_for cl dt n = c :: rest.
Proof.
  revert codes. induction records as [| [dt name] records IH]; intros codes; cbn.
  - intros ->. left. reflexivity.
  - destruct (Py.truthy_str name) eqn:Hname; cbn.
    + destruct name as [n |]; [| discriminate]. cbn.
      destruct (get_codes_for cl dt n) as [| c' rest'] eqn:Hlookup; cbn.
      * intros H. apply IH in H as [H | (dt' & n' & Hin & Hne & Hhit)]; [discriminate |].
        right. exists dt', n'. split; [right; exact Hin | auto].
      * intros [= <- <-]. right. exists dt, n.
        split; [left | split; [apply CommonCodesProps.truthy_str_Some; exact Hname | exact Hlookup]].
    + intros H. apply IH in H as [H | (dt' & n' & Hin & Hne & Hhit)]; [left; exact H |].
      right. exists dt', n'. split; [right; exact Hin | auto].
Qed.

Lemma get_code_lists_origin lists records codes c rest :
  get_code_lists lists records codes = Some (c :: rest) ->
  codes = Some (c :: rest)
  \/ exists cl dt n,
       cl ∈ lists /\ (dt, Some n) ∈ records /\ n <> "" /\ get_codes_for cl dt n = c :: rest.
Proof.
  revert codes. induction lists as [| cl lists IH]; intros codes; cbn.
  - intros ->. left. reflexivity.
  - destruct (truthy_codes (get_code_records cl records codes)) eqn:Htruthy.
    + intros H. apply get_code_records_origin in H as [H | (dt & n & Hin & Hne & Hhit)];
        [left; exact H |].
      right. exists cl, dt, n. split; [left | auto].
    + intros H. apply IH in H as [H | (cl' & dt & n & Hcl & Hin & Hne & Hhit)].
      * rewrite H in Htruthy. discriminate.
      * right. exists cl', dt, n. split; [right; exact Hcl | auto].
Qed.

Lemma get_code_origin self records c :
  get_code self records = Some c ->
  exists cl dt n rest,
    cl ∈ code_lists self /\ (dt, Some n) ∈ records /\ n <> ""
    /\ get_codes_for cl dt n = c :: rest.
Proof.
  unfold CommonCodes.get_code.
  destruct (get_code_lists (code_lists self) records None) as [[| c' rest] |] eqn:Hloop;
    cbn; try discriminate.
  intros [= <-]. apply get_code_lists_origin in Hloop as [H | (cl & dt & n & H)];
    [discriminate |].
  exists cl, dt, n, rest. exact H.
Qed.

Lemma get_default_code_lists_origin lists d :
  get_default_code_lists get_default_code lists = Some d ->
  exists cl, cl ∈ lists /\ get_default_code cl = Some d /\ d <> "".
Proof.
  induction lists as [| cl lists IH]; cbn; [discriminate |].
  destruct (Py.truthy_str (get_default_code cl)) eqn:Htruthy.
  - intros H. exists cl. split; [left |]. split; [exact H |].
    rewrite H in Htruthy. apply CommonCodesProps.truthy_str_Some. exact Htruthy.
  - intros H. apply IH in H as (cl' & Hin & Hd). exists cl'. split; [right; exact Hin | exact Hd].
Qed.

(** X1.  Whatever [get] returns is the first code of the entry of one of
    its code lists for one of the candidate pairs with a non-empty value,
    or the configured non-empty default code of one of its code lists, or
    the static default: it never makes up a code. *)
Theorem get_result_origin (self : CommonCodeRetriever)
    (records : list (string * option string)) :
  (exists cl dt n rest,
      cl ∈ code_lists self /\ (dt, Some n) ∈ records /\ n <> ""
      /\ get_codes_for cl dt n = get self records :: rest)
  \/ (exists cl, cl ∈ code_lists self /\ get_default_code cl = Some (get self records)
                /\ get self records <> "")
  \/ get self records = default_code self.
Proof.
  unfold CommonCodes.get, Py.or_else, Py.or_str.
  destruct (get_code self records) as [c |] eqn:Hcode.
  - destruct (Py.truthy_str (Some c)) eqn:Hc.
    + rewrite Hc. left. apply get_code_origin. exact Hcode.
    + destruct (get_default_code_of get_default_code self) as [d |] eqn:Hd; [| auto].
      destruct (Py.truthy_str (Some d)); [| auto].
      right. left. apply get_default_code_lists_origin. exact Hd.
  - cbn [Py.truthy_str].
    destruct (get_default_code_of get_default_code self) as [d |] eqn:Hd; [| auto].
    destruct (Py.truthy_str (Some d)); [| auto].
    right. left. apply get_default_code_lists_origin. exact Hd.
Qed.

(** Pairs with an empty value do not influence the inner loop. *)
Lemma get_code_records_filter cl records codes :
  get_code_records cl (filter (fun r => Py.truthy_str (snd r) = true) records) codes
  = get_code_records cl records codes.
Proof.
  revert codes. induction records as [| [dt name] records IH]; intros codes; [reflexivity |].
  destruct (Py.truthy_str name) eqn:Hname.
  - rewrite filter_cons_True by exact Hname. cbn. rewrite Hname. cbn.
    destruct (get_codes_for cl dt (default "" name)); [apply IH | reflexivity].
  - rewrite filter_cons_False by (cbn; rewrite Hname; discriminate).
    cbn. rewrite Hname. cbn. apply IH.
Qed.

Lemma get_code_lists_filter lists records codes :
  get_code_lists lists (filter (fun r => Py.truthy_str (snd r) = true) records) codes
  = get_code_lists lists records codes.
Proof.
  revert codes. induction lists as [| cl lists IH]; intros codes; [reflexivity |].
  cbn. rewrite get_code_records_filter.
  match goal with
  | |- context [truthy_codes ?c] => destruct (truthy_codes c)
  end; [reflexivity | apply IH].
Qed.

(** X2.  Candidate pairs whose value is [None] or empty are skipped
    without a lookup: dropping them from the candidates does not change
    the result, and when every candidate is such a pair the result is the
    first configured default code, or else the static default. *)
Theorem get_skips_empty_values (self : CommonCodeRetriever)
    (records : list (string * option string)) :
  get self (filter (fun r => Py.truthy_str (snd r) = true) records) = get self records
  /\ (Forall (fun r => Py.truthy_str (snd r) = false) records ->
      get self records
      = Py.or_else (get_default_code_of get_default_code self) (default_code self)).
Proof.
  split.
  - unfold CommonCodes.get, CommonCodes.get_code. rewrite get_code_lists_filter. reflexivity.
  - intros Hall. unfold CommonCodes.get.
    rewrite (CommonCodesProps.get_code_no_hit get_codes_for self records); [reflexivity |].
    intros cl _ dt n Hin Hne. exfalso.
    rewrite Forall_forall in Hall. specialize (Hall _ Hin).
    apply CommonCodesProps.truthy_str_Some in Hne. cbn in Hall, Hne. congruence.
Qed.

(** X3.  A retriever whose static default is not empty never returns the
    empty string, whatever the code lists hold. *)
Theorem get_never_empty (self : CommonCodeRetriever) (records : list (string * option string)) :
  default_code self <> "" -> get self records <> "".
Proof.
  intros Hd. unfold CommonCodes.get, Py.or_else, Py.or_str.
  destruct (Py.truthy_str (get_code self records)) eqn:H1.
  - destruct (get_code self records) as [c |]; [| discriminate].
    rewrite H1. apply CommonCodesProps.truthy_str_Some. exact H1.
  - destruct (get_default_code_of get_default_code self) as [d |]; [| exact Hd].
    destruct (Py.truthy_str (Some d)) eqn:H3; [| exact Hd].
    apply CommonCodesProps.truthy_str_Some. exact H3.
Qed.

End Retriever.

Import Fixtures.

Lemma get_skips_empty_values_witness :
  get codes_for default_only_L2 resolver [("UOM", None); ("UOM", Some "")] = "D2".
Proof.
  rewrite (proj2 (get_skips_empty_values codes_for default_only_L2 resolver
                    [("UOM", None); ("UOM", Some "")])).
  - reflexivity.
  - repeat constructor.
Defined.

Lemma get_never_empty_witness :
  get codes_for no_default_code SalesInvoice.uom_codes [("UOM", Some "Box")] <> "".
Proof. apply get_never_empty. discriminate. Defined.

End CommonCodesOriginProps.

(** ** Profiles: derived comparisons and tables *)

Module ProfileTableProps.
Import Utils.

(** X4.  The comparisons that [total_ordering] derives from [__lt__] are
    those of the same order: [a > b] is [b < a], [a >= b] is [b <= a],
    and [a <= b] holds exactly when [a < b] or [a = b].  For the gates
    the mapper uses: [>= EXTENDED] holds for EXTENDED alone, so not for
    XRECHNUNG, and [> BASIC] and [>= EN16931] both hold for every profile
    but BASIC. *)
Theorem derived_comparisons (a b : EInvoiceProfile) :
  gt a b = lt b a
  /\ ge a b = le b a
  /\ (le a b = Some true <-> a = b \/ lt a b = Some true)
  /\ (ge a EXTENDED = Some true <-> a = EXTENDED)
  /\ (gt a BASIC = Some true <-> a <> BASIC)
  /\ (ge a EN16931 = Some true <-> a <> BASIC).
Proof.
  destruct a, b; vm_compute; intuition congruence.
Qed.

(** X5.  [EInvoiceProfile(value)] and [.value] are inverse: the value of
    a profile is looked up to that profile, a string that is looked up to
    a profile is that profile's value, and any other string raises. *)
Theorem of_value_value_inverse :
  (forall p, of_value (value p) = Some p)
  /\ (forall s p, of_value s = Some p <-> value p = s)
  /\ (forall s, (forall p, value p <> s) <-> of_value s = None).
Proof.
  assert (Hfwd : forall s p, of_value s = Some p -> value p = s).
  { intros s p. unfold of_value.
    destruct (list_find _ _) as [[i q] |] eqn:Hfind; cbn; [| discriminate].
    intros [= <-]. apply list_find_Some in Hfind as (_ & Hq & _).
    apply String.eqb_eq. exact Hq. }
  assert (Hval : forall p, of_value (value p) = Some p) by (intros []; reflexivity).
  split; [exact Hval |]. split.
  - intros s p. split; [apply Hfwd | intros <-; apply Hval].
  - intros s. split.
    + intros Hnone. destruct (of_value s) as [p |] eqn:Hp; [| reflexivity].
      apply Hfwd in Hp. contradiction (Hnone p).
    + intros Hnone p Hp. rewrite <- Hp, Hval in Hnone. discriminate.
Qed.

(** X6.  Every profile has a schema name, a guideline and a stylesheet,
    so the three lookups never miss.  Guidelines and stylesheets are
    pairwise different, while the schema name is shared by exactly
    EN16931 and XRECHNUNG. *)
Theorem profile_tables_total :
  (forall p, is_Some (get_drafthorse_schema p)
             /\ is_Some (get_guideline p)
             /\ is_Some (Schematron.PROFILE_TO_XSL !! p))
  /\ (forall p q, get_guideline p = get_guideline q -> p = q)
  /\ (forall p q, Schematron.PROFILE_TO_XSL !! p = Schematron.PROFILE_TO_XSL !! q -> p = q)
  /\ (forall p q, get_drafthorse_schema p = get_drafthorse_schema q <->
                  p = q \/ (p = EN16931 /\ q = XRECHNUNG) \/ (p = XRECHNUNG /\ q = EN16931)).
Proof.
  split; [| split; [| split]].
  - intros []; repeat split; vm_compute; eauto.
  - intros [] []; vm_compute; congruence.
  - intros [] []; vm_compute; congruence.
  - intros [] []; vm_compute; split; intros; auto; try congruence;
      repeat match goal with
             | H : _ \/ _ |- _ => destruct H
             | H : _ /\ _ |- _ => destruct H
             end; congruence.
Qed.

Lemma profile_tables_total_witness :
  get_drafthorse_schema EN16931 = get_drafthorse_schema XRECHNUNG
  /\ (get_guideline BASIC = get_guideline BASIC -> BASIC = BASIC).
Proof.
  destruct profile_tables_total as (_ & Hguideline & _ & Hschema).
  split.
  - apply Hschema. right. left. split; reflexivity.
  - apply Hguideline.
Defined.

End ProfileTableProps.

(** ** The forward mapper: how many rows the tax loop emits *)

Module TaxRowEffectProps.
Import Utils CommonCodes SalesInvoice TaxRowKinds.

#[local] Arguments Py.str_in : simpl never.
#[local] Arguments Py.index : simpl never.

Section Host.

Context {rounding : Py.FloatRounding}.
Variable get_codes_for : string -> string -> string -> list string.
Variable get_default_code : string -> option string.
Variable account_tax_rate : option string -> option Q.

Local Abbreviation add_tax_row :=
  (add_tax_row get_codes_for get_default_code account_tax_rate).
Local Abbreviation add_tax_rows :=
  (add_tax_rows get_codes_for get_default_code account_tax_rate).
Local Abbreviation _add_taxes_and_charges :=
  (_add_taxes_and_charges get_codes_for get_default_code account_tax_rate).
Local Abbreviation service_charge_of :=
  (service_charge_of get_codes_for get_default_code).

Lemma ge_extended (p : EInvoiceProfile) :
  ge p EXTENDED = Some (bool_decide (p = EXTENDED)).
Proof. destruct p; reflexivity. Qed.

Lemma service_charge_of_total (self : EInvoiceGenerator) (i : nat) (tax : SalesTaxesAndCharges) :
  exists charge, service_charge_of self i tax = Some charge.
Proof.
  unfold SalesInvoice.service_charge_of.
  destruct (i + 1 <? length (taxes (invoice self)))%nat eqn:Hnext.
  - apply Nat.ltb_lt in Hnext. rewrite TaxRowProps.index_nonneg by lia.
    destruct (lookup_lt_is_Some_2 (taxes (invoice self)) (Z.to_nat (Z.of_nat i + 1)))
      as [vat_line ->]; [lia |].
    cbn [mbind option_bind].
    destruct (Py.str_in (charge_type vat_line) _); eexists; reflexivity.
  - eexists; reflexivity.
Qed.

(** What one iteration adds, by the kind of its row. *)
Lemma add_tax_row_effect (self : EInvoiceGenerator) (tax_added : bool) (i : nat)
    (tax : SalesTaxesAndCharges) :
  (i < length (taxes (invoice self)))%nat ->
  exists self' added,
    add_tax_row self tax_added i tax = Some (self', added)
    /\ invoice self' = invoice self /\ profile self' = profile self
    /\ doc_items self' = doc_items self
    /\ length (doc_trade_tax self')
       = (length (doc_trade_tax self) + (if emits_trade_tax tax then 1 else 0))%nat
    /\ length (doc_service_charge self')
       = (length (doc_service_charge self)
          + (if emits_service_charge (profile self) tax then 1 else 0))%nat
    /\ added = tax_added || emits_trade_tax tax.
Proof.
  intros Hi.
  destruct (TaxRowProps.add_tax_row_total get_codes_for get_default_code account_tax_rate
              self tax_added i tax Hi) as (self0 & added0 & Hrun & _).
  unfold SalesInvoice.add_tax_row in *. unfold emits_trade_tax, emits_service_charge.
  destruct (String.eqb_spec (charge_type tax) "Actual") as [Hact | Hact].
  - rewrite Hact in *.
    change (Py.str_in "Actual" _) with false. rewrite orb_false_r.
    rewrite ge_extended. cbn [mbind option_bind andb].
    destruct (bool_decide (profile self = EXTENDED)).
    + destruct (service_charge_of_total self i tax) as [charge ->]. cbn [mbind option_bind].
      eexists _, _; repeat split; cbn; rewrite ?length_app; cbn; try reflexivity; lia.
    + change ("Actual" =? "On Net Total") with false.
      change ("Actual" =? "On Previous Row Amount") with false.
      change ("Actual" =? "On Previous Row Total") with false.
      eexists _, _; repeat split; cbn; lia.
  - cbn [mbind option_bind andb] in *.
    destruct (String.eqb_spec (charge_type tax) "On Net Total") as [Hnet | Hnet].
    { rewrite Hnet. change (Py.str_in "On Net Total" _) with true. rewrite orb_true_r.
      destruct (TaxRowProps.on_net_total_tax_total get_codes_for get_default_code
                  account_tax_rate self tax) as (trade_tax & rates & ->).
      cbn [mbind option_bind].
      eexists _, _; repeat split; cbn; rewrite ?length_app; cbn; try reflexivity; lia. }
    destruct (String.eqb_spec (charge_type tax) "On Previous Row Amount") as [Hamount | Hamount].
    { rewrite Hamount in *. change (Py.str_in "On Previous Row Amount" _) with true.
      rewrite orb_true_r.
      destruct (SalesInvoice.on_previous_row_tax _ _ _ _ _ _) as [trade_tax |] eqn:Hprev;
        [| cbn in Hrun; discriminate].
      cbn [mbind option_bind].
      eexists _, _; repeat split; cbn; rewrite ?length_app; cbn; try reflexivity; lia. }
    destruct (String.eqb_spec (charge_type tax) "On Previous Row Total") as [Htotal | Htotal].
    { rewrite Htotal in *. change (Py.str_in "On Previous Row Total" _) with true.
      rewrite orb_true_r.
      destruct (SalesInvoice.on_previous_row_tax _ _ _ _ _ _) as [trade_tax |] eqn:Hprev;
        [| cbn in Hrun; discriminate].
      cbn [mbind option_bind].
      eexists _, _; repeat split; cbn; rewrite ?length_app; cbn; try reflexivity; lia. }
    assert (Hnone : Py.str_in (charge_type tax)
                      ["On Net Total"; "On Previous Row Amount"; "On Previous Row Total"] = false).
    { unfold Py.str_in. cbn [existsb].
      rewrite (proj2 (String.eqb_neq _ _) Hnet), (proj2 (String.eqb_neq _ _) Hamount),
        (proj2 (String.eqb_neq _ _) Htotal). reflexivity. }
    rewrite Hnone, orb_false_r.
    eexists _, _; repeat split; cbn; lia.
Qed.

Lemma count_rows_cons (test : SalesTaxesAndCharges -> bool) (tax : SalesTaxesAndCharges)
    (rows : list SalesTaxesAndCharges) :
  count_rows test (tax :: rows) = ((if test tax then 1 else 0) + count_rows test rows)%nat.
Proof.
  unfold count_rows. destruct (test tax) eqn:Htest.
  - rewrite filter_cons_True by exact Htest. reflexivity.
  - rewrite filter_cons_False by (rewrite Htest; discriminate). reflexivity.
Qed.

Lemma count_rows_ext (test1 test2 : SalesTaxesAndCharges -> bool)
    (rows : list SalesTaxesAndCharges) :
  (forall tax, test1 tax = test2 tax) -> count_rows test1 rows = count_rows test2 rows.
Proof.
  intros Hext. induction rows as [| tax rows IH]; [reflexivity |].
  rewrite !count_rows_cons, Hext, IH. reflexivity.
Qed.

Lemma count_rows_false (rows : list SalesTaxesAndCharges) :
  count_rows (fun _ => false) rows = 0%nat.
Proof.
  induction rows as [| tax rows IH]; [reflexivity |]. rewrite count_rows_cons, IH. reflexivity.
Qed.

Lemma add_tax_rows_effect (rows : list SalesTaxesAndCharges) (self : EInvoiceGenerator)
    (tax_added : bool) (i : nat) :
  (i + length rows <= length (taxes (invoice self)))%nat ->
  exists self' added,
    add_tax_rows self tax_added i rows = Some (self', added)
    /\ invoice self' = invoice self /\ profile self' = profile self
    /\ doc_items self' = doc_items self
    /\ length (doc_trade_tax self')
       = (length (doc_trade_tax self) + count_rows emits_trade_tax rows)%nat
    /\ length (doc_service_charge self')
       = (length (doc_service_charge self)
          + count_rows (emits_service_charge (profile self)) rows)%nat
    /\ added = tax_added || bool_decide (0 < count_rows emits_trade_tax rows)%nat.
Proof.
  revert self tax_added i. induction rows as [| tax rest IH]; intros self tax_added i Hi.
  - eexists _, _. cbn. rewrite orb_false_r. repeat split; lia.
  - cbn [length] in Hi. cbn [SalesInvoice.add_tax_rows].
    destruct (add_tax_row_effect self tax_added i tax)
      as (self1 & added1 & -> & Hinv & Hprofile & Hitems & Htaxes & Hcharges & Hadded); [lia |].
    cbn [mbind option_bind].
    destruct (IH self1 added1 (S i))
      as (self2 & added2 & -> & Hinv2 & Hprofile2 & Hitems2 & Htaxes2 & Hcharges2 & Hadded2);
      [rewrite Hinv; lia |].
    exists self2, added2. split; [reflexivity |].
    rewrite !count_rows_cons.
    repeat split; try congruence.
    + rewrite Htaxes2, Htaxes. lia.
    + rewrite Hcharges2, Hcharges, Hprofile. lia.
    + rewrite Hadded2, Hadded.
      destruct (emits_trade_tax tax), tax_added; cbn;
        rewrite ?bool_decide_true by lia; reflexivity.
Qed.

(** X7.  [_add_taxes_and_charges] never raises and emits one trade tax
    for every On Net Total, On Previous Row Amount and On Previous Row
    Total row, one service charge for every Actual row when the profile
    is EXTENDED and none for any other profile, and nothing else; it
    returns [tax_added = True] exactly when it emitted a trade tax, and
    leaves the lines, the invoice and the profile as they are. *)
Theorem tax_loop_emission_counts (self : EInvoiceGenerator) :
  exists self' tax_added,
    _add_taxes_and_charges self = Some (self', tax_added)
    /\ invoice self' = invoice self /\ profile self' = profile self
    /\ doc_items self' = doc_items self
    /\ length (doc_trade_tax self')
       = (length (doc_trade_tax self)
          + count_rows emits_trade_tax (taxes (invoice self)))%nat
    /\ length (doc_service_charge self')
       = (length (doc_service_charge self)
          + if bool_decide (profile self = EXTENDED)
            then count_rows (fun tax => String.eqb (charge_type tax) "Actual")
                   (taxes (invoice self))
            else 0)%nat
    /\ (tax_added = true <-> (0 < count_rows emits_trade_tax (taxes (invoice self)))%nat).
Proof.
  destruct (add_tax_rows_effect (taxes (invoice self)) self false 0)
    as (self' & added & Hrun & Hinv & Hprofile & Hitems & Htaxes & Hcharges & Hadded);
    [cbn; lia |].
  exists self', added. split; [exact Hrun |].
  repeat split; try assumption.
  - rewrite Hcharges. f_equal. unfold emits_service_charge.
    destruct (bool_decide (profile self = EXTENDED)).
    + apply count_rows_ext. intros tax. apply andb_true_r.
    + rewrite (count_rows_ext _ (fun _ => false)) by (intros tax; apply andb_false_r).
      apply count_rows_false.
  - intros ->. cbn in Hadded. symmetry in Hadded. apply bool_decide_eq_true in Hadded. exact Hadded.
  - intros Hpos. rewrite Hadded. cbn. apply bool_decide_eq_true. exact Hpos.
Qed.

(** X9.  A row that is neither one of the three tax charge types nor an
    Actual row under the EXTENDED profile is skipped without a trace: the
    iteration leaves the generator and [tax_added] as they are.  This is
    the case of every Actual row under BASIC, EN 16931 and XRECHNUNG, and
    of an On Item Quantity row under every profile. *)
Theorem unsupported_row_is_skipped (self : EInvoiceGenerator) (tax_added : bool) (i : nat)
    (tax : SalesTaxesAndCharges) :
  emits_trade_tax tax = false -> emits_service_charge (profile self) tax = false ->
  add_tax_row self tax_added i tax = Some (self, tax_added).
Proof.
  unfold emits_trade_tax, emits_service_charge, Py.str_in. cbn [existsb].
  rewrite orb_false_r. intros Hkinds Hcharge.
  apply orb_false_elim in Hkinds as [Hnet Hkinds].
  apply orb_false_elim in Hkinds as [Hamount Htotal].
  unfold SalesInvoice.add_tax_row. rewrite Hnet, Hamount, Htotal.
  destruct (String.eqb (charge_type tax) "Actual"); [| reflexivity].
  rewrite ge_extended. cbn in Hcharge. rewrite Hcharge. reflexivity.
Qed.

(** What the [Actual] branch builds under the EXTENDED profile. *)
Lemma actual_row_service_charge (self : EInvoiceGenerator) (tax_added : bool) (i : nat)
    (tax : SalesTaxesAndCharges) :
  profile self = EXTENDED -> charge_type tax = "Actual" ->
  exists nested,
    add_tax_row self tax_added i tax
    = Some (add_service_charge self
              {| charge_description := row_description tax;
                 applied_amount := tax_amount tax;
                 charge_trade_tax := nested |}, tax_added)
    /\ (forall vat_line,
          taxes (invoice self) !! (i + 1)%nat = Some vat_line ->
          (charge_type vat_line = "On Previous Row Amount"
           \/ charge_type vat_line = "On Previous Row Total") ->
          exists entry,
            nested = [entry]
            /\ type_code entry = Some "VAT"
            /\ rate_applicable_percent entry = rate vat_line)
    /\ (taxes (invoice self) !! (i + 1)%nat = None -> nested = [])
    /\ (forall next,
          taxes (invoice self) !! (i + 1)%nat = Some next ->
          charge_type next <> "On Previous Row Amount" ->
          charge_type next <> "On Previous Row Total" -> nested = []).
Proof.
  intros Hprofile Hact. unfold SalesInvoice.add_tax_row.
  rewrite Hact, Hprofile. cbn [String.eqb Ascii.eqb Bool.eqb ge lt].
  change (ge EXTENDED EXTENDED) with (Some true). cbn [mbind option_bind].
  unfold SalesInvoice.service_charge_of.
  destruct (i + 1 <? length (taxes (invoice self)))%nat eqn:Hnext.
  - apply Nat.ltb_lt in Hnext. rewrite TaxRowProps.index_nonneg by lia.
    replace (Z.to_nat (Z.of_nat i + 1)) with (i + 1)%nat by lia.
    destruct (lookup_lt_is_Some_2 (taxes (invoice self)) (i + 1)) as [vat_line Hlookup];
      [lia |].
    rewrite Hlookup. cbn [mbind option_bind].
    destruct (Py.str_in (charge_type vat_line) _) eqn:Hkind; cbn [mbind option_bind];
      eexists; (split; [reflexivity |]); repeat split.
    + intros v [= <-] _. eexists. repeat split; reflexivity.
    + intros [=].
    + intros next [= <-] Hamount Htotal. exfalso.
      unfold Py.str_in in Hkind. cbn [existsb] in Hkind.
      rewrite (proj2 (String.eqb_neq _ _) Hamount), (proj2 (String.eqb_neq _ _) Htotal) in Hkind.
      discriminate.
    + intros v [= <-] [H | H]; rewrite H in Hkind; discriminate.
  - apply Nat.ltb_ge in Hnext. cbn [mbind option_bind].
    eexists; (split; [reflexivity |]); repeat split.
    intros v Hlookup. apply lookup_lt_Some in Hlookup. lia.
Qed.


(** X10.  Under the EXTENDED profile an Actual row is emitted as a
    service charge, added after the service charges already in the
    document, and no trade tax is added for it.  When the row is followed
    by a previous-row row, the service charge carries one nested VAT
    entry with the following row's rate; when it is the last row, or is
    followed by a row of another type, it carries no nested entry.  In
    both cases the applied amount is the row's tax amount and [tax_added]
    is left as it is. *)
Theorem service_charge_nested_vat (self : EInvoiceGenerator) (tax_added : bool) (i : nat)
    (tax : SalesTaxesAndCharges) :
  profile self = EXTENDED -> charge_type tax = "Actual" ->
  exists nested self',
    add_tax_row self tax_added i tax = Some (self', tax_added)
    /\ self' = add_service_charge self
                 {| charge_description := row_description tax;
                    applied_amount := tax_amount tax;
                    charge_trade_tax := nested |}
    /\ doc_service_charge self'
       = (doc_service_charge self
          ++ [ {| charge_description := row_description tax;
                  applied_amount := tax_amount tax;
                  charge_trade_tax := nested |} ])%list
    /\ doc_trade_tax self' = doc_trade_tax self
    /\ doc_items self' = doc_items self
    /\ (forall vat_line,
          taxes (invoice self) !! (i + 1)%nat = Some vat_line ->
          (charge_type vat_line = "On Previous Row Amount"
           \/ charge_type vat_line = "On Previous Row Total") ->
          exists entry,
            nested = [entry]
            /\ type_code entry = Some "VAT"
            /\ rate_applicable_percent entry = rate vat_line)
    /\ (taxes (invoice self) !! (i + 1)%nat = None -> nested = [])
    /\ (forall next,
          taxes (invoice self) !! (i + 1)%nat = Some next ->
          charge_type next <> "On Previous Row Amount" ->
          charge_type next <> "On Previous Row Total" -> nested = []).
Proof.
  intros Hprofile Hact.
  destruct (actual_row_service_charge self tax_added i tax Hprofile Hact)
    as (nested & Hrun & Hnested).
  exists nested, (add_service_charge self
                    {| charge_description := row_description tax;
                       applied_amount := tax_amount tax;
                       charge_trade_tax := nested |}).
  split; [exact Hrun |]. repeat (split; [reflexivity |]). exact Hnested.
Qed.

(** The trade taxes already in the document stay in front. *)
Lemma add_tax_row_prefix (self self' : EInvoiceGenerator) (tax_added added : bool) (i : nat)
    (tax : SalesTaxesAndCharges) :
  add_tax_row self tax_added i tax = Some (self', added) ->
  exists new, doc_trade_tax self' = (doc_trade_tax self ++ new)%list.
Proof.
  unfold SalesInvoice.add_tax_row.
  destruct (if String.eqb (charge_type tax) "Actual" then ge (profile self) EXTENDED
            else Some false) as [[|] |]; cbn [mbind option_bind]; [| | discriminate].
  - destruct (service_charge_of self i tax); cbn [mbind option_bind]; [| discriminate].
    intros [= <- <-]. exists []. cbn. rewrite app_nil_r. reflexivity.
  - destruct (String.eqb (charge_type tax) "On Net Total").
    { destruct (SalesInvoice.on_net_total_tax _ _ _ _ _) as [[trade_tax rates] |];
        cbn [mbind option_bind]; [| discriminate].
      intros [= <- <-]. exists [trade_tax]. reflexivity. }
    destruct (String.eqb (charge_type tax) "On Previous Row Amount").
    { destruct (SalesInvoice.on_previous_row_tax _ _ _ _ _ _) as [trade_tax |];
        cbn [mbind option_bind]; [| discriminate].
      intros [= <- <-]. exists [trade_tax]. reflexivity. }
    destruct (String.eqb (charge_type tax) "On Previous Row Total").
    { destruct (SalesInvoice.on_previous_row_tax _ _ _ _ _ _) as [trade_tax |];
        cbn [mbind option_bind]; [| discriminate].
      intros [= <- <-]. exists [trade_tax]. reflexivity. }
    intros [= <- <-]. exists []. rewrite app_nil_r. reflexivity.
Qed.

Lemma add_tax_rows_prefix (rows : list SalesTaxesAndCharges) (self self' : EInvoiceGenerator)
    (tax_added added : bool) (i : nat) :
  add_tax_rows self tax_added i rows = Some (self', added) ->
  exists new, doc_trade_tax self' = (doc_trade_tax self ++ new)%list.
Proof.
  revert self tax_added i. induction rows as [| tax rest IH]; intros self tax_added i; cbn.
  - intros [= <- <-]. exists []. rewrite app_nil_r. reflexivity.
  - destruct (add_tax_row self tax_added i tax) as [[self1 added1] |] eqn:Hrow;
      cbn [mbind option_bind]; [| discriminate].
    intros Hrest. apply add_tax_row_prefix in Hrow as [new1 Hnew1].
    apply IH in Hrest as [new2 Hnew2]. exists (new1 ++ new2)%list.
    rewrite Hnew2, Hnew1, app_assoc. reflexivity.
Qed.

End Host.

#[local] Existing Instance Fixtures.exact_rounding.

Import Fixtures.

(** The loop on the freight invoice under EXTENDED: one service charge
    with its nested VAT entry, and one trade tax. *)
Example freight_under_extended :
  (fun r => (length (doc_service_charge (fst r)), length (doc_trade_tax (fst r)), snd r))
    <$> _add_taxes_and_charges codes_for no_default_code no_account_rate
          (generator_after_lines EXTENDED freight_invoice [])
  = Some (1%nat, 1%nat, true).
Proof. vm_compute. reflexivity. Qed.

Lemma unsupported_row_is_skipped_witness :
  add_tax_row codes_for no_default_code no_account_rate
    (generator_after_lines XRECHNUNG freight_invoice []) false 0
    (tax_row "Actual" (Some "Freight") None (Some 5%Q) (Some 105%Q))
  = Some (generator_after_lines XRECHNUNG freight_invoice [], false).
Proof. apply unsupported_row_is_skipped; reflexivity. Defined.

Lemma service_charge_nested_vat_witness :
  exists nested self' entry,
    add_tax_row codes_for no_default_code no_account_rate
      (generator_after_lines EXTENDED freight_invoice []) false 0
      (tax_row "Actual" (Some "Freight") None (Some 5%Q) (Some 105%Q))
    = Some (self', false)
    /\ doc_service_charge self'
       = [ {| charge_description := Some "Actual";
              applied_amount := Some 5%Q;
              charge_trade_tax := nested |} ]
    /\ doc_trade_tax self' = []
    /\ nested = [entry] /\ rate_applicable_percent entry = Some 19%Q.
Proof.
  destruct (service_charge_nested_vat codes_for no_default_code no_account_rate
              (generator_after_lines EXTENDED freight_invoice []) false 0
              (tax_row "Actual" (Some "Freight") None (Some 5%Q) (Some 105%Q))
              eq_refl eq_refl)
    as (nested & self' & Hrun & _ & Hcharges & Htaxes & _ & Hnext & _).
  destruct (Hnext _ eq_refl (or_introl eq_refl)) as (entry & Hnested & _ & Hrate).
  exists nested, self', entry. split; [exact Hrun |]. split; [exact Hcharges |].
  split; [exact Htaxes |]. split; [exact Hnested | exact Hrate].
Defined.

End TaxRowEffectProps.

(** ** The forward mapper: the row before a previous-row tax row *)

Module PreviousRowProps.
Import Utils CommonCodes SalesInvoice TaxRowKinds.

#[local] Arguments Py.str_in : simpl never.
#[local] Arguments Py.index : simpl never.
#[local] Arguments String.eqb : simpl never.

Section Host.

Context {rounding : Py.FloatRounding}.
Variable get_codes_for : string -> string -> string -> list string.
Variable get_default_code : string -> option string.
Variable account_tax_rate : option string -> option Q.

Local Abbreviation add_tax_row :=
  (add_tax_row get_codes_for get_default_code account_tax_rate).
Local Abbreviation add_tax_rows :=
  (add_tax_rows get_codes_for get_default_code account_tax_rate).
Local Abbreviation _add_taxes_and_charges :=
  (_add_taxes_and_charges get_codes_for get_default_code account_tax_rate).

Lemma add_tax_rows_app (rows1 rows2 : list SalesTaxesAndCharges) (self : EInvoiceGenerator)
    (tax_added : bool) (i : nat) :
  add_tax_rows self tax_added i (rows1 ++ rows2)%list
  = '(self1, added1) ← add_tax_rows self tax_added i rows1;
    add_tax_rows self1 added1 (i + length rows1) rows2.
Proof.
  revert self tax_added i. induction rows1 as [| tax rows1 IH]; intros self tax_added i.
  - cbn. rewrite Nat.add_0_r. reflexivity.
  - cbn [app SalesInvoice.add_tax_rows length].
    destruct (add_tax_row self tax_added i tax) as [[self1 added1] |];
      cbn [mbind option_bind]; [| reflexivity].
    rewrite IH. replace (S i + length rows1)%nat with (i + S (length rows1))%nat by lia.
    reflexivity.
Qed.

(** [taxes[i - 1]]: the row before row [i], and the last row for the
    first row. *)
Lemma index_before (rows : list SalesTaxesAndCharges) (i : nat) (tax : SalesTaxesAndCharges) :
  rows !! i = Some tax ->
  Py.index rows (Z.of_nat i - 1)
  = match i with
    | O => last rows
    | S j => rows !! j
    end.
Proof.
  intros Hrow. destruct i as [| j].
  - destruct rows as [| first rest]; [discriminate |].
    change (Z.of_nat 0 - 1)%Z with (-1)%Z. apply TaxRowProps.index_minus_one.
  - rewrite TaxRowProps.index_nonneg by lia. f_equal. lia.
Qed.

(** C9.  [_add_taxes_and_charges] never raises on an invoice with a row
    of charge type On Previous Row Amount or On Previous Row Total, and
    emits one trade tax for that row, at its place among the trade taxes
    of the rows before it.  Its basis is the tax amount (or the total) of
    the row before it, and its type code is VAT when the row before it is
    an Actual row and SUR otherwise, where for the first row of the
    invoice the row before it is the invoice's last row ([taxes[-1]]);
    rate and calculated amount are the row's own. *)
Theorem previous_row_of_first_row_is_last (self : EInvoiceGenerator) (i : nat)
    (tax previous : SalesTaxesAndCharges) :
  taxes (invoice self) !! i = Some tax ->
  charge_type tax = "On Previous Row Amount" \/ charge_type tax = "On Previous Row Total" ->
  match i with
  | O => last (taxes (invoice self))
  | S j => taxes (invoice self) !! j
  end = Some previous ->
  exists self' trade_tax,
    _add_taxes_and_charges self = Some (self', true)
    /\ doc_trade_tax self'
       !! (length (doc_trade_tax self)
           + count_rows emits_trade_tax (take i (taxes (invoice self))))%nat
       = Some trade_tax
    /\ basis_amount trade_tax
       = (if String.eqb (charge_type tax) "On Previous Row Amount"
          then tax_amount previous else total previous)
    /\ type_code trade_tax
       = Some (if String.eqb (charge_type previous) "Actual" then "VAT" else "SUR")
    /\ rate_applicable_percent trade_tax = rate tax
    /\ calculated_amount trade_tax = tax_amount tax.
Proof.
  intros Hrow Htype Hprevious.
  pose proof (lookup_lt_Some _ _ _ Hrow) as Hi.
  rewrite <- (index_before _ _ _ Hrow) in Hprevious.
  destruct (TaxRowEffectProps.add_tax_rows_effect get_codes_for get_default_code
              account_tax_rate (take i (taxes (invoice self))) self false 0)
    as (self1 & added1 & Hbefore & Hinv1 & _ & _ & Hlength1 & _);
    [rewrite length_take; lia |].
  rewrite <- Hinv1 in Hprevious.
  destruct (TaxRowProps.add_tax_row_previous get_codes_for get_default_code account_tax_rate
              self1 added1 i tax previous Hprevious) as [Hamount Htotal].
  assert (Hstep : exists trade_tax,
             add_tax_row self1 added1 i tax
             = Some (add_trade_tax self1 (item_tax_rates self1) trade_tax, true)
             /\ basis_amount trade_tax
                = (if String.eqb (charge_type tax) "On Previous Row Amount"
                   then tax_amount previous else total previous)
             /\ type_code trade_tax
                = Some (if String.eqb (charge_type previous) "Actual" then "VAT" else "SUR")
             /\ rate_applicable_percent trade_tax = rate tax
             /\ calculated_amount trade_tax = tax_amount tax).
  { destruct Htype as [Hct | Hct]; eexists;
      (split; [first [exact (Hamount Hct) | exact (Htotal Hct)] |]);
      rewrite Hct; repeat split; reflexivity. }
  destruct Hstep as (trade_tax & Hstep & Hbasis & Hcode & Hrate & Hcalculated).
  destruct (TaxRowEffectProps.add_tax_rows_effect get_codes_for get_default_code
              account_tax_rate (drop (S i) (taxes (invoice self)))
              (add_trade_tax self1 (item_tax_rates self1) trade_tax) true (S i))
    as (self' & added & Hrest & _ & _ & _ & _ & _ & Hadded);
    [cbn; rewrite Hinv1, length_drop; lia |].
  cbn in Hadded. subst added.
  exists self', trade_tax. split.
  - unfold SalesInvoice._add_taxes_and_charges.
    rewrite <- (take_drop_middle _ _ _ Hrow) at 1.
    rewrite add_tax_rows_app, Hbefore. cbn [mbind option_bind].
    rewrite length_take, Nat.min_l by lia.
    cbn [SalesInvoice.add_tax_rows Nat.add]. rewrite Hstep. cbn [mbind option_bind].
    exact Hrest.
  - apply TaxRowEffectProps.add_tax_rows_prefix in Hrest as [new Hnew].
    split; [| repeat split; assumption].
    rewrite Hnew. cbn [doc_trade_tax add_trade_tax]. rewrite <- Hlength1.
    rewrite lookup_app_l by (rewrite length_app; cbn; lia).
    apply list_lookup_middle. reflexivity.
Qed.

End Host.

#[local] Existing Instance Fixtures.exact_rounding.

Import Fixtures.

Lemma previous_row_of_first_row_is_last_witness :
  (exists self' trade_tax,
      _add_taxes_and_charges codes_for no_default_code no_account_rate
        (generator_after_lines EN16931 surcharge_first_invoice []) = Some (self', true)
      /\ doc_trade_tax self' !! 0%nat = Some trade_tax
      /\ basis_amount trade_tax = Some 19%Q
      /\ type_code trade_tax = Some "SUR")
  /\ (exists self' trade_tax,
        _add_taxes_and_charges codes_for no_default_code no_account_rate
          (generator_after_lines EN16931 vat_first_invoice []) = Some (self', true)
        /\ doc_trade_tax self' !! 0%nat = Some trade_tax
        /\ basis_amount trade_tax = Some 5%Q
        /\ type_code trade_tax = Some "VAT").
Proof.
  split.
  - destruct (previous_row_of_first_row_is_last codes_for no_default_code no_account_rate
                (generator_after_lines EN16931 surcharge_first_invoice []) 0
                (tax_row "On Previous Row Amount" (Some "Surcharge") (Some 10%Q) (Some 2%Q)
                   (Some 121%Q))
                (tax_row "On Net Total" (Some "VAT 19") (Some 19%Q) (Some 19%Q) (Some 119%Q))
                eq_refl (or_introl eq_refl) eq_refl)
      as (self' & trade_tax & Hrun & Hplace & Hbasis & Hcode & _).
    exists self', trade_tax. repeat split; assumption.
  - destruct (previous_row_of_first_row_is_last codes_for no_default_code no_account_rate
                (generator_after_lines EN16931 vat_first_invoice []) 0
                (tax_row "On Previous Row Amount" (Some "VAT 19") (Some 19%Q) (Some 0.95%Q)
                   (Some 105.95%Q))
                (tax_row "Actual" (Some "Freight") None (Some 5%Q) (Some 105%Q))
                eq_refl (or_introl eq_refl) eq_refl)
      as (self' & trade_tax & Hrun & Hplace & Hbasis & Hcode & _).
    exists self', trade_tax. repeat split; assumption.
Defined.

End PreviousRowProps.

(** ** The forward mapper: the line loop and the mandatory tax row *)

Module LineLoopProps.
Import Utils CommonCodes SalesInvoice TaxRowKinds.

#[local] Arguments Py.str_in : simpl never.
#[local] Arguments Py.eq_num : simpl never.
#[local] Arguments Py.upper : simpl never.
#[local] Arguments multiplier : simpl never.
#[local] Arguments set_add : simpl never.

Section Host.

Context {rounding : Py.FloatRounding}.
Variable get_codes_for : string -> string -> string -> list string.
Variable get_default_code : string -> option string.
Variable flt : Q -> option nat -> Q.
Variable precision : SalesInvoiceItem -> string -> option nat.
Variable html2text : string -> string.
Variable delivery_note_posting_date : string -> string.
Variable item_tax_template_taxes : string -> list ItemTaxTemplateDetail.
Variable account_tax_rate : option string -> option Q.

Local Abbreviation build_line_item :=
  (build_line_item get_codes_for get_default_code flt precision html2text
     delivery_note_posting_date item_tax_template_taxes).
Local Abbreviation _add_line_item :=
  (_add_line_item get_codes_for get_default_code flt precision html2text
     delivery_note_posting_date item_tax_template_taxes).
Local Abbreviation add_line_items :=
  (add_line_items get_codes_for get_default_code flt precision html2text
     delivery_note_posting_date item_tax_template_taxes).
Local Abbreviation _add_taxes_and_charges :=
  (_add_taxes_and_charges get_codes_for get_default_code account_tax_rate).
Local Abbreviation create_lines_and_taxes :=
  (create_lines_and_taxes get_codes_for get_default_code flt precision html2text
     delivery_note_posting_date item_tax_template_taxes account_tax_rate).

(** What [_add_line_item] touches: it appends one line and may extend
    the two accumulators. *)
Lemma add_line_item_frame (self : EInvoiceGenerator) (item : SalesInvoiceItem) :
  exists li self',
    build_line_item self item = Some (li, self')
    /\ doc_items self' = (doc_items self ++ [li])%list
    /\ line_id li = pretty (idx item) /\ product_name li = item_name item
    /\ invoice self' = invoice self /\ profile self' = profile self
    /\ doc_trade_tax self' = doc_trade_tax self
    /\ doc_service_charge self' = doc_service_charge self.
Proof.
  unfold SalesInvoice.build_line_item.
  destruct (LineItemProps.gt_total (profile self) BASIC) as [above ->]. simpl.
  destruct (Py.truthy_str (delivery_note item));
    [destruct (LineItemProps.ge_total (profile self) EXTENDED) as [ext ->] |]; simpl;
    match goal with
    | |- context [Py.str_in ?c ?l] => destruct (Py.str_in c l)
    end;
    eexists _, _; repeat split; reflexivity.
Qed.

Lemma add_line_items_frame (rows : list SalesInvoiceItem) (self : EInvoiceGenerator) :
  exists self',
    add_line_items self rows = Some self'
    /\ line_id <$> doc_items self'
       = ((line_id <$> doc_items self) ++ ((fun item => pretty (idx item)) <$> rows))%list
    /\ product_name <$> doc_items self'
       = ((product_name <$> doc_items self) ++ (item_name <$> rows))%list
    /\ invoice self' = invoice self /\ profile self' = profile self
    /\ doc_trade_tax self' = doc_trade_tax self
    /\ doc_service_charge self' = doc_service_charge self.
Proof.
  revert self. induction rows as [| item rest IH]; intros self.
  - exists self. cbn. rewrite !app_nil_r. repeat split; reflexivity.
  - cbn [SalesInvoice.add_line_items]. unfold SalesInvoice._add_line_item.
    destruct (add_line_item_frame self item)
      as (li & self1 & -> & Hitems & Hid & Hname & Hinv & Hprofile & Htaxes & Hcharges).
    cbn [fmap option_fmap option_map mbind option_bind snd].
    destruct (IH self1) as (self2 & -> & Hids2 & Hnames2 & Hinv2 & Hprofile2 & Htaxes2 & Hcharges2).
    exists self2. split; [reflexivity |].
    rewrite Hids2, Hnames2, Hitems, !fmap_app. cbn [fmap list_fmap].
    rewrite Hid, Hname, <- !app_assoc. cbn [app].
    repeat split; congruence.
Qed.

(** X8.  The line loop never raises and emits one line per invoice item,
    in the item order, with the item's [idx] as line id and its item name
    as product name; it leaves the tax rows and service charges of the
    document as they are. *)
Theorem one_line_per_item (self : EInvoiceGenerator) (rows : list SalesInvoiceItem) :
  exists self',
    add_line_items self rows = Some self'
    /\ line_id <$> doc_items self'
       = ((line_id <$> doc_items self) ++ ((fun item => pretty (idx item)) <$> rows))%list
    /\ product_name <$> doc_items self'
       = ((product_name <$> doc_items self) ++ (item_name <$> rows))%list
    /\ length (doc_items self') = (length (doc_items self) + length rows)%nat
    /\ doc_trade_tax self' = doc_trade_tax self
    /\ doc_service_charge self' = doc_service_charge self.
Proof.
  destruct (add_line_items_frame rows self)
    as (self' & Hrun & Hids & Hnames & _ & _ & Htaxes & Hcharges).
  exists self'. repeat split; try assumption.
  apply (f_equal length) in Hids.
  rewrite length_app, !length_fmap in Hids. exact Hids.
Qed.

(** X11.  After the lines and the tax loop the document always carries
    at least one trade tax.  When no tax row of the invoice is an On Net
    Total or previous-row row, that is the single placeholder of
    [_add_empty_tax]: type VAT, rate 0, calculated amount 0, the invoice
    net total as basis and a non-empty exemption reason; otherwise no
    placeholder is added and there is one trade tax per such row. *)
Theorem mandatory_trade_tax (self : EInvoiceGenerator) :
  exists final,
    create_lines_and_taxes self = Some final
    /\ (length (doc_trade_tax self) < length (doc_trade_tax final))%nat
    /\ (count_rows emits_trade_tax (taxes (invoice self)) = 0%nat ->
        exists placeholder code,
          doc_trade_tax final = (doc_trade_tax self ++ [placeholder])%list
          /\ type_code placeholder = Some "VAT"
          /\ rate_applicable_percent placeholder = Some 0%Q
          /\ calculated_amount placeholder = Some 0%Q
          /\ basis_amount placeholder = Some (net_total (invoice self))
          /\ exemption_reason_code placeholder = Some code /\ code <> "")
    /\ ((0 < count_rows emits_trade_tax (taxes (invoice self)))%nat ->
        length (doc_trade_tax final)
        = (length (doc_trade_tax self)
           + count_rows emits_trade_tax (taxes (invoice self)))%nat).
Proof.
  unfold SalesInvoice.create_lines_and_taxes.
  destruct (add_line_items_frame (items (invoice self)) self)
    as (self1 & -> & _ & _ & Hinv & Hprofile & Htaxes & _).
  cbn [mbind option_bind].
  destruct (TaxRowEffectProps.add_tax_rows_effect get_codes_for get_default_code
              account_tax_rate (taxes (invoice self1)) self1 false 0)
    as (self2 & added & Hrun & Hinv2 & _ & _ & Hlen & _ & Hadded); [cbn; lia |].
  rewrite Hinv in Hlen, Hadded, Hinv2. rewrite Htaxes in Hlen. cbn [orb] in Hadded.
  destruct (TaxRowEffectProps.add_tax_rows_prefix get_codes_for get_default_code
              account_tax_rate _ _ _ _ _ _ Hrun) as [new Hnew].
  rewrite Htaxes in Hnew.
  destruct added.
  - symmetry in Hadded. apply bool_decide_eq_true in Hadded.
    exists self2. split.
    { unfold SalesInvoice._add_taxes_and_charges. rewrite Hrun. reflexivity. }
    repeat split.
    + lia.
    + intros Hzero. lia.
    + intros _. exact Hlen.
  - symmetry in Hadded. apply bool_decide_eq_false in Hadded.
    assert (Hzero : count_rows emits_trade_tax (taxes (invoice self)) = 0%nat) by lia.
    assert (Hempty : new = []).
    { apply (f_equal length) in Hnew. rewrite length_app, Hlen, Hzero in Hnew.
      destruct new; [reflexivity | cbn in Hnew; lia]. }
    subst new. rewrite app_nil_r in Hnew.
    exists (_add_empty_tax get_codes_for get_default_code self2). split.
    { unfold SalesInvoice._add_taxes_and_charges. rewrite Hrun. reflexivity. }
    repeat split.
    + cbn. rewrite length_app, Hnew. cbn. lia.
    + intros _. eexists _, _. cbn. rewrite Hnew, Hinv2.
      repeat split; try reflexivity.
      apply LineItemProps.upper_nonempty.
      apply LineItemProps.codes_get_nonempty. discriminate.
    + intros Hpos. lia.
Qed.

(** X12.  The sign normalization guarantees less than a non-negative
    price: provided [flt] keeps the sign of what it rounds, a line is
    never emitted with a negative net price together with a positive
    quantity; a negative price with a negative quantity is emitted as it
    is. *)
Theorem no_negative_price_with_positive_quantity (self self' : EInvoiceGenerator)
    (item : SalesInvoiceItem) (li : LineItem) :
  (forall x p, (x <= 0)%Q -> (flt x p <= 0)%Q) ->
  (forall x p, (0 <= x)%Q -> (0 <= flt x p)%Q) ->
  build_line_item self item = Some (li, self') ->
  (agreement_net_amount li < 0)%Q -> (fst (billed_quantity li) <= 0)%Q.
Proof.
  intros Hneg Hpos Hbuild.
  destruct (LineItemProps.build_line_item_shape get_codes_for get_default_code flt precision
              html2text delivery_note_posting_date item_tax_template_taxes self item)
    as (li0 & self0 & Hbuild0 & Hamount & Hqty & _).
  rewrite Hbuild in Hbuild0. injection Hbuild0 as <- <-.
  rewrite Hamount, Hqty. unfold multiplier.
  destruct (Py.Qltb (net_rate item) 0) eqn:Hrate; destruct (Py.Qltb 0 (qty item)) eqn:Hq;
    cbn [andb]; intros Hlt.
  - apply LineItemProps.Qltb_lt in Hrate.
    pose proof (Hneg (net_rate item) (precision item "net_rate") (Qlt_le_weak _ _ Hrate)). lra.
  - assert (Hq' : (qty item <= 0)%Q).
    { apply Qnot_lt_le. intros H. apply LineItemProps.Qltb_lt in H. congruence. }
    pose proof (Hneg (qty item) (precision item "qty") Hq'). lra.
  - assert (Hr' : (0 <= net_rate item)%Q).
    { apply Qnot_lt_le. intros H. apply LineItemProps.Qltb_lt in H. congruence. }
    pose proof (Hpos (net_rate item) (precision item "net_rate") Hr'). lra.
  - assert (Hq' : (qty item <= 0)%Q).
    { apply Qnot_lt_le. intros H. apply LineItemProps.Qltb_lt in H. congruence. }
    pose proof (Hneg (qty item) (precision item "qty") Hq'). lra.
Qed.

End Host.

#[local] Existing Instance Fixtures.exact_rounding.

Import Fixtures.

Lemma mandatory_trade_tax_witness :
  exists final placeholder,
    create_lines_and_taxes codes_for no_default_code flt_round two_digits plain_text
      posting_date_of template_taxes no_account_rate
      (new_generator EN16931 (invoice_of None [line 10 10 None] [] 100))
    = Some final
    /\ doc_trade_tax final = [placeholder]
    /\ basis_amount placeholder = Some 100%Q
    /\ rate_applicable_percent placeholder = Some 0%Q.
Proof.
  destruct (mandatory_trade_tax codes_for no_default_code flt_round two_digits plain_text
              posting_date_of template_taxes no_account_rate
              (new_generator EN16931 (invoice_of None [line 10 10 None] [] 100)))
    as (final & Hrun & _ & Hplaceholder & _).
  destruct (Hplaceholder eq_refl) as (placeholder & code & Htaxes & _ & Hrate & _ & Hbasis & _).
  exists final, placeholder. split; [exact Hrun |].
  split; [exact Htaxes |]. split; [exact Hbasis | exact Hrate].
Defined.

Lemma no_negative_price_with_positive_quantity_witness :
  exists li self',
    build_line_item codes_for no_default_code flt_exact two_digits plain_text posting_date_of
      template_taxes (new_generator EN16931 (invoice_of None [] [] 0)) (line (-10) (-5) None)
    = Some (li, self')
    /\ (agreement_net_amount li < 0)%Q
    /\ (fst (billed_quantity li) <= 0)%Q.
Proof.
  destruct (build_line_item codes_for no_default_code flt_exact two_digits plain_text
              posting_date_of template_taxes (new_generator EN16931 (invoice_of None [] [] 0))
              (line (-10) (-5) None)) as [[li self'] |] eqn:Hbuild;
    [| vm_compute in Hbuild; discriminate Hbuild].
  exists li, self'. split; [reflexivity |].
  assert (Hprice : (agreement_net_amount li < 0)%Q).
  { pose proof Hbuild as Hvalue. vm_compute in Hvalue. injection Hvalue as <- _. reflexivity. }
  split; [exact Hprice |].
  apply (no_negative_price_with_positive_quantity codes_for no_default_code flt_exact
           two_digits plain_text posting_date_of template_taxes
           (new_generator EN16931 (invoice_of None [] [] 0)) self' (line (-10) (-5) None));
    [intros x p H; exact H | intros x p H; exact H | exact Hbuild | exact Hprice].
Defined.

End LineLoopProps.

(** ** Validation: what decides correctness *)

Module ValidationVerdictProps.
Import Utils Fixtures.

#[local] Arguments SalesInvoice.collect_validation_errors : simpl never.
#[local] Arguments Schematron.get_validation_errors : simpl never.
#[local] Arguments of_value : simpl never.
#[local] Arguments Py.any_str : simpl never.
#[local] Arguments Py.join : simpl never.

Section Engines.

Variable engine : string -> string -> option (list string * list string).

Local Abbreviation collect_validation_errors :=
  (SalesInvoice.collect_validation_errors engine).
Local Abbreviation validate_einvoice := (SalesInvoice.validate_einvoice engine).

(** X13.  [validate_einvoice] marks an invoice as correct exactly when
    the invoice has a profile, the XML could be generated, the rule
    engine ran, and no reported error text is non-empty; a correct
    invoice has an empty error field, and warnings never take part in
    the verdict. *)
Theorem validate_einvoice_verdict (einvoice_profile xml : option string) :
  (SalesInvoice.einvoice_is_correct (validate_einvoice einvoice_profile xml) = true <->
   exists profile xml_string errors warnings,
     einvoice_profile = Some profile /\ profile <> "" /\ xml = Some xml_string
     /\ collect_validation_errors xml_string profile = Some (errors, warnings)
     /\ Py.any_str errors = false)
  /\ (SalesInvoice.einvoice_is_correct (validate_einvoice einvoice_profile xml) = true ->
      SalesInvoice.validation_errors (validate_einvoice einvoice_profile xml) = "")
  /\ (forall other : string -> string -> option (list string * list string),
        (forall x stylesheet, fst <$> other x stylesheet = fst <$> engine x stylesheet) ->
        SalesInvoice.einvoice_is_correct
          (SalesInvoice.validate_einvoice other einvoice_profile xml)
        = SalesInvoice.einvoice_is_correct (validate_einvoice einvoice_profile xml)).
Proof.
  split; [| split].
  - unfold SalesInvoice.validate_einvoice.
    destruct (Py.truthy_str einvoice_profile) eqn:Hprofile; cbn [negb].
    + destruct einvoice_profile as [profile |]; [| discriminate].
      apply CommonCodesProps.truthy_str_Some in Hprofile. cbn [default from_option id].
      destruct xml as [xml_string |]; cbn.
      * destruct (collect_validation_errors xml_string profile) as [[errors warnings] |] eqn:Hrun;
          cbn.
        -- split.
           ++ intros Hok. exists profile, xml_string, errors, warnings.
              repeat split; try assumption. apply negb_true_iff. exact Hok.
           ++ intros (p & x & e & w & [= <-] & _ & [= <-] & Hrun' & Hany).
              rewrite Hrun in Hrun'. injection Hrun' as <- <-. rewrite Hany. reflexivity.
        -- split; [discriminate |].
           intros (p & x & e & w & [= <-] & _ & [= <-] & Hrun' & _). congruence.
      * split; [discriminate |]. intros (p & x & e & w & _ & _ & [=] & _).
    + cbn. split; [discriminate |].
      intros (p & x & e & w & -> & Hne & _).
      apply CommonCodesProps.truthy_str_Some in Hne. congruence.
  - unfold SalesInvoice.validate_einvoice.
    destruct (Py.truthy_str einvoice_profile); cbn [negb]; [| discriminate].
    destruct xml as [xml_string |]; cbn; [| discriminate].
    destruct (collect_validation_errors xml_string _) as [[errors warnings] |]; cbn;
      [| discriminate].
    intros Hok. apply negb_true_iff in Hok. rewrite Hok. reflexivity.
  - intros other Hsame.
    assert (Hcollect : forall xml_string profile,
               fst <$> SalesInvoice.collect_validation_errors other xml_string profile
               = fst <$> collect_validation_errors xml_string profile).
    { intros xml_string profile.
      unfold SalesInvoice.collect_validation_errors, Schematron.get_validation_errors.
      destruct (of_value profile) as [p |]; cbn [mbind option_bind]; [| reflexivity].
      destruct (Schematron.PROFILE_TO_XSL !! p) as [stylesheet |]; cbn [mbind option_bind];
        [| reflexivity].
      pose proof (Hsame xml_string stylesheet) as H1.
      destruct (other xml_string stylesheet) as [[e1 w1] |],
               (engine xml_string stylesheet) as [[e2 w2] |];
        cbn [fmap option_fmap option_map fst mbind option_bind] in H1 |- *;
        try discriminate; [| reflexivity].
      injection H1 as ->.
      destruct (eqb p XRECHNUNG); [| reflexivity].
      destruct (Schematron.PROFILE_TO_XSL !! EN16931) as [baseline |];
        cbn [mbind option_bind]; [| reflexivity].
      pose proof (Hsame xml_string baseline) as H2.
      destruct (other xml_string baseline) as [[e3 w3] |],
               (engine xml_string baseline) as [[e4 w4] |];
        cbn [fmap option_fmap option_map fst mbind option_bind] in H2 |- *;
        try discriminate; [| reflexivity].
      injection H2 as ->. reflexivity. }
    unfold SalesInvoice.validate_einvoice.
    destruct (Py.truthy_str einvoice_profile); cbn [negb]; [| reflexivity].
    destruct xml as [xml_string |]; [| reflexivity].
    specialize (Hcollect xml_string (default "" einvoice_profile)).
    destruct (SalesInvoice.collect_validation_errors other xml_string _) as [[e1 w1] |],
             (collect_validation_errors xml_string _) as [[e2 w2] |]; cbn in Hcollect |- *;
      try discriminate; [| reflexivity].
    injection Hcollect as ->. reflexivity.
Qed.

(** X14.  For an XRECHNUNG invoice the generation side runs the
    XRechnung rule set and then the EN 16931 rule set and reports the
    errors and warnings of the first followed by those of the second; if
    either run raises, nothing of the other run is reported.  For every
    other profile only that profile's rule set is run. *)
Theorem collect_validation_errors_passes (xml_string : string) :
  collect_validation_errors xml_string "XRECHNUNG"
  = match engine xml_string "XRechnung-CII-validation.xsl",
          engine xml_string "EN16931-CII-validation-preprocessed.xsl" with
    | Some (errors, warnings), Some (basic_errors, basic_warnings) =>
      Some ((errors ++ basic_errors)%list, (warnings ++ basic_warnings)%list)
    | _, _ => None
    end
  /\ collect_validation_errors xml_string "EN 16931"
     = engine xml_string "EN16931-CII-validation-preprocessed.xsl"
  /\ collect_validation_errors xml_string "BASIC" = engine xml_string "Factur-X_1.07.2_BASIC.xsl"
  /\ collect_validation_errors xml_string "EXTENDED"
     = engine xml_string "Factur-X_1.07.2_EXTENDED.xsl"
  /\ (forall profile, (forall p, value p <> profile) ->
                      collect_validation_errors xml_string profile = None).
Proof.
  split; [| split; [| split; [| split]]].
  - unfold SalesInvoice.collect_validation_errors, Schematron.get_validation_errors.
    change (of_value "XRECHNUNG") with (Some XRECHNUNG). cbn [mbind option_bind].
    change (Schematron.PROFILE_TO_XSL !! XRECHNUNG) with (Some "XRechnung-CII-validation.xsl").
    change (Schematron.PROFILE_TO_XSL !! EN16931)
      with (Some "EN16931-CII-validation-preprocessed.xsl").
    cbn [mbind option_bind].
    destruct (engine xml_string "XRechnung-CII-validation.xsl") as [[e w] |]; [| reflexivity].
    cbn.
    destruct (engine xml_string "EN16931-CII-validation-preprocessed.xsl") as [[e' w'] |];
      reflexivity.
  - unfold SalesInvoice.collect_validation_errors, Schematron.get_validation_errors.
    change (of_value "EN 16931") with (Some EN16931). cbn [mbind option_bind].
    change (Schematron.PROFILE_TO_XSL !! EN16931)
      with (Some "EN16931-CII-validation-preprocessed.xsl").
    cbn. destruct (engine xml_string _) as [[e w] |]; reflexivity.
  - unfold SalesInvoice.collect_validation_errors, Schematron.get_validation_errors.
    change (of_value "BASIC") with (Some BASIC). cbn [mbind option_bind].
    change (Schematron.PROFILE_TO_XSL !! BASIC) with (Some "Factur-X_1.07.2_BASIC.xsl").
    cbn. destruct (engine xml_string _) as [[e w] |]; reflexivity.
  - unfold SalesInvoice.collect_validation_errors, Schematron.get_validation_errors.
    change (of_value "EXTENDED") with (Some EXTENDED). cbn [mbind option_bind].
    change (Schematron.PROFILE_TO_XSL !! EXTENDED) with (Some "Factur-X_1.07.2_EXTENDED.xsl").
    cbn. destruct (engine xml_string _) as [[e w] |]; reflexivity.
  - intros profile Hunknown. unfold SalesInvoice.collect_validation_errors.
    destruct (of_value profile) as [p |] eqn:Hp; [| reflexivity].
    exfalso. apply (Hunknown p). unfold of_value in Hp.
    destruct (list_find _ _) as [[i q] |] eqn:Hfind; cbn in Hp; [| discriminate].
    injection Hp as <-. apply list_find_Some in Hfind as (_ & Hq & _).
    apply String.eqb_eq. exact Hq.
Qed.

(** X15.  When the rule engine raises on a document, the two sides
    leave different traces: the generation side marks the invoice as not
    correct and stores the error text "Cannot validate E Invoice
    schematron.", the import side stores no error at all and leaves
    [e_invoice_is_correct] at whatever it was before the call. *)
Theorem engine_failure_on_both_sides (p : EInvoiceProfile) (previous : bool)
    (xml_string stylesheet : string) :
  Schematron.PROFILE_TO_XSL !! p = Some stylesheet ->
  engine xml_string stylesheet = None ->
  EInvoiceImport._validate_schematron engine (value p) previous xml_string
  = {| EInvoiceImport.e_invoice_is_correct := previous;
       EInvoiceImport.validation_errors := "";
       EInvoiceImport.validation_warnings := "" |}
  /\ validate_einvoice (Some (value p)) (Some xml_string)
     = {| SalesInvoice.einvoice_is_correct := false;
          SalesInvoice.validation_errors := "Cannot validate E Invoice schematron.";
          SalesInvoice.validation_warnings := "" |}.
Proof.
  intros Hsheet Hraise.
  assert (Hrun : Schematron.get_validation_errors engine xml_string p = None).
  { unfold Schematron.get_validation_errors. rewrite Hsheet. cbn [mbind option_bind].
    exact Hraise. }
  split.
  - unfold EInvoiceImport._validate_schematron.
    rewrite ValidationProps.of_value_value. cbn [mbind option_bind]. rewrite Hrun. reflexivity.
  - unfold SalesInvoice.validate_einvoice, SalesInvoice.collect_validation_errors.
    assert (Htruthy : Py.truthy_str (Some (value p)) = true) by (destruct p; reflexivity).
    rewrite Htruthy. cbn [negb default from_option id].
    rewrite ValidationProps.of_value_value. cbn [mbind option_bind]. rewrite Hrun. reflexivity.
Qed.

End Engines.

(** An engine that raises on every document. *)
Lemma engine_failure_on_both_sides_witness :
  EInvoiceImport._validate_schematron (fun _ _ => None) "XRECHNUNG" true "<invoice/>"
  = {| EInvoiceImport.e_invoice_is_correct := true;
       EInvoiceImport.validation_errors := "";
       EInvoiceImport.validation_warnings := "" |}.
Proof.
  apply (proj1 (engine_failure_on_both_sides (fun _ _ => None) XRECHNUNG true "<invoice/>"
                  "XRechnung-CII-validation.xsl" eq_refl eq_refl)).
Defined.

Lemma collect_validation_errors_passes_witness :
  SalesInvoice.collect_validation_errors engine_failing_baseline "<invoice/>" "ZUGFeRD" = None.
Proof.
  apply (collect_validation_errors_passes engine_failing_baseline "<invoice/>").
  intros []; discriminate.
Defined.

Lemma validate_einvoice_verdict_witness :
  SalesInvoice.validation_errors
    (SalesInvoice.validate_einvoice engine_failing_baseline (Some "EXTENDED") (Some "<invoice/>"))
  = "Cannot validate E Invoice schematron."
  /\ (SalesInvoice.einvoice_is_correct
        (SalesInvoice.validate_einvoice
           (fun _ stylesheet => if String.eqb stylesheet "Factur-X_1.07.2_BASIC.xsl"
                                then Some ([], ["hint"]) else None)
           (Some "BASIC") (Some "<invoice/>")) = true ->
      SalesInvoice.validation_errors
        (SalesInvoice.validate_einvoice
           (fun _ stylesheet => if String.eqb stylesheet "Factur-X_1.07.2_BASIC.xsl"
                                then Some ([], ["hint"]) else None)
           (Some "BASIC") (Some "<invoice/>")) = "").
Proof.
  split; [reflexivity |].
  apply (validate_einvoice_verdict
           (fun _ stylesheet => if String.eqb stylesheet "Factur-X_1.07.2_BASIC.xsl"
                                then Some ([], ["hint"]) else None)
           (Some "BASIC") (Some "<invoice/>")).
Defined.

End ValidationVerdictProps.

(** ** The import parser: what a parsed row holds *)

Module ParsedRowProps.
Import Utils Py EInvoiceImport.

Section Host.

Context {F D : Type} {float_ops : Float F}.
Variable decimal_is_zero : D -> bool.
Variable float_of_decimal : D -> option F.
Variable float_of_str : string -> option F.
Variable str_of_id : IDElement -> string.
Variable item_exists : string -> bool.

Local Abbreviation py_float := (py_float float_of_decimal float_of_str).
Local Abbreviation flt_or_none := (flt_or_none float_of_decimal float_of_str).
Local Abbreviation line_rate := (line_rate decimal_is_zero float_of_decimal float_of_str).
Local Abbreviation parse_line_item :=
  (parse_line_item decimal_is_zero float_of_decimal float_of_str str_of_id item_exists).

Lemma item_code_value (id : string) :
  or_str (if truthy_str (Some id) && negb (item_exists id) then None else Some id) None
  = if negb (String.eqb id "") && item_exists id then Some id else None.
Proof.
  unfold or_str. cbn [truthy_str].
  destruct (String.eqb id "") eqn:Hid, (item_exists id); cbn; rewrite ?Hid; reflexivity.
Qed.

(** A successful parse, taken apart. *)
Lemma parse_line_item_Ok (li : LineItem D) (row : EInvoiceItem F) :
  parse_line_item li = Ok row ->
  line_rate li = Ok (net_rate row)
  /\ flt_or_none (delivery_billed_quantity_amount li) = Ok (billed_quantity row)
  /\ flt_or_none (trade_tax_rate_applicable_percent_value li) = Ok (tax_rate row)
  /\ flt_or_none (monetary_summation_total_amount_value li) = Ok (total_amount row)
  /\ item row
     = (if negb (String.eqb (str_of_id (li_buyer_assigned_id li)) "")
           && item_exists (str_of_id (li_buyer_assigned_id li))
        then Some (str_of_id (li_buyer_assigned_id li)) else None)
  /\ seller_product_id row = str_of_id (li_seller_assigned_id li)
  /\ unit_code row = delivery_billed_quantity_unit_code li
  /\ po_detail row = None.
Proof.
  unfold EInvoiceImport.parse_line_item.
  destruct (line_rate li) as [rate | e]; [| discriminate]. cbn [mbind result_mbind rbind].
  destruct (140 <? String.length (li_product_name li))%nat;
    destruct (flt_or_none (delivery_billed_quantity_amount li)); try discriminate;
    destruct (flt_or_none (trade_tax_rate_applicable_percent_value li)); try discriminate;
    destruct (flt_or_none (monetary_summation_total_amount_value li)); try discriminate;
    cbn [mbind result_mbind rbind]; intros [= <-];
    cbn [net_rate billed_quantity tax_rate total_amount item seller_product_id unit_code
         po_detail];
    repeat split; apply item_code_value.
Qed.

(** X16.  The key of the item lookup is the text that [str()] gives for
    the buyer-assigned id element, not the element's bare id text: a
    parsed row is linked to an item exactly when that text is not empty
    and is the name of an existing Item, and then to that text; in every
    other case the row has no item.  The seller product id is likewise
    the text [str()] gives for the seller-assigned id element.  A freshly
    parsed row is never allocated to a purchase-order row. *)
Theorem parsed_item_code_exists (li : LineItem D) (row : EInvoiceItem F) :
  parse_line_item li = Ok row ->
  (forall code, item row = Some code <->
                code = str_of_id (li_buyer_assigned_id li)
                /\ code <> "" /\ item_exists code = true)
  /\ seller_product_id row = str_of_id (li_seller_assigned_id li)
  /\ po_detail row = None.
Proof.
  intros Hparse.
  apply parse_line_item_Ok in Hparse as (_ & _ & _ & _ & Hitem & Hseller & _ & Hpo).
  split; [| split; assumption]. intros code. rewrite Hitem.
  destruct (String.eqb_spec (str_of_id (li_buyer_assigned_id li)) "") as [Hempty | Hne];
    cbn [negb andb].
  - split; [discriminate |]. intros (-> & Hcode & _). contradiction.
  - destruct (item_exists (str_of_id (li_buyer_assigned_id li))) eqn:Hexists.
    + split.
      * intros [= <-]. auto.
      * intros (-> & _ & _). reflexivity.
    + split; [discriminate |]. intros (-> & _ & Hcode). congruence.
Qed.

(** Python's [float("")] raises ValueError. *)
Hypothesis float_of_empty_str : float_of_str "" = None.

Lemma flt_or_none_empty : flt_or_none (PyStr "") = Raise ValueError.
Proof. cbn. rewrite float_of_empty_str. reflexivity. Qed.

(** X17.  The numbers of a line, by the value its leaf holds.  A net
    amount leaf that is [None] makes [parse_line_item] raise TypeError,
    and one that is the empty string, ValueError.  The billed quantity,
    the tax rate and the line total are stored as [None] exactly when
    their leaf is [None]; a leaf that holds the empty string, as the
    billed quantity of a line without one does, makes [parse_line_item]
    raise ValueError, so a parsed row has no such leaf; a leaf that holds
    a decimal is stored as the float that decimal converts to. *)
Theorem parsed_numbers (li : LineItem D) :
  (agreement_net_amount_value li = PyNone -> parse_line_item li = Raise TypeError)
  /\ (agreement_net_amount_value li = PyStr "" -> parse_line_item li = Raise ValueError)
  /\ (forall rate, line_rate li = Ok rate ->
                   delivery_billed_quantity_amount li = PyStr "" ->
                   parse_line_item li = Raise ValueError)
  /\ (forall row, parse_line_item li = Ok row ->
        (delivery_billed_quantity_amount li = PyNone <-> billed_quantity row = None)
        /\ (trade_tax_rate_applicable_percent_value li = PyNone <-> tax_rate row = None)
        /\ (monetary_summation_total_amount_value li = PyNone <-> total_amount row = None)
        /\ delivery_billed_quantity_amount li <> PyStr ""
        /\ trade_tax_rate_applicable_percent_value li <> PyStr ""
        /\ monetary_summation_total_amount_value li <> PyStr ""
        /\ (forall d, delivery_billed_quantity_amount li = PyDecimal d ->
                      billed_quantity row = float_of_decimal d)
        /\ (forall d, trade_tax_rate_applicable_percent_value li = PyDecimal d ->
                      tax_rate row = float_of_decimal d)
        /\ (forall d, monetary_summation_total_amount_value li = PyDecimal d ->
                      total_amount row = float_of_decimal d)).
Proof.
  assert (Hnone : forall v o, flt_or_none v = Ok o -> (v = PyNone <-> o = None)).
  { intros [| s | d] o; cbn.
    - intros [= <-]. split; reflexivity.
    - destruct (float_of_str s); cbn; [| discriminate]. intros [= <-]. split; discriminate.
    - destruct (float_of_decimal d); cbn; [| discriminate]. intros [= <-]. split; discriminate. }
  assert (Hsome : forall v o d, flt_or_none v = Ok o -> v = PyDecimal d -> o = float_of_decimal d).
  { intros v o d Hv ->. cbn in Hv. destruct (float_of_decimal d); cbn in Hv; congruence. }
  assert (Hempty : forall v o, flt_or_none v = Ok o -> v <> PyStr "").
  { intros v o Hv ->. rewrite flt_or_none_empty in Hv. discriminate. }
  split; [| split; [| split]].
  - intros Hnet. unfold EInvoiceImport.parse_line_item, EInvoiceImport.line_rate.
    rewrite Hnet. reflexivity.
  - intros Hnet. unfold EInvoiceImport.parse_line_item, EInvoiceImport.line_rate.
    rewrite Hnet. cbn. rewrite float_of_empty_str. reflexivity.
  - intros rate Hrate Hquantity. unfold EInvoiceImport.parse_line_item.
    rewrite Hrate, Hquantity. cbn [mbind result_mbind rbind]. rewrite flt_or_none_empty.
    destruct (140 <? String.length (li_product_name li))%nat; reflexivity.
  - intros row Hparse.
    apply parse_line_item_Ok in Hparse as (_ & Hq & Ht & Htotal & _).
    split; [exact (Hnone _ _ Hq) |]. split; [exact (Hnone _ _ Ht) |].
    split; [exact (Hnone _ _ Htotal) |].
    split; [exact (Hempty _ _ Hq) |]. split; [exact (Hempty _ _ Ht) |].
    split; [exact (Hempty _ _ Htotal) |].
    split; [| split]; intros d Hv; eapply Hsome; eassumption.
Qed.

End Host.

Import Fixtures.

Lemma parsed_item_code_exists_witness :
  exists row,
    parse_line_item integer_is_zero float_of_integer float_of_digit render_id rendered_item
      (document_line_for "ITEM-1" "Widget" "d" (PyDecimal 50%Z) PyNone (PyDecimal 1%Z))
    = Ok row
    /\ item row = Some "ITEM-1 ()"
    /\ seller_product_id row = "S-1 ()".
Proof.
  destruct (parse_line_item integer_is_zero float_of_integer float_of_digit render_id
              rendered_item
              (document_line_for "ITEM-1" "Widget" "d" (PyDecimal 50%Z) PyNone (PyDecimal 1%Z)))
    as [row | e] eqn:Hparse; [| vm_compute in Hparse; discriminate Hparse].
  exists row. split; [reflexivity |].
  destruct (parsed_item_code_exists integer_is_zero float_of_integer float_of_digit render_id
              rendered_item _ row Hparse) as (Hitem & Hseller & _).
  split; [| exact Hseller].
  apply Hitem. repeat split. discriminate.
Defined.

(** An Item whose name is the bare id text is not found: the key is the
    rendered element.  A line without a buyer id is looked up, too, by
    the text of its empty element. *)
Example bare_item_code_is_not_found :
  (exists row,
      parse_line_item integer_is_zero float_of_integer float_of_digit render_id
        (String.eqb "ITEM-1")
        (document_line_for "ITEM-1" "Widget" "d" (PyDecimal 50%Z) PyNone (PyDecimal 1%Z))
      = Ok row
      /\ item row = None)
  /\ (exists row,
        parse_line_item integer_is_zero float_of_integer float_of_digit render_id
          (String.eqb " ()")
          (document_line_for "" "Widget" "d" (PyDecimal 50%Z) PyNone (PyDecimal 1%Z))
        = Ok row
        /\ item row = Some " ()").
Proof. split; eexists; (split; [vm_compute; reflexivity | reflexivity]). Qed.

Lemma parsed_numbers_witness :
  parse_line_item integer_is_zero float_of_integer float_of_digit render_id no_item
    (document_line_for "" "Widget" "d" (PyDecimal 50%Z) PyNone (PyStr ""))
  = Raise ValueError.
Proof.
  destruct (parsed_numbers integer_is_zero float_of_integer float_of_digit render_id no_item
              ltac:(reflexivity)
              (document_line_for "" "Widget" "d" (PyDecimal 50%Z) PyNone (PyStr "")))
    as (_ & _ & Hquantity & _).
  apply (Hquantity (50 / 1)%float); [vm_compute; reflexivity | reflexivity].
Defined.

End ParsedRowProps.

(** ** Binary64 arithmetic: subtraction below a bound

    [a - b] for [a >= b], on the specification of the primitive floats. *)

Module Binary64Props.
Import SpecFloat FloatAxioms FloatOps.

Local Open Scope Z_scope.

Lemma digits2_pos_size (m : positive) : digits2_pos m = Pos.size m.
Proof. induction m; cbn; congruence. Qed.

Lemma digits2_pos_bounds (m : positive) :
  2 ^ (Zpos (digits2_pos m) - 1) <= Zpos m < 2 ^ Zpos (digits2_pos m).
Proof.
  assert (Hstep : forall d : positive, 2 ^ Zpos d = 2 * 2 ^ (Zpos d - 1)).
  { intros d. rewrite <- Z.pow_succ_r by lia. f_equal. lia. }
  induction m as [m IH | m IH |]; cbn [digits2_pos]; [| | cbn; lia];
    rewrite Pos2Z.inj_succ;
    replace (Z.succ (Zpos (digits2_pos m)) - 1) with (Zpos (digits2_pos m)) by lia;
    rewrite Z.pow_succ_r by lia; rewrite (Hstep (digits2_pos m)) in *;
    [rewrite (Pos2Z.inj_xI m) | rewrite (Pos2Z.inj_xO m)]; lia.
Qed.

Lemma iter_xO (m d : positive) : Zpos (Pos.iter xO m d) = Zpos m * 2 ^ Zpos d.
Proof.
  revert m. induction d as [| d IH] using Pos.peano_ind; intros m.
  - cbn. lia.
  - rewrite Pos.iter_succ, Pos2Z.inj_succ, Z.pow_succ_r by lia.
    rewrite (Pos2Z.inj_xO (Pos.iter xO m d)), IH. lia.
Qed.

(** The mantissa aligned to a smaller exponent. *)
Lemma shl_align_value (m : positive) (e e' : Z) :
  e' <= e -> Zpos (fst (shl_align m e e')) = Zpos m * 2 ^ (e - e').
Proof.
  intros He. unfold shl_align. destruct (e' - e) as [| d | d] eqn:Hd; try lia.
  - replace (e - e') with 0 by lia. cbn [fst]. lia.
  - cbn [fst]. rewrite iter_xO. f_equal. f_equal. lia.
Qed.


Lemma iter_pos_invariant {A} (P : A -> Prop) (f : A -> A) (p : positive) (x : A) :
  (forall y, P y -> P (f y)) -> P x -> P (iter_pos f p x).
Proof.
  intros Hf. revert x. induction p as [p IH | p IH |]; intros x Hx; cbn; auto.
Qed.

Lemma shr_1_nonneg (mrs : shr_record) : 0 <= shr_m mrs -> 0 <= shr_m (shr_1 mrs).
Proof. destruct mrs as [[| [p | p |] | p] r s]; cbn; intros Hm; lia. Qed.

Lemma shr_fexp_nonneg (m e : Z) (l : location) :
  0 <= m -> 0 <= shr_m (fst (shr_fexp prec emax m e l)).
Proof.
  intros Hm. unfold shr_fexp, shr.
  assert (Hstart : 0 <= shr_m (shr_record_of_loc m l)) by (destruct l as [| []]; exact Hm).
  destruct (fexp prec emax (Zdigits2 m + e) - e) as [| p | p]; cbn [fst]; try exact Hstart.
  apply (iter_pos_invariant (fun mrs => 0 <= shr_m mrs)); [exact shr_1_nonneg | exact Hstart].
Qed.

Lemma round_nearest_even_nonneg (m : Z) (l : location) :
  0 <= m -> 0 <= round_nearest_even m l.
Proof.
  intros Hm. unfold round_nearest_even.
  destruct l as [| []]; [| destruct (Z.even m) | |]; lia.
Qed.

(** Rounding a mantissa that is not negative, with the positive sign,
    gives a float that is [>= +0]. *)
Lemma binary_round_aux_nonneg (m e : Z) (l : location) :
  0 <= m -> SFleb (S754_zero false) (binary_round_aux prec emax false m e l) = true.
Proof.
  intros Hm. unfold binary_round_aux.
  pose proof (shr_fexp_nonneg m e l Hm) as Hfirst.
  destruct (shr_fexp prec emax m e l) as [mrs' e']. cbn [fst] in Hfirst.
  pose proof (shr_fexp_nonneg _ e' loc_Exact
                (round_nearest_even_nonneg _ (loc_of_shr_record mrs') Hfirst)) as Hsecond.
  destruct (shr_fexp prec emax (round_nearest_even (shr_m mrs') (loc_of_shr_record mrs')) e'
              loc_Exact) as [mrs'' e'']. cbn [fst] in Hsecond.
  destruct (shr_m mrs'') as [| p | p]; [reflexivity | | lia].
  destruct (e'' <=? emax - prec); reflexivity.
Qed.

Lemma binary_normalize_nonneg (m e : Z) :
  0 <= m -> SFleb (S754_zero false) (binary_normalize prec emax m e false) = true.
Proof.
  intros Hm. destruct m as [| p | p]; [reflexivity | | lia].
  cbn [binary_normalize]. unfold binary_round.
  destruct (shl_align p e (fexp prec emax (Zpos (digits2_pos p) + e))) as [mz ez].
  apply binary_round_aux_nonneg. lia.
Qed.

(** A canonical mantissa has at most [prec] digits, and exactly [prec]
    above the least exponent. *)
Lemma canonical_digits (m : positive) (e : Z) :
  canonical_mantissa prec emax m e = true ->
  SpecFloat.emin prec emax <= e /\ Zpos (digits2_pos m) <= prec
  /\ (SpecFloat.emin prec emax < e -> Zpos (digits2_pos m) = prec).
Proof.
  unfold canonical_mantissa, fexp. intros H. apply Z.eqb_eq in H. lia.
Qed.

(** Of two canonical mantissas, the one with the larger exponent is the
    larger number. *)
Lemma canonical_exponent_order (mx : positive) (ex : Z) (my : positive) (ey : Z) :
  canonical_mantissa prec emax mx ex = true -> canonical_mantissa prec emax my ey = true ->
  ey < ex -> Zpos my < Zpos mx * 2 ^ (ex - ey).
Proof.
  intros Hx Hy Hlt.
  apply canonical_digits in Hx as (_ & _ & Hnormal), Hy as (Hmin & Hdigits & _).
  pose proof (digits2_pos_bounds mx) as Hmx. pose proof (digits2_pos_bounds my) as Hmy.
  rewrite Hnormal in Hmx by lia.
  assert (Hpow : 2 ^ Zpos (digits2_pos my) <= 2 ^ prec) by (apply Z.pow_le_mono_r; lia).
  assert (Hshift : 2 * 1 <= 2 ^ (ex - ey)).
  { change (2 * 1) with (2 ^ 1). apply Z.pow_le_mono_r; lia. }
  assert (Hprec : 2 ^ prec = 2 * 2 ^ (prec - 1)) by reflexivity.
  nia.
Qed.

(** For finite floats [x >= y], the difference of the aligned signed
    mantissas is not negative. *)
Lemma aligned_difference_nonneg (sx : bool) (mx : positive) (ex : Z) (sy : bool) (my : positive)
    (ey : Z) :
  canonical_mantissa prec emax mx ex = true -> canonical_mantissa prec emax my ey = true ->
  SFleb (S754_finite sy my ey) (S754_finite sx mx ex) = true ->
  0 <= cond_Zopp sx (Zpos (fst (shl_align mx ex (Z.min ex ey))))
       - cond_Zopp sy (Zpos (fst (shl_align my ey (Z.min ex ey)))).
Proof.
  intros Hx Hy Hle.
  rewrite !shl_align_value by lia.
  unfold SFleb, SFcompare in Hle.
  pose proof (Z.pow_pos_nonneg 2 (ex - Z.min ex ey)) as Hpx.
  pose proof (Z.pow_pos_nonneg 2 (ey - Z.min ex ey)) as Hpy.
  destruct sx, sy; cbn [cond_Zopp]; try discriminate; [| nia |].
  - (* both negative: |y| >= |x| *)
    destruct (Z.compare_spec ey ex) as [Heq | Hlt | Hgt]; [| discriminate |].
    + subst ey. rewrite Z.min_id, Z.sub_diag. change (2 ^ 0) with 1.
      destruct (Pos.compare_cont Eq my mx) eqn:Hc; cbn in Hle; try discriminate.
      * apply Pos.compare_eq in Hc. subst. lia.
      * change (Pos.compare_cont Eq my mx) with (Pos.compare my mx) in Hc.
        pose proof (proj1 (Pos.compare_gt_iff _ _) Hc). lia.
    + pose proof (canonical_exponent_order my ey mx ex Hy Hx Hgt) as Horder.
      rewrite Z.min_l by lia. rewrite Z.sub_diag. change (2 ^ 0) with 1. lia.
  - (* both positive *)
    destruct (Z.compare_spec ey ex) as [Heq | Hlt | Hgt]; [| | discriminate].
    + subst ey. rewrite Z.min_id, Z.sub_diag. change (2 ^ 0) with 1.
      destruct (Pos.compare_cont Eq my mx) eqn:Hc; cbn in Hle; try discriminate.
      * apply Pos.compare_eq in Hc. subst. lia.
      * change (Pos.compare_cont Eq my mx) with (Pos.compare my mx) in Hc.
        pose proof (proj1 (Pos.compare_lt_iff _ _) Hc). lia.
    + pose proof (canonical_exponent_order mx ex my ey Hx Hy Hlt) as Horder.
      rewrite Z.min_r by lia. rewrite Z.sub_diag. change (2 ^ 0) with 1. lia.
Qed.

(** The law on the specification of binary64. *)
Lemma SF64sub_nonneg (x y : spec_float) :
  valid_binary x = true -> valid_binary y = true ->
  match y with S754_infinity _ => False | _ => True end ->
  SFleb y x = true -> SFleb (S754_zero false) (SF64sub x y) = true.
Proof.
  intros Hx Hy Hfinite Hle. unfold SF64sub, SFsub.
  destruct x as [sx | sx | | sx mx ex], y as [sy | sy | | sy my ey];
    try discriminate Hle; try contradiction.
  - destruct sx, sy; reflexivity.
  - destruct sy; [reflexivity | discriminate Hle].
  - destruct sx; [discriminate Hle | reflexivity].
  - destruct sx; [discriminate Hle | reflexivity].
  - destruct sx; [discriminate Hle | reflexivity].
  - apply binary_normalize_nonneg.
    cbn in Hx, Hy. apply andb_prop in Hx as [Hx _], Hy as [Hy _].
    exact (aligned_difference_nonneg sx mx ex sy my ey Hx Hy Hle).
Qed.

(** In binary64 arithmetic, taking a finite [b] from an [a >= b] gives
    a result that is [>= 0]. *)
Lemma binary64_sub_nonneg (a b : float) :
  PrimFloat.is_finite b = true -> PrimFloat.leb b a = true ->
  PrimFloat.leb PrimFloat.zero (PrimFloat.sub a b) = true.
Proof.
  intros Hfinite Hle. rewrite leb_spec in Hle |- *. rewrite sub_spec.
  apply SF64sub_nonneg; [apply Prim2SF_valid .. | | exact Hle].
  unfold PrimFloat.is_finite, PrimFloat.is_infinity in Hfinite.
  apply negb_true_iff, orb_false_iff in Hfinite as [_ Hinf].
  rewrite eqb_spec, abs_spec in Hinf.
  destruct (Prim2SF b) as [s | s | |]; try exact I. discriminate Hinf.
Qed.

End Binary64Props.

(** ** Purchase-order allocation: invariants *)

Module PoAllocationInvariantProps.
Import Utils Py EInvoiceImport PoRowKeys.

Section Host.

Context {F : Type} {float_ops : Float F}.
Variable purchase_order_items : string -> list (PurchaseOrderItem F).
Variable purchase_order_item_exists : string -> string -> bool.

Local Abbreviation guess_row := (guess_row purchase_order_item_exists).
Local Abbreviation guess_rows := (guess_rows purchase_order_item_exists).
Local Abbreviation guess_po_details :=
  (guess_po_details purchase_order_items purchase_order_item_exists).

(** What the inner loop keeps and what it may change. *)
Lemma allocate_invariant (P : F -> Prop) (po_items po_items' : list (po_row F))
    (pi_row : EInvoiceItem F) (d : option string) :
  allocate po_items pi_row = Ok (d, po_items') ->
  row_key <$> po_items' = row_key <$> po_items
  /\ (kept_by P pi_row ->
      Forall (fun r => P (unbilled_amount r)) po_items ->
      Forall (fun r => P (unbilled_amount r)) po_items')
  /\ (forall n, d = Some n -> (n, item pi_row) ∈ row_key <$> po_items)
  /\ (d = None -> po_items' = po_items).
Proof.
  revert po_items' d. induction po_items as [| row rest IH]; intros po_items' d; cbn [allocate].
  - intros [= <- <-]. repeat split; auto. intros n [=].
  - destruct (if bool_decide (po_item_code row = item pi_row)
              then ge_total (unbilled_amount row) (total_amount pi_row)
              else Ok false) as [[|] | e] eqn:Hfits; cbn [mbind result_mbind rbind];
      [| | discriminate].
    + intros [= <- <-]. case_bool_decide as Hitem; [| discriminate].
      destruct (total_amount pi_row) as [t |] eqn:Ht; [| discriminate].
      cbn in Hfits. injection Hfits as Hge.
      split; [reflexivity |]. split; [| split].
      * intros Hkept Hall. inversion Hall as [| ? ? Hrow Hrest]; subst.
        constructor; [| exact Hrest]. cbn. apply (Hkept _ _ Ht Hge Hrow).
      * intros n [= <-]. cbn [fmap list_fmap]. rewrite <- Hitem. left.
      * discriminate.
    + destruct (allocate rest pi_row) as [[d' rest'] | e] eqn:Hrest;
        cbn [mbind result_mbind rbind]; [| discriminate].
      intros [= <- <-].
      destruct (IH rest' d' eq_refl) as (Hkeys & Hnonneg & Hsound & Hsame).
      cbn [fmap list_fmap]. split; [f_equal; exact Hkeys |]. split; [| split].
      * intros Hkept Hall. inversion Hall as [| ? ? Hrow Hrest']; subst.
        constructor; [exact Hrow | apply Hnonneg; assumption].
      * intros n Hn. right. apply Hsound. exact Hn.
      * intros Hd. rewrite (Hsame Hd). reflexivity.
Qed.

(** An allocation is justified when it was there before and names a row
    of the order, or names a working row with the line's item. *)
Lemma guess_row_invariant (P : F -> Prop) (purchase_order : string)
    (po_items po_items' : list (po_row F)) (pi_row pi_row' : EInvoiceItem F) :
  guess_row purchase_order po_items pi_row = Ok (pi_row', po_items') ->
  without_po_detail pi_row' = without_po_detail pi_row
  /\ row_key <$> po_items' = row_key <$> po_items
  /\ (kept_by P pi_row ->
      Forall (fun r => P (unbilled_amount r)) po_items ->
      Forall (fun r => P (unbilled_amount r)) po_items')
  /\ (forall n, po_detail pi_row' = Some n ->
        (po_detail pi_row = Some n /\ purchase_order_item_exists n purchase_order = true)
        \/ (n, item pi_row) ∈ row_key <$> po_items).
Proof.
  unfold EInvoiceImport.guess_row.
  destruct (truthy_str (po_detail pi_row)
            && purchase_order_item_exists (default "" (po_detail pi_row)) purchase_order)
    eqn:Hvalid.
  - intros [= <- <-]. split; [reflexivity |]. split; [reflexivity |]. split; [auto |].
    intros n Hn. left. apply andb_prop in Hvalid as [_ Hexists].
    rewrite Hn in Hexists. cbn [default from_option id] in Hexists. auto.
  - destruct (allocate po_items pi_row) as [[d po_items1] | e] eqn:Halloc;
      cbn [mbind result_mbind rbind]; [| discriminate].
    intros [= <- <-].
    destruct (allocate_invariant P _ _ _ _ Halloc) as (Hkeys & Hnonneg & Hsound & _).
    split; [reflexivity |]. split; [exact Hkeys |]. split; [exact Hnonneg |].
    intros n Hn. right. apply Hsound. exact Hn.
Qed.

Lemma guess_rows_invariant (P : F -> Prop) (purchase_order : string)
    (rows rows' : list (EInvoiceItem F)) (po_items po_items' : list (po_row F)) :
  guess_rows purchase_order po_items rows = Ok (rows', po_items') ->
  without_po_detail <$> rows' = without_po_detail <$> rows
  /\ row_key <$> po_items' = row_key <$> po_items
  /\ (Forall (kept_by P) rows ->
      Forall (fun r => P (unbilled_amount r)) po_items ->
      Forall (fun r => P (unbilled_amount r)) po_items')
  /\ Forall2 (fun row row' =>
                forall n, po_detail row' = Some n ->
                  (po_detail row = Some n
                   /\ purchase_order_item_exists n purchase_order = true)
                  \/ (n, item row) ∈ row_key <$> po_items)
             rows rows'.
Proof.
  revert rows' po_items po_items'.
  induction rows as [| pi_row rest IH]; intros rows' po_items po_items';
    cbn [EInvoiceImport.guess_rows].
  - intros [= <- <-]. repeat split; auto.
  - destruct (guess_row purchase_order po_items pi_row) as [[pi_row1 po_items1] | e] eqn:Hrow;
      cbn [mbind result_mbind rbind]; [| discriminate].
    destruct (guess_rows purchase_order po_items1 rest) as [[rest1 po_items2] | e] eqn:Hrest;
      cbn [mbind result_mbind rbind]; [| discriminate].
    intros [= <- <-].
    destruct (guess_row_invariant P _ _ _ _ _ Hrow) as (Hrow1 & Hkeys1 & Hnn1 & Hsound1).
    destruct (IH _ _ _ Hrest) as (Hrows2 & Hkeys2 & Hnn2 & Hsound2).
    cbn [fmap list_fmap]. split; [f_equal; assumption |].
    split; [congruence |]. split.
    { intros Hkept Hall. inversion Hkept as [| ? ? Hfirst Hothers]; subst. auto. }
    constructor; [exact Hsound1 |].
    eapply Forall2_impl; [exact Hsound2 |]. cbn.
    intros row row' Hrow' n Hn. rewrite <- Hkeys1. exact (Hrow' n Hn).
Qed.

(** X18.  [guess_po_details] changes nothing of the import lines but
    their allocation: the lines come back in the same number and order,
    equal to the given ones once the allocation is erased; without a
    purchase order every allocation is erased and nothing is raised. *)
Theorem guess_po_details_only_allocates (purchase_order : option string)
    (rows rows' : list (EInvoiceItem F)) (po_items' : list (po_row F)) :
  (guess_po_details purchase_order rows = Ok (rows', po_items') ->
   without_po_detail <$> rows' = without_po_detail <$> rows
   /\ length rows' = length rows)
  /\ (truthy_str purchase_order = false ->
      guess_po_details purchase_order rows = Ok (without_po_detail <$> rows, [])).
Proof.
  unfold EInvoiceImport.guess_po_details. split.
  - destruct (truthy_str purchase_order); cbn [negb].
    + intros Hrun. apply (guess_rows_invariant (fun _ => True)) in Hrun as (Hrows & _).
      split; [exact Hrows |]. apply (f_equal length) in Hrows.
      rewrite !length_fmap in Hrows. exact Hrows.
    + intros [= <- <-]. split; [| apply length_fmap].
      rewrite <- list_fmap_compose. reflexivity.
  - intros ->. reflexivity.
Qed.

(** X19.  [guess_po_details] never allocates more than an order row has
    left: if no row of the order is billed beyond its amount, no working
    row ends with a negative unbilled amount, and the working rows are
    still the order's rows, by name and item, in the order's sequence.
    This rests on one fact of the arithmetic: taking [b] from an [a] with
    [a >= b] leaves a result that is [>= 0].  It holds for the [b] of a
    class [finite] of floats, to which the billed amounts of the order
    and the total amounts of the lines are taken to belong; in binary64
    arithmetic these are the finite floats
    ([Binary64Props.binary64_sub_nonneg]). *)
Theorem guess_po_details_never_overdraws (finite : F -> Prop) (purchase_order : string)
    (rows rows' : list (EInvoiceItem F)) (po_items' : list (po_row F)) :
  (forall a b, finite b -> float_ge a b = true -> float_ge (float_sub a b) float_zero = true) ->
  purchase_order <> "" ->
  Forall (fun row => finite (billed_amt row) /\ float_ge (amount row) (billed_amt row) = true)
         (purchase_order_items purchase_order) ->
  Forall (fun row => forall t, total_amount row = Some t -> finite t) rows ->
  guess_po_details (Some purchase_order) rows = Ok (rows', po_items') ->
  Forall (fun r => float_ge (unbilled_amount r) float_zero = true) po_items'
  /\ row_key <$> po_items'
     = (fun row => (name row, item_code row)) <$> purchase_order_items purchase_order.
Proof.
  intros Hsub Hpo Hbilled Htotals. unfold EInvoiceImport.guess_po_details.
  apply CommonCodesProps.truthy_str_Some in Hpo. rewrite Hpo. cbn [negb default from_option id].
  intros Hrun.
  apply (guess_rows_invariant (fun u => float_ge u float_zero = true)) in Hrun
    as (_ & Hkeys & Hnonneg & _).
  split.
  - apply Hnonneg.
    + eapply Forall_impl; [exact Htotals |]. cbn.
      intros row Hfinite u t Ht Hge _. apply Hsub; [exact (Hfinite t Ht) | exact Hge].
    + unfold po_items_of. apply Forall_fmap.
      eapply Forall_impl; [exact Hbilled |]. cbn. intros row [Hfinite Hge].
      apply Hsub; assumption.
  - rewrite Hkeys. unfold po_items_of. rewrite <- list_fmap_compose. reflexivity.
Qed.

(** X20.  Every allocation that [guess_po_details] leaves on a line is
    justified: either the line already carried it and it names a row of
    the selected order, or it names a row of the order whose item is the
    line's item. *)
Theorem guess_po_details_allocations_sound (purchase_order : string)
    (rows rows' : list (EInvoiceItem F)) (po_items' : list (po_row F)) :
  purchase_order <> "" ->
  guess_po_details (Some purchase_order) rows = Ok (rows', po_items') ->
  forall k row row' n,
    rows !! k = Some row -> rows' !! k = Some row' -> po_detail row' = Some n ->
    (po_detail row = Some n /\ purchase_order_item_exists n purchase_order = true)
    \/ exists order_row,
         order_row ∈ purchase_order_items purchase_order
         /\ name order_row = n /\ item_code order_row = item row.
Proof.
  intros Hpo. unfold EInvoiceImport.guess_po_details.
  apply CommonCodesProps.truthy_str_Some in Hpo. rewrite Hpo. cbn [negb default from_option id].
  intros Hrun k row row' n Hrow Hrow' Hn.
  apply (guess_rows_invariant (fun _ => True)) in Hrun as (_ & _ & _ & Hsound).
  destruct (Forall2_lookup_lr _ _ _ _ _ _ Hsound Hrow Hrow' n Hn) as [Hkept | Hnew];
    [left; exact Hkept |].
  right. unfold po_items_of in Hnew. rewrite <- list_fmap_compose in Hnew.
  apply list_elem_of_fmap in Hnew as (order_row & [= Hname Hitem] & Hin).
  exists order_row. auto.
Qed.

End Host.

Import Fixtures.

Lemma guess_po_details_only_allocates_witness :
  guess_po_details order_rows order_row_exists None [import_line "X" 60%float (Some "row-1")]
  = Ok ([import_line "X" 60%float None], []).
Proof.
  apply (proj2 (guess_po_details_only_allocates order_rows order_row_exists None
                  [import_line "X" 60%float (Some "row-1")] [] [])).
  reflexivity.
Defined.

Lemma guess_po_details_never_overdraws_witness :
  exists rows' po_items',
    guess_po_details order_rows order_row_exists (Some "PO-1")
      [import_line "X" 60%float None; import_line "X" 50%float None] = Ok (rows', po_items')
    /\ Forall (fun r => PrimFloat.leb 0%float (unbilled_amount r) = true) po_items'.
Proof.
  destruct (guess_po_details order_rows order_row_exists (Some "PO-1")
              [import_line "X" 60%float None; import_line "X" 50%float None])
    as [[rows' po_items'] | e] eqn:Hrun; [| vm_compute in Hrun; discriminate Hrun].
  exists rows', po_items'. split; [reflexivity |].
  refine (proj1 (guess_po_details_never_overdraws order_rows order_row_exists
                   (fun b => PrimFloat.is_finite b = true) "PO-1"
                   [import_line "X" 60%float None; import_line "X" 50%float None] rows'
                   po_items' _ _ _ _ Hrun)); [| discriminate | |].
  - intros a b. apply Binary64Props.binary64_sub_nonneg.
  - repeat constructor.
  - repeat constructor; intros t [= <-]; vm_compute; reflexivity.
Defined.

Lemma guess_po_details_allocations_sound_witness :
  exists order_row,
    order_row ∈ order_rows "PO-1" /\ name order_row = "row-1" /\ item_code order_row = Some "X".
Proof.
  destruct (guess_po_details order_rows order_row_exists (Some "PO-1")
              [import_line "X" 60%float None]) as [[rows' po_items'] | e] eqn:Hrun;
    [| vm_compute in Hrun; discriminate Hrun].
  pose proof Hrun as Hvalue. vm_compute in Hvalue. injection Hvalue as <- _.
  destruct (guess_po_details_allocations_sound order_rows order_row_exists "PO-1"
              [import_line "X" 60%float None] [import_line "X" 60%float (Some "row-1")]
              po_items' ltac:(discriminate) Hrun 0%nat (import_line "X" 60%float None)
              (import_line "X" 60%float (Some "row-1")) "row-1" eq_refl eq_refl eq_refl)
    as [[Hkept _] | Hnew]; [discriminate Hkept | exact Hnew].
Defined.

End PoAllocationInvariantProps.

(** ** Settings and the message of validate_doc *)

Module SettingsProps.
Import Utils Py Settings ValidateDoc Fixtures.

#[local] Arguments SalesInvoice.validate_einvoice : simpl never.
#[local] Arguments String.eqb : simpl never.

Lemma lt_total (a b : EInvoiceProfile) : exists r, lt a b = Some r.
Proof. destruct a, b; eexists; reflexivity. Qed.

Lemma profile_of_cases (einvoice_profile : option string) :
  (exists p, profile_of einvoice_profile = Ok p)
  \/ profile_of einvoice_profile = Raise ValueError.
Proof.
  unfold profile_of. destruct (einvoice_profile ≫= of_value); [left; eexists |right]; reflexivity.
Qed.

(** One tax row raises exactly when it is of charge type Actual and the
    profile is none. *)
Lemma tax_row_alerts_cases (einvoice_profile : option string)
    (tax_row : SalesInvoice.SalesTaxesAndCharges) :
  (exists alerts, tax_row_alerts einvoice_profile tax_row = Ok alerts)
  \/ (tax_row_alerts einvoice_profile tax_row = Raise ValueError
      /\ profile_of einvoice_profile = Raise ValueError
      /\ SalesInvoice.charge_type tax_row = "Actual").
Proof.
  unfold tax_row_alerts.
  destruct (String.eqb_spec (SalesInvoice.charge_type tax_row) "Actual") as [Hactual | Hother];
    [| left; eexists; reflexivity].
  destruct (profile_of_cases einvoice_profile) as [[p Hprofile] | Hnone]; rewrite ?Hprofile, ?Hnone.
  - left. cbn [mbind result_mbind rbind].
    destruct (lt_total p EXTENDED) as [[|] ->]; eexists; reflexivity.
  - right. split; [reflexivity | split; [reflexivity | exact Hactual]].
Qed.

(** The loop over the tax rows raises exactly when it converts a profile
    that is none: for a row of charge type Actual. *)
Lemma tax_rows_alerts_raises (einvoice_profile : option string)
    (rows : list SalesInvoice.SalesTaxesAndCharges) :
  (exists alerts, tax_rows_alerts einvoice_profile rows = Ok alerts)
  \/ (tax_rows_alerts einvoice_profile rows = Raise ValueError
      /\ profile_of einvoice_profile = Raise ValueError
      /\ exists tax_row, tax_row ∈ rows /\ SalesInvoice.charge_type tax_row = "Actual").
Proof.
  induction rows as [| tax_row rest IH]; cbn [tax_rows_alerts]; [left; eexists; reflexivity |].
  destruct (tax_row_alerts_cases einvoice_profile tax_row)
    as [[alerts ->] | (-> & Hnone & Hactual)]; cbn [mbind result_mbind rbind].
  - destruct IH as [[more ->] | (-> & Hnone & tax_row' & Hin & Hactual)];
      cbn [mbind result_mbind rbind].
    + left. eexists; reflexivity.
    + right. split; [reflexivity |]. split; [exact Hnone |].
      exists tax_row'. split; [right; exact Hin | exact Hactual].
  - right. split; [reflexivity |]. split; [exact Hnone |].
    exists tax_row. split; [left | exact Hactual].
Qed.

Lemma tax_rows_alerts_actual (einvoice_profile : option string)
    (rows : list SalesInvoice.SalesTaxesAndCharges) (tax_row : SalesInvoice.SalesTaxesAndCharges) :
  profile_of einvoice_profile = Raise ValueError ->
  tax_row ∈ rows -> SalesInvoice.charge_type tax_row = "Actual" ->
  tax_rows_alerts einvoice_profile rows = Raise ValueError.
Proof.
  intros Hnone Hin Hactual. induction rows as [| first rest IH]; [inversion Hin |].
  cbn [tax_rows_alerts]. apply elem_of_cons in Hin as [<- | Hin].
  - unfold tax_row_alerts. rewrite Hactual, Hnone. reflexivity.
  - destruct (tax_row_alerts_cases einvoice_profile first)
      as [[alerts ->] | (-> & _ & _)]; cbn [mbind result_mbind rbind]; [| reflexivity].
    rewrite (IH Hin). reflexivity.
Qed.

Section Host.

Variable engine : string -> string -> option (list string * list string).
Variable date_diff : string -> string -> Z.
Variable draft submitted : Z.

Local Abbreviation should_validate := (should_validate draft submitted).
Local Abbreviation should_show_message := (should_show_message draft submitted).
Local Abbreviation should_raise_exception := (should_raise_exception draft submitted).
Local Abbreviation validate_doc_settings := (validate_doc_settings engine draft submitted).
Local Abbreviation validate_doc := (validate_doc engine date_diff draft submitted).

Lemma show_implies_validate (settings : EInvoiceSettings) (docstatus : Z) :
  should_show_message (before_validate settings) docstatus = true ->
  should_validate (before_validate settings) docstatus = true.
Proof.
  unfold Settings.should_show_message, Settings.should_validate, before_validate. cbn.
  destruct (docstatus =? submitted)%Z, (docstatus =? draft)%Z,
    (validate_sales_invoice_on_submit settings), (validate_sales_invoice_on_save settings);
    cbn; try reflexivity; try discriminate; intros Hshow; exact Hshow.
Qed.

Lemma raise_implies_show (settings : EInvoiceSettings) (docstatus : Z) :
  should_raise_exception settings docstatus = true ->
  should_show_message settings docstatus = true.
Proof.
  unfold Settings.should_raise_exception, Settings.should_show_message.
  intros Hraise. apply orb_true_iff in Hraise. apply orb_true_iff.
  destruct Hraise as [Hraise | Hraise]; [left | right];
    apply andb_true_iff in Hraise as [-> Haction];
    apply String.eqb_eq in Haction; rewrite Haction; reflexivity.
Qed.

(** [validate_doc] returns what its last block gives whenever the loop
    over the tax rows does not raise. *)
Lemma validate_doc_Ok (settings : EInvoiceSettings) (doc : SalesInvoiceDoc) (xml : option string)
    (alerts : list Alert) (fields : option SalesInvoice.ValidationFields)
    (message : option MsgPrint) :
  validate_doc settings doc xml = Ok (alerts, fields, message) ->
  validate_doc_settings settings (docstatus doc) (einvoice_profile doc) xml = (fields, message).
Proof.
  unfold ValidateDoc.validate_doc.
  destruct (tax_rows_alerts (einvoice_profile doc) (taxes doc)); cbn [mbind result_mbind rbind];
    [| discriminate].
  destruct (validate_doc_settings settings (docstatus doc) (einvoice_profile doc) xml).
  intros [= _ <- <-]. reflexivity.
Qed.

(** X21.  With settings as [before_validate] leaves them, the
    [should_validate] test of [validate_doc] never hides a configured
    error action.  Whenever [validate_doc] gets past its loop over the
    tax rows, for an invoice that [validate_einvoice] does not mark as
    correct: the message is issued exactly when [should_show_message]
    holds, it is issued with [raise_exception] exactly when
    [should_raise_exception] holds, and its text is the validation errors
    with line feeds replaced. *)
Theorem configured_action_is_never_masked (settings : EInvoiceSettings) (doc : SalesInvoiceDoc)
    (xml : option string) (alerts : list Alert) (fields : option SalesInvoice.ValidationFields)
    (message : option MsgPrint) :
  let saved := before_validate settings in
  let validated := SalesInvoice.validate_einvoice engine (einvoice_profile doc) xml in
  validate_doc saved doc xml = Ok (alerts, fields, message) ->
  SalesInvoice.einvoice_is_correct validated = false ->
  (is_Some message <-> should_show_message saved (docstatus doc) = true)
  /\ (message = Some {| msg := replace_newlines (SalesInvoice.validation_errors validated);
                        raise_exception := true |}
      <-> should_raise_exception saved (docstatus doc) = true)
  /\ (is_Some message -> fields = Some validated).
Proof.
  intros saved validated Hrun Hwrong. apply validate_doc_Ok in Hrun.
  unfold ValidateDoc.validate_doc_settings in Hrun. fold validated in Hrun.
  rewrite Hwrong in Hrun. cbn [negb andb] in Hrun.
  pose proof (show_implies_validate settings (docstatus doc)) as Hshow.
  pose proof (raise_implies_show saved (docstatus doc)) as Hraise.
  fold saved in Hshow.
  destruct (should_show_message saved (docstatus doc)) eqn:Hs.
  - rewrite Hshow in Hrun by reflexivity. injection Hrun as <- <-. split; [| split].
    + split; [reflexivity | eauto].
    + split.
      * intros [= Hflag]. exact Hflag.
      * intros ->. reflexivity.
    + reflexivity.
  - assert (Hnone : message = None).
    { destruct (should_validate saved (docstatus doc)); injection Hrun as _ <-; reflexivity. }
    subst message. split; [| split].
    + split; [intros [? [=]] | discriminate].
    + split; [discriminate |]. intros Hflag. apply Hraise in Hflag. discriminate.
    + intros [? [=]].
Qed.

(** X22.  [validate_doc] raises ValueError exactly when the invoice has
    a tax row of charge type Actual and its profile is not the value of a
    profile, as for an invoice without a profile.  An invoice without a
    profile and without such a row is never marked correct, so whenever
    validation and an error action are switched on for its document
    status, [validate_doc] issues the message for it, with an empty text
    and with the configured [raise_exception]. *)
Theorem missing_profile_is_reported (settings : EInvoiceSettings) (doc : SalesInvoiceDoc)
    (xml : option string) :
  (validate_doc settings doc xml = Raise ValueError
   <-> profile_of (einvoice_profile doc) = Raise ValueError
       /\ exists tax_row, tax_row ∈ taxes doc /\ SalesInvoice.charge_type tax_row = "Actual")
  /\ (truthy_str (einvoice_profile doc) = false ->
      profile_of (einvoice_profile doc) = Raise ValueError
      /\ ((forall tax_row, tax_row ∈ taxes doc -> SalesInvoice.charge_type tax_row <> "Actual") ->
          should_validate settings (docstatus doc) = true ->
          should_show_message settings (docstatus doc) = true ->
          exists alerts,
            validate_doc settings doc xml
            = Ok (alerts,
                  Some {| SalesInvoice.einvoice_is_correct := false;
                          SalesInvoice.validation_errors := "";
                          SalesInvoice.validation_warnings := "" |},
                  Some {| msg := "";
                          raise_exception :=
                            should_raise_exception settings (docstatus doc) |}))).
Proof.
  split.
  - unfold ValidateDoc.validate_doc. split.
    + destruct (tax_rows_alerts_raises (einvoice_profile doc) (taxes doc))
        as [[tax_alerts ->] | (_ & Hnone & Hrow)]; [| auto].
      cbn [mbind result_mbind rbind].
      destruct (validate_doc_settings settings (docstatus doc) (einvoice_profile doc) xml).
      discriminate.
    + intros (Hnone & tax_row & Hin & Hactual).
      rewrite (tax_rows_alerts_actual _ _ _ Hnone Hin Hactual). reflexivity.
  - intros Hprofile.
    assert (Hnone : profile_of (einvoice_profile doc) = Raise ValueError).
    { unfold profile_of. destruct (einvoice_profile doc) as [text |]; [| reflexivity].
      cbn in Hprofile. apply negb_false_iff, String.eqb_eq in Hprofile. subst text.
      reflexivity. }
    split; [exact Hnone |]. intros Hrows Hvalidate Hshow.
    unfold ValidateDoc.validate_doc.
    destruct (tax_rows_alerts_raises (einvoice_profile doc) (taxes doc))
      as [[tax_alerts ->] | (_ & _ & tax_row & Hin & Hactual)];
      [| exfalso; exact (Hrows tax_row Hin Hactual)].
    cbn [mbind result_mbind rbind]. unfold ValidateDoc.validate_doc_settings.
    rewrite Hvalidate, Hshow. unfold SalesInvoice.validate_einvoice. rewrite Hprofile.
    cbn. eexists. reflexivity.
Qed.

End Host.

Lemma configured_action_is_never_masked_witness :
  (is_Some (Some {| msg := ""; raise_exception := true |})
   <-> Settings.should_show_message 0 1 (before_validate error_on_save) 0 = true)
  /\ (Some {| msg := ""; raise_exception := true |}
      = Some {| msg := replace_newlines
                         (SalesInvoice.validation_errors
                            (SalesInvoice.validate_einvoice engine_failing_baseline None None));
                raise_exception := true |}
      <-> Settings.should_raise_exception 0 1 (before_validate error_on_save) 0 = true)
  /\ (is_Some (Some {| msg := ""; raise_exception := true |}) ->
      Some {| SalesInvoice.einvoice_is_correct := false;
              SalesInvoice.validation_errors := "";
              SalesInvoice.validation_warnings := "" |}
      = Some (SalesInvoice.validate_einvoice engine_failing_baseline None None)).
Proof.
  apply (configured_action_is_never_masked engine_failing_baseline same_day 0 1 error_on_save
           (draft_invoice [] None) None []
           (Some {| SalesInvoice.einvoice_is_correct := false;
                    SalesInvoice.validation_errors := "";
                    SalesInvoice.validation_warnings := "" |})
           (Some {| msg := ""; raise_exception := true |}));
    reflexivity.
Defined.

Lemma missing_profile_is_reported_witness :
  validate_doc engine_failing_baseline same_day 0 1 error_on_save
    (draft_invoice [tax_row "Actual" (Some "Freight") None (Some 5%Q) (Some 105%Q)] None) None
  = Raise ValueError
  /\ exists alerts,
       validate_doc engine_failing_baseline same_day 0 1 error_on_save
         (draft_invoice [tax_row "On Item Quantity" (Some "Deposit") None (Some 5%Q) (Some 105%Q)]
            (Some "")) None
       = Ok (alerts,
             Some {| SalesInvoice.einvoice_is_correct := false;
                     SalesInvoice.validation_errors := "";
                     SalesInvoice.validation_warnings := "" |},
             Some {| msg := ""; raise_exception := true |}).
Proof.
  split.
  - apply (proj1 (missing_profile_is_reported engine_failing_baseline same_day 0 1 error_on_save
                    (draft_invoice [tax_row "Actual" (Some "Freight") None (Some 5%Q)
                                      (Some 105%Q)] None) None)).
    split; [reflexivity |]. eexists. split; [left | reflexivity].
  - destruct (proj2 (missing_profile_is_reported engine_failing_baseline same_day 0 1
                       error_on_save
                       (draft_invoice [tax_row "On Item Quantity" (Some "Deposit") None
                                         (Some 5%Q) (Some 105%Q)] (Some "")) None)
                eq_refl) as [_ Hreported].
    apply Hreported; [| reflexivity | reflexivity].
    intros tax_row Hin. apply list_elem_of_singleton in Hin as ->. discriminate.
Defined.

End SettingsProps.

(** ** Totals *)

Module TotalsProps.
Import Utils SalesInvoice TaxRowKinds Totals Fixtures.

Lemma sum_amounts_Some (amounts : list (option Q)) :
  Forall is_Some amounts -> is_Some (sum_amounts amounts).
Proof.
  induction 1 as [| amount rest [a ->] _ [r IH]]; cbn; [eauto |]. rewrite IH. cbn. eauto.
Qed.

Lemma sum_amounts_None (amounts : list (option Q)) :
  sum_amounts amounts = None <-> None ∈ amounts.
Proof.
  induction amounts as [| [a |] rest IH]; cbn.
  - split; [discriminate | intros H; inversion H].
  - rewrite elem_of_cons. destruct (sum_amounts rest) as [r |]; cbn.
    + split; [discriminate |]. intros [[=] | H]. apply IH in H. discriminate.
    + split; [| reflexivity]. intros _. right. apply IH. reflexivity.
  - split; [| reflexivity]. intros _. apply elem_of_cons. left. reflexivity.
Qed.

Section Host.

Context {rounding : Py.FloatRounding}.
Variable get_codes_for : string -> string -> string -> list string.
Variable get_default_code : string -> option string.
Variable account_tax_rate : option string -> option Q.
Variable flt : Q -> option nat -> Q.

Local Abbreviation _add_taxes_and_charges :=
  (_add_taxes_and_charges get_codes_for get_default_code account_tax_rate).
Local Abbreviation _set_totals := (_set_totals flt).

(** X23.  [_set_totals] reads the amount of every tax row, whatever its
    charge type: it raises exactly when some row of the invoice has no
    tax amount, also when that row is of a type the tax loop skips. *)
Theorem set_totals_reads_every_row (self : EInvoiceGenerator) (amounts : InvoiceAmounts) :
  _set_totals self amounts = None
  <-> exists tax, tax ∈ taxes (invoice self) /\ tax_amount tax = None.
Proof.
  unfold Totals._set_totals, actual_charge_total, tax_total.
  set (rows := taxes (invoice self)).
  split.
  - intros Hrun.
    destruct (sum_amounts (tax_amount <$> filter (fun tax => charge_type tax = "Actual") rows))
      as [charges |] eqn:Hcharges.
    + destruct (sum_amounts (tax_amount <$> filter (fun tax => charge_type tax <> "Actual") rows))
        as [total |] eqn:Htotal; [discriminate Hrun |].
      apply sum_amounts_None, list_elem_of_fmap in Htotal as (tax & Hnone & Hin).
      apply list_elem_of_filter in Hin as [_ Hin]. eauto.
    + apply sum_amounts_None, list_elem_of_fmap in Hcharges as (tax & Hnone & Hin).
      apply list_elem_of_filter in Hin as [_ Hin]. eauto.
  - intros (tax & Hin & Hnone).
    destruct (decide (charge_type tax = "Actual")) as [Hact | Hact].
    + assert (Hcharges : sum_amounts
                (tax_amount <$> filter (fun tax => charge_type tax = "Actual") rows) = None).
      { apply sum_amounts_None, list_elem_of_fmap. exists tax. split; [congruence |].
        apply list_elem_of_filter. auto. }
      rewrite Hcharges. reflexivity.
    + assert (Htotal : sum_amounts
                (tax_amount <$> filter (fun tax => charge_type tax <> "Actual") rows) = None).
      { apply sum_amounts_None, list_elem_of_fmap. exists tax. split; [congruence |].
        apply list_elem_of_filter. auto. }
      rewrite Htotal.
      destruct (sum_amounts (tax_amount <$> filter (fun tax => charge_type tax = "Actual") rows));
        reflexivity.
Qed.

(** X24.  The document-level charge total does not follow the profile:
    for every profile other than EXTENDED the tax loop emits no service
    charge, while [_set_totals] on the resulting generator still sets
    [charge_total] to the sum of the Actual rows when that sum is not
    zero, and adds the sum to the tax basis total. *)
Theorem charge_total_without_service_charge (self : EInvoiceGenerator)
    (amounts : InvoiceAmounts) (charges : Q) :
  profile self <> EXTENDED -> doc_service_charge self = [] ->
  Forall (fun tax => is_Some (tax_amount tax)) (taxes (invoice self)) ->
  actual_charge_total (taxes (invoice self)) = Some charges ->
  ~ (charges == 0)%Q ->
  exists self' tax_added summation,
    _add_taxes_and_charges self = Some (self', tax_added)
    /\ doc_service_charge self' = []
    /\ _set_totals self' amounts = Some summation
    /\ charge_total summation = Some (flt charges (Some 2%nat))
    /\ tax_basis_total summation = flt (net_total (invoice self) + charges)%Q (Some 2%nat).
Proof.
  intros Hprofile Hfresh Hamounts Hcharges Hnonzero.
  destruct (TaxRowEffectProps.add_tax_rows_effect get_codes_for get_default_code account_tax_rate
              (taxes (invoice self)) self false 0)
    as (self' & added & Hrun & Hinv & _ & _ & _ & Hlength & _); [cbn; lia |].
  assert (Hnone : count_rows (emits_service_charge (profile self)) (taxes (invoice self)) = 0%nat).
  { rewrite (TaxRowEffectProps.count_rows_ext _ (fun _ => false)).
    - apply TaxRowEffectProps.count_rows_false.
    - intros tax. unfold emits_service_charge.
      rewrite bool_decide_false by exact Hprofile. apply andb_false_r. }
  rewrite Hnone, Hfresh in Hlength.
  assert (Htotal : is_Some (tax_total (taxes (invoice self)))).
  { apply sum_amounts_Some, Forall_fmap, Forall_forall. intros tax Hin.
    apply list_elem_of_filter in Hin as [_ Hin].
    rewrite Forall_forall in Hamounts. exact (Hamounts tax Hin). }
  destruct Htotal as [total Htotal].
  exists self', added.
  eexists. split; [exact Hrun |]. split.
  - apply nil_length_inv. exact Hlength.
  - unfold Totals._set_totals. rewrite Hinv, Hcharges, Htotal. cbn [mbind option_bind].
    split; [reflexivity |]. cbn [charge_total tax_basis_total Py.truthy_num].
    split; [| reflexivity].
    destruct (Qeq_bool charges 0) eqn:Hzero; [| reflexivity].
    apply Qeq_bool_iff in Hzero. contradiction.
Qed.

End Host.

#[local] Existing Instance Fixtures.exact_rounding.

Lemma charge_total_without_service_charge_witness :
  exists self' tax_added summation,
    _add_taxes_and_charges codes_for no_default_code no_account_rate
      (new_generator XRECHNUNG freight_invoice) = Some (self', tax_added)
    /\ doc_service_charge self' = []
    /\ _set_totals flt_exact self' invoice_amounts = Some summation
    /\ charge_total summation = Some 5%Q
    /\ tax_basis_total summation = (100 + 5)%Q.
Proof.
  apply (charge_total_without_service_charge codes_for no_default_code no_account_rate flt_exact
           (new_generator XRECHNUNG freight_invoice) invoice_amounts 5%Q).
  - discriminate.
  - reflexivity.
  - repeat constructor; cbn; eauto.
  - reflexivity.
  - intros H. vm_compute in H. discriminate H.
Defined.

End TotalsProps.

(** ** VAT ids *)

Module VatIdProps.
Import VatId.

#[local] Arguments String.append : simpl never.

Lemma capital_fixed (c : ascii) :
  is_capital c = true ->
  Py.upper_ascii c = c /\ (Ascii.nat_of_ascii c =? 32)%nat = false.
Proof.
  destruct c as [[] [] [] [] [] [] [] []]; intros H;
    first [discriminate H | split; reflexivity].
Qed.

Lemma vat_character_plain (c : ascii) :
  is_vat_character c = true ->
  (Ascii.nat_of_ascii c =? 32)%nat = false /\ is_line_feed c = false.
Proof.
  destruct c as [[] [] [] [] [] [] [] []]; intros H;
    first [discriminate H | split; reflexivity].
Qed.

Lemma substring_0_0 (s : string) : String.substring 0 0 s = "".
Proof. destruct s; reflexivity. Qed.

Lemma remove_spaces_idempotent (s : string) : remove_spaces (remove_spaces s) = remove_spaces s.
Proof.
  induction s as [| c s IH]; [reflexivity |]. cbn.
  destruct (Ascii.nat_of_ascii c =? 32)%nat eqn:Hc; [exact IH |].
  cbn. rewrite Hc, IH. reflexivity.
Qed.

Lemma span_length (s : string) (n : nat) (tail : string) :
  span_vat_characters s = (n, tail) -> String.length s = (n + String.length tail)%nat.
Proof.
  revert n tail. induction s as [| c s IH]; intros n tail; cbn.
  - intros [= <- <-]. reflexivity.
  - destruct (is_vat_character c).
    + destruct (span_vat_characters s) as [m rest]. intros [= <- <-].
      rewrite (IH m rest eq_refl). reflexivity.
    + intros [= <- <-]. reflexivity.
Qed.

Lemma span_line_feed (s : string) (n : nat) :
  span_vat_characters s = (n, "") ->
  span_vat_characters (s +:+ Py.newline) = (n, Py.newline)
  /\ remove_spaces (s +:+ Py.newline) = s +:+ Py.newline.
Proof.
  revert n. induction s as [| c s IH]; intros n.
  - intros [= <-]. split; reflexivity.
  - change (String c s +:+ Py.newline) with (String c (s +:+ Py.newline)). cbn.
    destruct (is_vat_character c) eqn:Hc; [| discriminate].
    destruct (span_vat_characters s) as [m rest]. intros [= <- ->].
    destruct (IH m eq_refl) as [-> ->].
    destruct (vat_character_plain c Hc) as [-> _]. split; reflexivity.
Qed.

(** What an accepted id looks like. *)
Lemma validate_vat_id_Ok (vat_id result : string) :
  validate_vat_id vat_id = Py.Ok result ->
  exists a b rest,
    vat_id = String a (String b rest)
    /\ is_capital (Py.upper_ascii a) = true /\ is_capital (Py.upper_ascii b) = true
    /\ match_vat_number (remove_spaces rest) = true
    /\ result = String (Py.upper_ascii a) (String (Py.upper_ascii b) (remove_spaces rest)).
Proof.
  unfold validate_vat_id.
  destruct vat_id as [| a [| b rest]]; [discriminate | discriminate |].
  unfold Py.str_prefix. cbn [String.substring]. rewrite substring_0_0.
  cbn [Py.upper match_country_code str_from_2].
  destruct (is_capital (Py.upper_ascii a)) eqn:Ha; [| discriminate].
  destruct (is_capital (Py.upper_ascii b)) eqn:Hb; [| discriminate].
  cbn [andb negb].
  destruct (match_vat_number (remove_spaces rest)) eqn:Hnumber; [| discriminate].
  cbn [negb]. intros [= <-]. exists a, b, rest. repeat split; assumption.
Qed.

Lemma isascii_String (c : ascii) (s : string) :
  Py.isascii (String c s) = (Ascii.nat_of_ascii c <? 128)%nat && Py.isascii s.
Proof. reflexivity. Qed.

Lemma remove_spaces_isascii (s : string) :
  Py.isascii s = true -> Py.isascii (remove_spaces s) = true.
Proof.
  induction s as [| c s IH]; [reflexivity |]. rewrite isascii_String.
  intros Hs. apply andb_true_iff in Hs as [Hc Hs]. cbn [remove_spaces].
  destruct (Ascii.nat_of_ascii c =? 32)%nat; [exact (IH Hs) |].
  rewrite isascii_String, Hc. exact (IH Hs).
Qed.

Lemma capital_isascii (c : ascii) :
  is_capital c = true -> (Ascii.nat_of_ascii c <? 128)%nat = true.
Proof.
  unfold is_capital. intros Hc. apply andb_true_iff in Hc as [_ Hhigh].
  apply Nat.leb_le in Hhigh. apply Nat.ltb_lt. lia.
Qed.

(** X25.  An id of ASCII characters that [validate_vat_id] returns is in
    normal form: the result is again of ASCII characters, the function
    returns it unchanged when applied again, it contains no space, and it
    is between 4 and 15 characters long. *)
Theorem validate_vat_id_normal_form (vat_id result : string) :
  Py.isascii vat_id = true ->
  validate_vat_id vat_id = Py.Ok result ->
  Py.isascii result = true
  /\ validate_vat_id result = Py.Ok result
  /\ remove_spaces result = result
  /\ (4 <= String.length result <= 15)%nat.
Proof.
  intros Hascii Hrun.
  apply validate_vat_id_Ok in Hrun as (a & b & rest & -> & Ha & Hb & Hnumber & ->).
  destruct (capital_fixed _ Ha) as [Hupper_a Hspace_a].
  destruct (capital_fixed _ Hb) as [Hupper_b Hspace_b].
  split; [| split; [| split]].
  - rewrite !isascii_String in Hascii.
    apply andb_true_iff in Hascii as [_ Hascii]. apply andb_true_iff in Hascii as [_ Hascii].
    rewrite !isascii_String, (capital_isascii _ Ha), (capital_isascii _ Hb).
    exact (remove_spaces_isascii rest Hascii).
  - unfold validate_vat_id, Py.str_prefix. cbn [String.substring]. rewrite substring_0_0.
    cbn [Py.upper match_country_code str_from_2].
    rewrite Hupper_a, Hupper_b, Ha, Hb, remove_spaces_idempotent, Hnumber. reflexivity.
  - cbn [remove_spaces]. rewrite Hspace_a, Hspace_b, remove_spaces_idempotent. reflexivity.
  - unfold match_vat_number in Hnumber.
    destruct (span_vat_characters (remove_spaces rest)) as [n tail] eqn:Hspan.
    apply span_length in Hspan. cbn [String.length]. rewrite Hspan.
    apply andb_true_iff in Hnumber as [Hbounds Htail].
    apply andb_true_iff in Hbounds as [Hlow Hhigh].
    apply Nat.leb_le in Hlow, Hhigh.
    destruct tail as [| c [| d tail]]; cbn [String.length]; [lia | lia | discriminate].
Qed.

(** X26.  A line feed at the end of the number is neither rejected nor
    removed: for two capital letters followed by 2 to 12 characters of
    the number class and one final line feed, [validate_vat_id] returns
    the input as it is, line feed included. *)
Theorem trailing_line_feed_is_kept (a b : ascii) (number : string) (n : nat) :
  is_capital a = true -> is_capital b = true ->
  span_vat_characters number = (n, "") -> (2 <= n <= 12)%nat ->
  validate_vat_id (String a (String b (number +:+ Py.newline)))
  = Py.Ok (String a (String b (number +:+ Py.newline))).
Proof.
  intros Ha Hb Hspan [Hlow Hhigh].
  destruct (capital_fixed _ Ha) as [Hupper_a _].
  destruct (capital_fixed _ Hb) as [Hupper_b _].
  destruct (span_line_feed number n Hspan) as [Hfeed Hplain].
  unfold validate_vat_id, Py.str_prefix. cbn [String.substring]. rewrite substring_0_0.
  cbn [Py.upper match_country_code str_from_2].
  rewrite Hupper_a, Hupper_b, Ha, Hb, Hplain. cbn [andb negb].
  unfold match_vat_number. rewrite Hfeed.
  apply Nat.leb_le in Hlow, Hhigh. rewrite Hlow, Hhigh. reflexivity.
Qed.

Lemma validate_vat_id_normal_form_witness :
  Py.isascii "DE123456789" = true
  /\ validate_vat_id "DE123456789" = Py.Ok "DE123456789"
  /\ remove_spaces "DE123456789" = "DE123456789"
  /\ (4 <= String.length "DE123456789" <= 15)%nat.
Proof.
  apply (validate_vat_id_normal_form "de 123 456 789" "DE123456789"); reflexivity.
Defined.

Lemma trailing_line_feed_is_kept_witness :
  validate_vat_id ("DE123456789" +:+ Py.newline) = Py.Ok ("DE123456789" +:+ Py.newline).
Proof.
  apply (trailing_line_feed_is_kept "D" "E" "123456789" 9); [reflexivity .. | lia].
Defined.

End VatIdProps.

(** ** Supplier guess and the description column of the order row query *)

Module ImportResolutionProps.
Import ImportResolution.

#[local] Arguments String.append : simpl never.

Lemma length_append (s t : string) :
  String.length (s +:+ t) = (String.length s + String.length t)%nat.
Proof.
  induction s as [| c s IH]; [reflexivity |].
  change (String c s +:+ t) with (String c (s +:+ t)). cbn [String.length]. rewrite IH. reflexivity.
Qed.

Lemma str_prefix_short (n : nat) (s : string) :
  (String.length s <= n)%nat -> Py.str_prefix n s = s.
Proof.
  unfold Py.str_prefix. revert s. induction n as [| n IH]; intros s Hs.
  - destruct s; [reflexivity | cbn in Hs; lia].
  - destruct s as [| c s]; [reflexivity |]. cbn in Hs. cbn. rewrite IH by lia. reflexivity.
Qed.

Lemma str_prefix_bound (n : nat) (s : string) : (String.length (Py.str_prefix n s) <= n)%nat.
Proof.
  unfold Py.str_prefix. revert s. induction n as [| n IH]; intros s.
  - destruct s; cbn; lia.
  - destruct s as [| c s]; cbn; [lia |]. specialize (IH s). lia.
Qed.

Section Host.

Variable supplier_exists : string -> bool.
Variable supplier_by_tax_id : string -> option string.

(** X27.  When the import has no supplier yet and the invoice names a
    seller tax id, [guess_supplier] leaves the result of the tax id
    lookup, whatever the lookup by name found: a supplier matched by
    name is replaced, and is dropped when no supplier carries the tax
    id. *)
Theorem tax_id_lookup_overrides_name_match (supplier : option string) (seller_name : string)
    (seller_tax_id : string) :
  Py.truthy_str supplier = false -> seller_tax_id <> "" ->
  guess_supplier supplier_exists supplier_by_tax_id supplier seller_name (Some seller_tax_id)
  = supplier_by_tax_id seller_tax_id
  /\ forall name_lookup : string -> bool,
       guess_supplier name_lookup supplier_by_tax_id supplier seller_name (Some seller_tax_id)
       = guess_supplier supplier_exists supplier_by_tax_id supplier seller_name
           (Some seller_tax_id).
Proof.
  intros Hunset Htax.
  assert (Hgiven : Py.truthy_str (Some seller_tax_id) = true).
  { cbn. apply negb_true_iff, String.eqb_neq. exact Htax. }
  unfold guess_supplier. rewrite Hunset, Hgiven. split; [reflexivity |]. intros other. reflexivity.
Qed.

End Host.

Import Fixtures.

Lemma tax_id_lookup_overrides_name_match_witness :
  guess_supplier known_supplier no_tax_id_match None "ACME" (Some "DE123456789") = None
  /\ forall name_lookup : string -> bool,
       guess_supplier name_lookup no_tax_id_match None "ACME" (Some "DE123456789")
       = guess_supplier known_supplier no_tax_id_match None "ACME" (Some "DE123456789").
Proof.
  apply (tax_id_lookup_overrides_name_match known_supplier no_tax_id_match None "ACME"
           "DE123456789"); [reflexivity | discriminate].
Defined.

(** X28.  The description column is never longer than 103 characters,
    and a description of 41 to 100 characters is not shortened at all
    but still gets the three dots appended. *)
Theorem ellipsis_without_truncation (description : string) :
  (String.length (po_item_description description) <= 103)%nat
  /\ ((40 < String.length description <= 100)%nat ->
      po_item_description description = description +:+ "...").
Proof.
  unfold po_item_description. split.
  - destruct (40 <? String.length description)%nat eqn:Hlong.
    + rewrite length_append. pose proof (str_prefix_bound 100 description). cbn. lia.
    + apply Nat.ltb_ge in Hlong. lia.
  - intros [Hlow Hhigh]. apply Nat.ltb_lt in Hlow. rewrite Hlow.
    rewrite str_prefix_short by exact Hhigh. reflexivity.
Qed.

Lemma ellipsis_without_truncation_witness :
  po_item_description "Stainless steel hex bolt M8 x 40, zinc plated"
  = "Stainless steel hex bolt M8 x 40, zinc plated" +:+ "...".
Proof.
  apply (proj2 (ellipsis_without_truncation "Stainless steel hex bolt M8 x 40, zinc plated")).
  cbn. lia.
Defined.

End ImportResolutionProps.
